(** * Telnyx contact-center IVR: webhook routing core and analytics surface

    A shallow embedding of [app.py], [analytics_db.py] and
    [analytics_api.py].  JSON values are an inductive type carrying
    Python's truthiness and equality, text being held as UTF-8 and read
    by code point where Python looks at characters; the process-local
    sets, the SQLite tables and the log of outbound provider requests form
    an explicit [world]; Python exceptions are the [Raise] outcome of a
    small state-and-exception monad.  Whatever the program cannot control
    (the clock, the uuid source, the provider's HTTP answers, disk faults)
    is read from an [env] given afresh to each request. *)

From Stdlib Require Import List String Ascii Bool ZArith QArith Qabs Lia.
From Stdlib Require Import DecimalString.
From Stdlib Require DecimalPos.
Import ListNotations.

Open Scope string_scope.
Open Scope Z_scope.

Set Warnings "-register-all".

(** ** Python values *)

(** A parsed float: finite (an exact rational), infinite, or NaN. *)
Inductive pyfloat : Type :=
| FFinite (q : Q)
| FInf (negative : bool)
| FNaN.

(** What [json.loads] hands to the program. *)
Inductive json : Type :=
| JNull
| JBool (b : bool)
| JInt (n : Z)
| JFloat (f : pyfloat)
| JStr (s : string)
| JList (items : list json)
| JDict (fields : list (string * json)).

(** [bool(v)]: the test behind [if v], [not v] and [a or b]. *)
Definition truthy (v : json) : bool :=
  match v with
  | JNull => false
  | JBool b => b
  | JInt n => negb (n =? 0)
  | JFloat (FFinite q) => negb (Qeq_bool q 0)
  | JFloat _ => true
  | JStr s => negb (s =? "")%string
  | JList l => match l with [] => false | _ :: _ => true end
  | JDict d => match d with [] => false | _ :: _ => true end
  end.

(** [a or b] *)
Definition py_or (a b : json) : json := if truthy a then a else b.

(** The numeric tower: [True == 1 == 1.0]. *)
Definition py_num (v : json) : option Q :=
  match v with
  | JBool b => Some (if b then 1%Q else 0%Q)
  | JInt n => Some (inject_Z n)
  | JFloat (FFinite q) => Some q
  | _ => None
  end.

(** [a == b] on hashable values, as a set uses it to find a member. *)
Definition py_eq (a b : json) : bool :=
  match py_num a, py_num b with
  | Some p, Some q => Qeq_bool p q
  | None, None =>
      match a, b with
      | JNull, JNull => true
      | JStr s, JStr t => (s =? t)%string
      | JFloat (FInf m), JFloat (FInf n) => Bool.eqb m n
      | _, _ => false
      end
  | _, _ => false
  end.

(** Lists and dicts are unhashable: using one as a set element raises
    [TypeError]. *)
Definition hashable (v : json) : bool :=
  match v with
  | JList _ | JDict _ => false
  | _ => true
  end.

(** [x in s] for a hashable [x]. *)
Definition py_in (x : json) (s : list json) : bool := existsb (py_eq x) s.

(** [s.add(x)] *)
Definition set_add (x : json) (s : list json) : list json :=
  if py_in x s then s else x :: s.

(** [v == "literal"]: only a string equals a string. *)
Definition is_str (v : json) (lit : string) : bool :=
  match v with
  | JStr s => (s =? lit)%string
  | _ => false
  end.

(** Lookup in the field list of a dict (the first binding of a key is the
    one the dict holds). *)
Fixpoint assoc (k : string) (kvs : list (string * json)) : option json :=
  match kvs with
  | [] => None
  | (k', v) :: rest => if (k' =? k)%string then Some v else assoc k rest
  end.

(** [d.get(k)] on a dict: the value, or [None]. *)
Definition dict_get (kvs : list (string * json)) (k : string) : json :=
  match assoc k kvs with
  | Some v => v
  | None => JNull
  end.

(** *** Text

    A Python [str] is a sequence of code points.  It is held here as its
    UTF-8 encoding, one [ascii] per byte (a lone surrogate, which a JSON
    escape can produce, in its three-byte form): equality, prefix and the
    byte order by which SQLite compares text are then those of [string].
    The operations that look at characters, [str.strip] and [int], decode
    it. *)

Definition byte (c : ascii) : Z := Z.of_N (N_of_ascii c).

(** A UTF-8 continuation byte, 10xxxxxx. *)
Definition is_continuation (c : ascii) : bool :=
  (128 <=? byte c) && (byte c <? 192).

(** The characters of a text: a character starts at a byte that is no
    continuation byte and takes the continuation bytes behind it. *)
Fixpoint utf8_chars (s : string) : list string :=
  match s with
  | EmptyString => []
  | String c rest =>
      match rest with
      | EmptyString => [String c EmptyString]
      | String c' _ =>
          if is_continuation c'
          then match utf8_chars rest with
               | ch :: chs => String c ch :: chs
               | [] => [String c EmptyString]
               end
          else String c EmptyString :: utf8_chars rest
      end
  end.

(** U+FFFD stands for bytes that encode no character. *)
Definition replacement_character : Z := 65533.

(** The code point of one character, from its one to four bytes; an
    encoding longer than the code point needs is none. *)
Definition code_point (ch : string) : Z :=
  match ch with
  | String a EmptyString =>
      if byte a <? 128 then byte a else replacement_character
  | String a (String b EmptyString) =>
      let v := (byte a - 192) * 64 + (byte b - 128) in
      if (192 <=? byte a) && (byte a <? 224) && (128 <=? v)
      then v else replacement_character
  | String a (String b (String c EmptyString)) =>
      let v := (byte a - 224) * 4096 + (byte b - 128) * 64 + (byte c - 128) in
      if (224 <=? byte a) && (byte a <? 240) && (2048 <=? v)
      then v else replacement_character
  | String a (String b (String c (String d EmptyString))) =>
      let v := (byte a - 240) * 262144 + (byte b - 128) * 4096
               + (byte c - 128) * 64 + (byte d - 128) in
      if (240 <=? byte a) && (byte a <? 248) && (65536 <=? v) && (v <=? 1114111)
      then v else replacement_character
  | _ => replacement_character
  end.

Definition code_points (s : string) : list Z := map code_point (utf8_chars s).

(** The bytes of one code point. *)
Definition utf8_char (cp : Z) : string :=
  let b := fun n : Z => ascii_of_N (Z.to_N n) in
  if cp <? 128 then String (b cp) EmptyString
  else if cp <? 2048
  then String (b (192 + cp / 64)) (String (b (128 + cp mod 64)) EmptyString)
  else if cp <? 65536
  then String (b (224 + cp / 4096))
         (String (b (128 + (cp / 64) mod 64))
            (String (b (128 + cp mod 64)) EmptyString))
  else String (b (240 + cp / 262144))
         (String (b (128 + (cp / 4096) mod 64))
            (String (b (128 + (cp / 64) mod 64))
               (String (b (128 + cp mod 64)) EmptyString))).

Definition join (chs : list string) : string := fold_right append "" chs.

(** The text with the given code points. *)
Definition text (cps : list Z) : string := join (map utf8_char cps).

(** The characters for which [str.isspace] holds, which are those
    [str.strip()] removes: TAB, LF, VT, FF, CR, FS, GS, RS, US, SPACE,
    U+0085, U+00A0, U+1680, U+2000 to U+200A, U+2028, U+2029, U+202F,
    U+205F and U+3000. *)
Definition unicode_whitespace : list Z :=
  [9; 10; 11; 12; 13; 28; 29; 30; 31; 32; 133; 160; 5760;
   8192; 8193; 8194; 8195; 8196; 8197; 8198; 8199; 8200; 8201; 8202;
   8232; 8233; 8239; 8287; 12288].

Definition py_isspace (cp : Z) : bool := existsb (Z.eqb cp) unicode_whitespace.

Definition is_space (ch : string) : bool := py_isspace (code_point ch).

Fixpoint drop_spaces (chs : list string) : list string :=
  match chs with
  | [] => []
  | ch :: rest => if is_space ch then drop_spaces rest else chs
  end.

(** White space characters taken off both ends. *)
Definition trim (chs : list string) : list string :=
  rev (drop_spaces (rev (drop_spaces chs))).

(** [s.strip()] *)
Definition strip (s : string) : string := join (trim (utf8_chars s)).

(** The decimal digits of Unicode 14.0 (general category Nd): each entry
    is the zero of ten consecutive digits. *)
Definition unicode_decimal_zeros : list Z :=
  [48; 1632; 1776; 1984; 2406; 2534; 2662; 2790; 2918; 3046; 3174; 3302;
   3430; 3558; 3664; 3792; 3872; 4160; 4240; 6112; 6160; 6470; 6608; 6784;
   6800; 6992; 7088; 7232; 7248; 42528; 43216; 43264; 43472; 43504; 43600;
   44016; 65296; 66720; 68912; 69734; 69872; 69942; 70096; 70384; 70736;
   70864; 71248; 71360; 71472; 71904; 72016; 72784; 73040; 73120; 92768;
   92864; 93008; 120782; 120792; 120802; 120812; 120822; 123200; 123632;
   125264; 130032].

(** The value of a decimal digit. *)
Definition py_decimal (cp : Z) : option Z :=
  option_map (fun zero => cp - zero)
    (find (fun zero => (zero <=? cp) && (cp <? zero + 10))
       unicode_decimal_zeros).

(** What [int] does to its text before it reads it: ASCII stays (U+007F
    with it, which is no part of a number either way), other white space
    becomes a space, other decimal digits become ASCII digits, and the
    text ends in a question mark at the first character that is none of
    these. *)
Fixpoint to_ascii (cps : list Z) : list Z :=
  match cps with
  | [] => []
  | c :: rest =>
      if c <? 128 then c :: to_ascii rest
      else if py_isspace c then 32 :: to_ascii rest
      else match py_decimal c with
           | Some d => (48 + d) :: to_ascii rest
           | None => [63]
           end
  end.

(** The white space [int] skips around the number: TAB, LF, VT, FF, CR
    and SPACE. *)
Definition c_isspace (c : Z) : bool :=
  ((9 <=? c) && (c <=? 13)) || (c =? 32).

Fixpoint skip_spaces (cs : list Z) : list Z :=
  match cs with
  | [] => []
  | c :: rest => if c_isspace c then skip_spaces rest else cs
  end.

Definition is_digit (c : Z) : bool := (48 <=? c) && (c <=? 57).

(** Digits, with single underscores allowed between them, and then
    nothing but white space. *)
Fixpoint parse_digits (cs : list Z) (acc : Z) (after_digit : bool)
  : option Z :=
  match cs with
  | [] => if after_digit then Some acc else None
  | c :: rest =>
      if is_digit c
      then parse_digits rest (10 * acc + (c - 48)) true
      else if (c =? 95) && after_digit
           then parse_digits rest acc false
           else if after_digit && forallb c_isspace cs
                then Some acc
                else None
  end.

(** An optional sign, then the digits. *)
Definition parse_signed (cs : list Z) : option Z :=
  match cs with
  | [] => None
  | c :: rest =>
      if c =? 43 then parse_digits rest 0 false
      else if c =? 45 then option_map Z.opp (parse_digits rest 0 false)
      else parse_digits cs 0 false
  end.

(** [sys.int_info.default_max_str_digits]: [int] refuses a text with more
    digits.  The program leaves the limit as it is. *)
Definition int_max_str_digits : Z := 4300.

(** [int(s)] of a text: the number, or [None] where [ValueError] is
    raised. *)
Definition py_int (s : string) : option Z :=
  let cs := skip_spaces (to_ascii (code_points s)) in
  if int_max_str_digits <? Z.of_nat (List.length (filter is_digit cs))
  then None
  else parse_signed cs.

(** *** Vocabulary for text *)

(** A text of white space only. *)
Definition white (s : string) : bool := forallb is_space (utf8_chars s).

Definition starts_clean (chs : list string) : bool :=
  match chs with
  | [] => true
  | ch :: _ => negb (is_space ch)
  end.

(** A text with no white space character at either end. *)
Definition bare (s : string) : bool :=
  starts_clean (utf8_chars s) && starts_clean (rev (utf8_chars s)).

(** [t] is [s] trimmed: [s] is [t] between two runs of white space, and
    [t] has no white space at either end. *)
Definition trimmed_of (s t : string) : Prop :=
  exists l r : string,
    s = l ++ t ++ r /\ white l = true /\ white r = true /\ bare t = true.

Definition bytes (s : string) : list Z := map byte (list_ascii_of_string s).

(** A text of ASCII characters none of which is white space to [int]. *)
Definition plain (s : string) : bool :=
  forallb (fun c => (c <? 128) && negb (c_isspace c)) (bytes s).

(** A character: one byte and the continuation bytes behind it. *)
Definition one_char (ch : string) : bool :=
  match ch with
  | EmptyString => false
  | String _ t => forallb is_continuation (list_ascii_of_string t)
  end.

(** A text that does not begin inside a character. *)
Definition at_boundary (s : string) : bool :=
  match s with
  | EmptyString => true
  | String c _ => negb (is_continuation c)
  end.

(** A list of characters as [utf8_chars] gives it: only the first may
    begin with a continuation byte. *)
Definition chars_ok (chs : list string) : Prop :=
  match chs with
  | [] => True
  | ch :: rest =>
      one_char ch = true /\
      Forall (fun x => one_char x = true /\ at_boundary x = true) rest
  end.

(** [str(n)] for an int. *)
Definition str_of_int (n : Z) : string := NilZero.string_of_int (Z.to_int n).

(** ** The world the handlers act on *)

(** Rows of the four tables.  A column holds the value sqlite3 bound to it. *)
Record call_row : Type := mkCall {
  call_control_id : json;
  from_number : json;
  to_number : json;
  created_at : string
}.

Record event_row : Type := mkEvent {
  ev_call : json;
  ev_type : json;
  ev_ts : string;
  payload_json : option json
}.

Record ivr_row : Type := mkIvr {
  ivr_call : json;
  ivr_digit : string;
  ivr_department : string;
  ivr_ts : string
}.

Record transfer_row : Type := mkTransfer {
  tr_call : json;
  to_sip_uri : string;
  status : string;
  tr_ts : string
}.

(** One outbound [requests.post]: where, what, and what came back
    ([None] when the call raised, otherwise the HTTP status). *)
Record post_record : Type := mkPost {
  p_url : string;
  p_body : json;
  p_status : option Z
}.

Record world : Type := mkWorld {
  ROUTED_CALLS : list json;
  ENDED_CALLS : list json;
  db_file : bool;                      (* os.path.exists(DB_PATH) *)
  calls : list call_row;
  call_events : list event_row;
  ivr_interactions : list ivr_row;
  transfers : list transfer_row;
  posted : list post_record            (* newest first *)
}.

Definition with_routed (s : list json) (w : world) : world :=
  mkWorld s (ENDED_CALLS w) (db_file w) (calls w) (call_events w)
          (ivr_interactions w) (transfers w) (posted w).

Definition with_ended (s : list json) (w : world) : world :=
  mkWorld (ROUTED_CALLS w) s (db_file w) (calls w) (call_events w)
          (ivr_interactions w) (transfers w) (posted w).

Definition with_db_file (b : bool) (w : world) : world :=
  mkWorld (ROUTED_CALLS w) (ENDED_CALLS w) b (calls w) (call_events w)
          (ivr_interactions w) (transfers w) (posted w).

Definition with_calls (t : list call_row) (w : world) : world :=
  mkWorld (ROUTED_CALLS w) (ENDED_CALLS w) (db_file w) t (call_events w)
          (ivr_interactions w) (transfers w) (posted w).

Definition with_call_events (t : list event_row) (w : world) : world :=
  mkWorld (ROUTED_CALLS w) (ENDED_CALLS w) (db_file w) (calls w) t
          (ivr_interactions w) (transfers w) (posted w).

Definition with_ivr_interactions (t : list ivr_row) (w : world) : world :=
  mkWorld (ROUTED_CALLS w) (ENDED_CALLS w) (db_file w) (calls w)
          (call_events w) t (transfers w) (posted w).

Definition with_transfers (t : list transfer_row) (w : world) : world :=
  mkWorld (ROUTED_CALLS w) (ENDED_CALLS w) (db_file w) (calls w)
          (call_events w) (ivr_interactions w) t (posted w).

Definition with_posted (l : list post_record) (w : world) : world :=
  mkWorld (ROUTED_CALLS w) (ENDED_CALLS w) (db_file w) (calls w)
          (call_events w) (ivr_interactions w) (transfers w) l.

(** The process right after start: empty sets, no database file yet. *)
Definition initial_world : world := mkWorld [] [] false [] [] [] [] [].

(** ** The environment of one request *)

Inductive db_op : Type :=
| OpSaveCall | OpLogEvent | OpLogIvr | OpLogTransfer
| OpKpis | OpTrend | OpRecent.

(** How [init_db] ends when it is run: the schema is installed, or it
    raises, having created the database file or not. *)
Inductive init_outcome : Type :=
| InitOk
| InitFails (file_created : bool).

Record env : Type := mkEnv {
  utcnow : string;                     (* datetime.utcnow().isoformat() + "Z" *)
  cutoff_24h : string;                 (* (utcnow() - 24h).isoformat() + "Z" *)
  cutoff_days : Z -> string;           (* (utcnow() - days).isoformat() + "Z" *)
  uuid4 : string -> string;            (* the command id drawn for a request url *)
  http : string -> json -> option Z;   (* requests.post: None = it raised *)
  init_outcome_of : init_outcome;      (* what init_db does if it is run *)
  disk_ok : db_op -> bool;             (* false: sqlite3 raises inside the try *)
  getenv : string -> option string     (* os.getenv *)
}.

(** ** Exceptions and state *)

Inductive exn : Type :=
| AttributeError
| TypeError
| InitError        (* whatever init_db re-raises *)
| SqlError         (* sqlite3.Error and binding errors *)
| KeyError.

Inductive outcome (A : Type) : Type :=
| Return (a : A)
| Raise (e : exn).
Arguments Return {A} a.
Arguments Raise {A} e.

Definition M (A : Type) : Type := world -> outcome A * world.

Definition ret {A} (a : A) : M A := fun w => (Return a, w).

Definition raise {A} (e : exn) : M A := fun w => (Raise e, w).

Definition bind {A B} (m : M A) (k : A -> M B) : M B :=
  fun w =>
    match m w with
    | (Return a, w') => k a w'
    | (Raise e, w') => (Raise e, w')
    end.

Notation "x <- m ;; k" := (bind m (fun x => k))
  (at level 61, m at next level, right associativity).
Notation "m ;; k" := (bind m (fun _ => k))
  (at level 61, right associativity).

Definition get_world : M world := fun w => (Return w, w).

Definition modify (f : world -> world) : M unit := fun w => (Return tt, f w).

(** [try: m  except Exception: h] *)
Definition try_except {A} (m : M A) (h : exn -> M A) : M A :=
  fun w =>
    match m w with
    | (Raise e, w') => h e w'
    | r => r
    end.

(** [v.get(k)]: only a dict has [get]. *)
Definition py_get (v : json) (k : string) : M json :=
  match v with
  | JDict kvs => ret (dict_get kvs k)
  | _ => raise AttributeError
  end.

(** [v.get(k, default)] *)
Definition py_get_default (v : json) (k : string) (default : json) : M json :=
  match v with
  | JDict kvs => ret (match assoc k kvs with Some x => x | None => default end)
  | _ => raise AttributeError
  end.

(** [x in s] on a set: hashing an unhashable value raises. *)
Definition set_contains (x : json) (s : list json) : M bool :=
  if hashable x then ret (py_in x s) else raise TypeError.

(** ** analytics_db.py: the event store *)

(** What sqlite3 stores for a bound parameter: [bool] is an [int], NaN
    becomes NULL, an int must fit 64 bits, and a list or a dict is not a
    supported type (binding raises). *)
Definition sql_bind (v : json) : option json :=
  match v with
  | JList _ | JDict _ => None
  | JBool b => Some (JInt (if b then 1 else 0))
  | JInt n =>
      if (- 2 ^ 63 <=? n) && (n <? 2 ^ 63) then Some v else None
  | JFloat FNaN => Some JNull
  | _ => Some v
  end.

Definition bind_param (v : json) : M json :=
  match sql_bind v with
  | Some x => ret x
  | None => raise SqlError
  end.

(** Modelled from the spec: db/schema.sql (column types and collations) is
    not among the sources; the data model keys every entity by the opaque
    call identifier, so [a = b] in SQL is equality of the stored values,
    and NULL equals nothing. *)
Definition sql_eq (a b : json) : bool :=
  match a, b with
  | JNull, _ | _, JNull => false
  | _, _ => py_eq a b
  end.

(** A sqlite3 call inside a [try]: it raises when the disk fails. *)
Definition sql_guard (E : env) (op : db_op) : M unit :=
  if disk_ok E op then ret tt else raise SqlError.

(** [init_db] runs db/schema.sql, which is not among the sources: whether
    it succeeds, and whether a failure leaves a database file behind, is
    for the environment to say.  A failure is re-raised. *)
Definition init_db (E : env) : M unit :=
  fun w =>
    match init_outcome_of E with
    | InitOk => (Return tt, with_db_file true w)
    | InitFails created =>
        (Raise InitError, if created then with_db_file true w else w)
    end.

Definition ensure_db (E : env) : M unit :=
  w <- get_world ;;
  if db_file w then ret tt else init_db E.

Definition save_call_if_new (E : env) (ccid from to : json) : M unit :=
  ensure_db E ;;
  try_except
    (sql_guard E OpSaveCall ;;
     k <- bind_param ccid ;;
     w <- get_world ;;
     if existsb (fun r => sql_eq (call_control_id r) k) (calls w)
     then ret tt
     else
       f <- bind_param from ;;
       t <- bind_param to ;;
       modify (fun w => with_calls (mkCall k f t (utcnow E) :: calls w) w))
    (fun _ => ret tt).

Definition log_event (E : env) (ccid event_type payload_dict : json) : M unit :=
  ensure_db E ;;
  try_except
    (sql_guard E OpLogEvent ;;
     let payload := if truthy payload_dict then Some payload_dict else None in
     k <- bind_param ccid ;;
     t <- bind_param event_type ;;
     modify (fun w =>
       with_call_events (mkEvent k t (utcnow E) payload :: call_events w) w))
    (fun _ => ret tt).

Definition valid_departments : list string := ["sales"; "support"; "porting"].

Definition str_in (s : string) (l : list string) : bool :=
  existsb (String.eqb s) l.

Definition log_ivr_selection (E : env) (ccid : json) (dgt dept : string)
  : M unit :=
  ensure_db E ;;
  if negb (str_in dept valid_departments) then ret tt
  else
    try_except
      (sql_guard E OpLogIvr ;;
       k <- bind_param ccid ;;
       modify (fun w =>
         with_ivr_interactions
           (mkIvr k dgt dept (utcnow E) :: ivr_interactions w) w))
      (fun _ => ret tt).

Definition log_transfer (E : env) (ccid : json) (to_uri st : string)
  : M unit :=
  ensure_db E ;;
  if negb (str_in st ["success"; "error"]) then ret tt
  else
    try_except
      (sql_guard E OpLogTransfer ;;
       k <- bind_param ccid ;;
       modify (fun w =>
         with_transfers (mkTransfer k to_uri st (utcnow E) :: transfers w) w))
      (fun _ => ret tt).

(** *** The read side *)

(** [if department:] on an [Optional[str]] *)
Definition dept_given (department : option string) : option string :=
  match department with
  | Some d => if (d =? "")%string then None else Some d
  | None => None
  end.

(** [department or "all"] *)
Definition dept_or_all (department : option string) : string :=
  match dept_given department with
  | Some d => d
  | None => "all"
  end.

(** [calls c LEFT JOIN ivr_interactions ivr ON c.call_control_id =
    ivr.call_control_id] *)
Definition left_join (cs : list call_row) (ivrs : list ivr_row)
  : list (call_row * option ivr_row) :=
  flat_map
    (fun c =>
       match filter (fun i => sql_eq (call_control_id c) (ivr_call i)) ivrs with
       | [] => [(c, None)]
       | ms => map (fun i => (c, Some i)) ms
       end) cs.

(** [ivr_interactions ivr JOIN calls c ON ...] *)
Definition ivr_join_calls (ivrs : list ivr_row) (cs : list call_row)
  : list (ivr_row * call_row) :=
  flat_map
    (fun i =>
       map (fun c => (i, c))
           (filter (fun c => sql_eq (ivr_call i) (call_control_id c)) cs))
    ivrs.

(** [transfers t JOIN calls c ON t.call_control_id = c.call_control_id] *)
Definition transfers_join_calls (ts : list transfer_row) (cs : list call_row)
  : list (transfer_row * call_row) :=
  flat_map
    (fun t =>
       map (fun c => (t, c))
           (filter (fun c => sql_eq (tr_call t) (call_control_id c)) cs))
    ts.

(** [... JOIN ivr_interactions ivr ON c.call_control_id =
    ivr.call_control_id] on top of the previous join *)
Definition then_join_ivr (tcs : list (transfer_row * call_row))
  (ivrs : list ivr_row) : list (transfer_row * call_row * ivr_row) :=
  flat_map
    (fun tc =>
       map (fun i => (tc, i))
           (filter (fun i => sql_eq (call_control_id (snd tc)) (ivr_call i))
                   ivrs))
    tcs.

(** The distinct non-NULL values of a column. *)
Fixpoint distinct (l : list json) : list json :=
  match l with
  | [] => []
  | x :: rest =>
      let d := distinct rest in
      match x with
      | JNull => d
      | _ => if existsb (sql_eq x) d then d else x :: d
      end
  end.

(** [COUNT(DISTINCT col)] *)
Definition count_distinct (l : list json) : Z := Z.of_nat (List.length (distinct l)).

(** [created_at >= ?]: text compared byte by byte *)
Definition since (cutoff : string) (c : call_row) : bool :=
  String.leb cutoff (created_at c).

(** [ivr.department = ?] on a possibly NULL-extended row *)
Definition ivr_dept_is (d : string) (oi : option ivr_row) : bool :=
  match oi with
  | Some i => (ivr_department i =? d)%string
  | None => false
  end.

(** The column [ivr.call_control_id] of a left-join row (NULL when the call
    has no interaction). *)
Definition ivr_id (oi : option ivr_row) : json :=
  match oi with
  | Some i => ivr_call i
  | None => JNull
  end.

(** *** Floats: [a / b] and [round(x, 3)] *)

(** The integer nearest to a rational, ties to the even one. *)
Definition round_half_even (q : Q) : Z :=
  let d := Zpos (Qden q) in
  let f := Qnum q / d in
  match (2 * (Qnum q mod d)) ?= d with
  | Lt => f
  | Gt => f + 1
  | Eq => if Z.even f then f else f + 1
  end.

(** The IEEE-754 binary64 number nearest to a rational (53 significant
    bits, ties to even); the exponent range is not modelled, the
    quotients of two row counts being far inside it. *)
Definition binary64 (q : Q) : Q :=
  if Qeq_bool q 0 then 0%Q
  else
    let a := Qabs q in
    let e0 := Z.log2 (Qnum a) - Z.log2 (Zpos (Qden a)) in
    let e := if Qle_bool (Qpower 2 e0) a then e0 else e0 - 1 in
    let ulp := Qpower 2 (e - 52) in
    Qred (inject_Z (round_half_even (q / ulp)) * ulp).

(** [a / b] on two ints with [b > 0]: the correctly rounded quotient. *)
Definition true_div (a b : Z) : Q := binary64 (Qmake a (Z.to_pos b)).

(** [round(x, 3)]: the exact value of [x] rounded to three decimals, ties
    to even, then read back as a float. *)
Definition py_round3 (x : Q) : Q :=
  binary64 (inject_Z (round_half_even (x * 1000)) / 1000).

(** *** kpis_24h *)

Definition kpis_dict (department : option string) (volume : Z)
  (selection_rate transfer_success : Q) : json :=
  JDict [("window", JStr "24h");
         ("department", JStr (dept_or_all department));
         ("inbound_volume", JInt volume);
         ("selection_rate", JFloat (FFinite selection_rate));
         ("transfer_success", JFloat (FFinite transfer_success))].

(** The first query: [COUNT(DISTINCT c.call_control_id)] over the left join,
    with the department condition appended when one is given. *)
Definition q_inbound_volume (cutoff : string) (dept : option string)
  (w : world) : Z :=
  count_distinct
    (map (fun r => call_control_id (fst r))
       (filter
          (fun r => since cutoff (fst r) &&
                    match dept with
                    | Some d => ivr_dept_is d (snd r)
                    | None => true
                    end)
          (left_join (calls w) (ivr_interactions w)))).

(** The second query: the pair [(with_selection, total_calls)]. *)
Definition q_selection (cutoff : string) (dept : option string) (w : world)
  : Z * Z :=
  match dept with
  | Some d =>
      (count_distinct
         (map (fun r => ivr_call (fst r))
            (filter
               (fun r => since cutoff (snd r) &&
                         (ivr_department (fst r) =? d)%string)
               (ivr_join_calls (ivr_interactions w) (calls w)))),
       count_distinct
         (map (fun r => call_control_id (fst r))
            (filter
               (fun r => since cutoff (fst r) && ivr_dept_is d (snd r))
               (left_join (calls w) (ivr_interactions w)))))
  | None =>
      let rows :=
        filter (fun r => since cutoff (fst r))
               (left_join (calls w) (ivr_interactions w)) in
      (count_distinct (map (fun r => ivr_id (snd r)) rows),
       count_distinct (map (fun r => call_control_id (fst r)) rows))
  end.

(** The third query: the pair [(successful, total_transfers)]. *)
Definition q_transfers (cutoff : string) (dept : option string) (w : world)
  : Z * Z :=
  let statuses :=
    match dept with
    | Some d =>
        map (fun r => status (fst (fst r)))
          (filter
             (fun r => since cutoff (snd (fst r)) &&
                       (ivr_department (snd r) =? d)%string)
             (then_join_ivr (transfers_join_calls (transfers w) (calls w))
                            (ivr_interactions w)))
    | None =>
        map (fun r => status (fst r))
          (filter (fun r => since cutoff (snd r))
                  (transfers_join_calls (transfers w) (calls w)))
    end in
  (Z.of_nat (List.length (filter (String.eqb "success") statuses)),
   Z.of_nat (List.length statuses)).

Definition kpis_24h (E : env) (department : option string) : M json :=
  ensure_db E ;;
  try_except
    (sql_guard E OpKpis ;;
     w <- get_world ;;
     let cutoff := cutoff_24h E in
     let dept := dept_given department in
     let inbound_volume := q_inbound_volume cutoff dept w in
     let selection_data := q_selection cutoff dept w in
     let selection_rate :=
       if 0 <? snd selection_data
       then true_div (fst selection_data) (snd selection_data)
       else 0%Q in
     let transfer_data := q_transfers cutoff dept w in
     let transfer_success :=
       if 0 <? snd transfer_data
       then true_div (fst transfer_data) (snd transfer_data)
       else 0%Q in
     ret (kpis_dict department inbound_volume
            (py_round3 selection_rate) (py_round3 transfer_success)))
    (fun _ => ret (kpis_dict department 0 0%Q 0%Q)).

(** *** volume_trend_days and recent_calls *)

(** [DATE(created_at)] of a timestamp written by this program
    ([YYYY-MM-DDTHH:MM:SS...Z]): its first ten characters. *)
Definition sql_date (ts : string) : string := substring 0 10 ts.

(** Insertion of a key into a list kept in descending order; equal keys
    stay in their order of arrival (SQL leaves the order of ties open). *)
Fixpoint insert_desc {A} (key : A -> string) (x : A) (l : list A) : list A :=
  match l with
  | [] => [x]
  | y :: rest =>
      if String.ltb (key y) (key x) then x :: l
      else y :: insert_desc key x rest
  end.

Definition sort_desc {A} (key : A -> string) (l : list A) : list A :=
  fold_right (insert_desc key) [] l.

Fixpoint dedup (l : list string) : list string :=
  match l with
  | [] => []
  | x :: rest => if str_in x rest then dedup rest else x :: dedup rest
  end.

Definition trend_row (day : string) (n : Z) : json :=
  JDict [("day", JStr day); ("calls", JInt n)].

Definition volume_trend_days (E : env) (days : Z) (department : option string)
  : M (list json) :=
  ensure_db E ;;
  try_except
    (sql_guard E OpTrend ;;
     w <- get_world ;;
     let cutoff := cutoff_days E days in
     match dept_given department with
     | Some d =>
         let rows :=
           filter
             (fun r => since cutoff (fst r) &&
                       match snd r with
                       | Some i => (ivr_department i =? d)%string
                       | None => true
                       end)
             (left_join (calls w) (ivr_interactions w)) in
         let day_of r := sql_date (created_at (fst r)) in
         ret (map
                (fun day =>
                   trend_row day
                     (count_distinct
                        (map (fun r => call_control_id (fst r))
                           (filter (fun r => (day_of r =? day)%string) rows))))
                (sort_desc (fun x => x) (dedup (map day_of rows))))
     | None =>
         let rows := filter (since cutoff) (calls w) in
         let day_of c := sql_date (created_at c) in
         ret (map
                (fun day =>
                   trend_row day
                     (Z.of_nat
                        (List.length
                           (filter (fun c => (day_of c =? day)%string) rows))))
                (sort_desc (fun x => x) (dedup (map day_of rows))))
     end)
    (fun _ => ret []).

Definition recent_row (r : call_row * option ivr_row) : json :=
  JDict [("call_control_id", call_control_id (fst r));
         ("department",
          match snd r with Some i => JStr (ivr_department i) | None => JNull end);
         ("digit",
          match snd r with Some i => JStr (ivr_digit i) | None => JNull end);
         ("ts", JStr (created_at (fst r)))].

(** [LIMIT n]: the first [n] rows; a negative [n] is no limit. *)
Definition sql_limit {A} (n : Z) (rows : list A) : list A :=
  if n <? 0 then rows else firstn (Z.to_nat n) rows.

(** [limit] is bound as an SQLite INTEGER: sqlite3 raises [OverflowError]
    for an int beyond 64 bits, which the function catches like any other
    failure of the query. *)
Definition recent_calls (E : env) (limit : Z) (department : option string)
  : M (list json) :=
  ensure_db E ;;
  try_except
    (sql_guard E OpRecent ;;
     w <- get_world ;;
     let joined := left_join (calls w) (ivr_interactions w) in
     let rows :=
       match dept_given department with
       | Some d => filter (fun r => ivr_dept_is d (snd r)) joined
       | None => joined
       end in
     if (limit <? - 2 ^ 63) || (2 ^ 63 <=? limit)
     then raise SqlError
     else ret (map recent_row
                 (sql_limit limit
                    (sort_desc (fun r => created_at (fst r)) rows))))
    (fun _ => ret []).

(** ** analytics_api.py *)

(** A Flask response: the JSON body and the HTTP status. *)
Definition response : Type := json * Z.

Definition error_body (msg : string) : json := JDict [("error", JStr msg)].

Definition invalid_department_msg : string :=
  "Invalid department. Must be: sales, support, or porting".

(** [department and department not in {'sales', 'support', 'porting'}] *)
Definition department_rejected (department : option string) : bool :=
  match dept_given department with
  | Some d => negb (str_in d valid_departments)
  | None => false
  end.

(** GET /metrics/kpis; [department] is [request.args.get('department')]. *)
Definition get_kpis (E : env) (department : option string) : M response :=
  try_except
    (if department_rejected department
     then ret (error_body invalid_department_msg, 400)
     else
       kpis <- kpis_24h E department ;;
       ret (kpis, 200))
    (fun _ => ret (error_body "Internal server error", 500)).

(** GET /metrics/trend; [days] is [request.args.get('days')], absent when
    [None] (the default 7 is then used).  [int] failing is the
    [ValueError] branch. *)
Definition get_trend (E : env) (days department : option string)
  : M response :=
  match (match days with Some s => py_int s | None => Some 7 end) with
  | None =>
      ret (error_body "Invalid 'days' parameter. Must be a number", 400)
  | Some n =>
      try_except
        (if (n <? 1) || (365 <? n)
         then ret (error_body "Days must be between 1 and 365", 400)
         else if department_rejected department
         then ret (error_body invalid_department_msg, 400)
         else
           trend <- volume_trend_days E n department ;;
           ret (JDict [("days", JInt n);
                       ("department", JStr (dept_or_all department));
                       ("trend", JList trend)], 200))
        (fun _ => ret (error_body "Internal server error", 500))
  end.

(** GET /metrics/recent *)
Definition get_recent_calls (E : env) (limit department : option string)
  : M response :=
  match (match limit with Some s => py_int s | None => Some 20 end) with
  | None =>
      ret (error_body "Invalid 'limit' parameter. Must be a number", 400)
  | Some n =>
      try_except
        (if (n <? 1) || (1000 <? n)
         then ret (error_body "Limit must be between 1 and 1000", 400)
         else if department_rejected department
         then ret (error_body invalid_department_msg, 400)
         else
           rows <- recent_calls E n department ;;
           ret (JDict [("limit", JInt n);
                       ("department", JStr (dept_or_all department));
                       ("calls", JList rows)], 200))
        (fun _ => ret (error_body "Internal server error", 500))
  end.

(** ** app.py: the provider client and the webhook *)

Section App.

(** [str(v)] of a float, a list or a dict: Python's [repr], which the
    program never inspects beyond comparing it with the menu digits. *)
Variable py_repr : json -> string.

(** [str(v)] *)
Definition py_str (v : json) : string :=
  match v with
  | JStr s => s
  | JNull => "None"
  | JBool true => "True"
  | JBool false => "False"
  | JInt n => str_of_int n
  | _ => py_repr v
  end.

Definition API_BASE : string := "https://api.telnyx.com/v2".

(** [os.getenv(name, default)] *)
Definition getenv_default (E : env) (name default : string) : string :=
  match getenv E name with
  | Some v => v
  | None => default
  end.

Definition DEPARTMENT_URIS (E : env) (dept : string) : option string :=
  if (dept =? "sales")%string
  then Some (getenv_default E "SALES_SIP_URI" "sip:agent1@sip.telnyx.com")
  else if (dept =? "support")%string
  then Some (getenv_default E "SUPPORT_SIP_URI" "sip:agent2@sip.telnyx.com")
  else if (dept =? "porting")%string
  then Some (getenv_default E "PORTING_SIP_URI" "sip:agent3@sip.telnyx.com")
  else None.

Definition DIGIT_TO_DEPARTMENT (d : string) : option string :=
  if (d =? "1")%string then Some "sales"
  else if (d =? "2")%string then Some "support"
  else if (d =? "3")%string then Some "porting"
  else None.

(** [requests.post] guarded by [try/except]: the status, or [None]; every
    request is recorded in [posted]. *)
Definition _post (E : env) (url : string) (body : json) : M (option Z) :=
  fun w =>
    let r := http E url body in
    (Return r, with_posted (mkPost url body r :: posted w) w).

(** [bool(r and r.status_code == 200)] *)
Definition is_200 (r : option Z) : bool :=
  match r with
  | Some code => code =? 200
  | None => false
  end.

Definition action_url (ccid : json) (action : string) : string :=
  API_BASE ++ "/calls/" ++ py_str ccid ++ "/actions/" ++ action.

Definition answer_call (E : env) (ccid : json) : M bool :=
  let url := action_url ccid "answer" in
  r <- _post E url (JDict [("command_id", JStr (uuid4 E url))]) ;;
  ret (is_200 r).

Definition transfer_call (E : env) (ccid : json) (sip_uri : string) : M bool :=
  let url := action_url ccid "transfer" in
  r <- _post E url (JDict [("to", JStr sip_uri);
                           ("command_id", JStr (uuid4 E url))]) ;;
  ret (is_200 r).

Definition menu_body (command_id : string) : json :=
  JDict [("payload",
          JStr ("Welcome to Telnyx Contact Center. " ++
                "For Sales, press 1. For Support, press 2. For Porting, press 3."));
         ("invalid_payload",
          JStr "Sorry, try again. 1 for Sales, 2 for Support, 3 for Porting.");
         ("payload_type", JStr "text");
         ("service_level", JStr "premium");
         ("voice", JStr "Telnyx.KokoroTTS.af");
         ("minimum_digits", JInt 1);
         ("maximum_digits", JInt 1);
         ("valid_digits", JStr "123");
         ("timeout_millis", JInt 8000);
         ("command_id", JStr command_id)].

(** [start_menu] returns [None]: the answer of the provider is only logged. *)
Definition start_menu (E : env) (ccid : json) : M unit :=
  let url := action_url ccid "gather_using_speak" in
  _post E url (menu_body (uuid4 E url)) ;;
  ret tt.

Definition _extract_digits (event_payload : json) : M string :=
  a <- py_get event_payload "digit" ;;
  b <- py_get event_payload "digits" ;;
  let d := py_or a b in
  if truthy d then ret (strip (py_str d))
  else
    r <- py_get event_payload "result" ;;
    t <- py_get event_payload "dtmf" ;;
    let res := py_or (py_or r t) (JDict []) in
    match res with
    | JDict fields =>
        ret (strip (py_str (py_or (py_or (dict_get fields "digits")
                                         (dict_get fields "digit"))
                                  (JStr ""))))
    | _ => ret ""
    end.

(** [jsonify({"status": s}), 200] *)
Definition ack (s : string) : response := (JDict [("status", JStr s)], 200).

(** [s.add(x)] on one of the two global sets. *)
Definition routed_add (x : json) : M unit :=
  if hashable x
  then modify (fun w => with_routed (set_add x (ROUTED_CALLS w)) w)
  else raise TypeError.

Definition ended_add (x : json) : M unit :=
  if hashable x
  then modify (fun w => with_ended (set_add x (ENDED_CALLS w)) w)
  else raise TypeError.

(** The body of the [try] in [webhook]. *)
Definition webhook_try (E : env) (etype ev : json) : M response :=
  if is_str etype "call.initiated" then
    ccid <- py_get ev "call_control_id" ;;
    f <- py_get ev "from" ;;
    t <- py_get ev "to" ;;
    let from_number := py_or f (JStr "unknown") in
    let to_number := py_or t (JStr "unknown") in
    if negb (truthy ccid) then ret (ack "missing_call_control_id")
    else
      save_call_if_new E ccid from_number to_number ;;
      log_event E ccid (JStr "call.initiated") ev ;;
      answered <- answer_call E ccid ;;
      if negb answered then ret (ack "answer_failed")
      else
        start_menu E ccid ;;
        ret (ack "answered_and_menu_started")
  else if is_str etype "call.gather.ended" then
    ccid <- py_get ev "call_control_id" ;;
    w <- get_world ;;
    ignore <-
      (if negb (truthy ccid) then ret true
       else
         routed <- set_contains ccid (ROUTED_CALLS w) ;;
         if routed then ret true else set_contains ccid (ENDED_CALLS w)) ;;
    if ignore then ret (ack "gather_ignored")
    else
      log_event E ccid (JStr "call.gather.ended") ev ;;
      dgt <- _extract_digits ev ;;
      (match DIGIT_TO_DEPARTMENT dgt with
       | Some dept =>
           log_ivr_selection E ccid dgt dept ;;
           match DEPARTMENT_URIS E dept with
           | None => raise KeyError
           | Some to_uri =>
               transfer_success <- transfer_call E ccid to_uri ;;
               log_transfer E ccid to_uri
                 (if transfer_success then "success" else "error") ;;
               if transfer_success then routed_add ccid else ret tt
           end
       | None => start_menu E ccid
       end) ;;
      ret (JDict [("status", JStr "gather_processed"); ("digit", JStr dgt)],
           200)
  else if is_str etype "call.hangup" then
    ccid <- py_get ev "call_control_id" ;;
    (if truthy ccid
     then log_event E ccid (JStr "call.hangup") ev ;; ended_add ccid
     else ret tt) ;;
    ret (ack "received")
  else
    (if truthy etype
     then
       ccid <- py_get ev "call_control_id" ;;
       if truthy ccid then log_event E ccid etype ev else ret tt
     else ret tt) ;;
    ret (JDict [("status", JStr "received"); ("event", etype)], 200).

(** POST /webhook; [body] is [request.get_json(silent=True)], [None] when
    the body does not parse. *)
Definition webhook (E : env) (body : option json) : M response :=
  let payload :=
    py_or (match body with Some v => v | None => JNull end) (JDict []) in
  data <- py_get_default payload "data" (JDict []) ;;
  etype <- py_get data "event_type" ;;
  ev <- py_get_default data "payload" (JDict []) ;;
  try_except (webhook_try E etype ev) (fun _ => ret (ack "error")).

(** *** Vocabulary for the statements *)

(** What the four lines before the [try] read from a request body: the
    event type and the event payload, or nothing when one of the [get]
    calls lands on something that is not a dict. *)
Definition request_event (body : option json) : option (json * json) :=
  match py_or (match body with Some v => v | None => JNull end) (JDict []) with
  | JDict top =>
      match (match assoc "data" top with Some x => x | None => JDict [] end) with
      | JDict dat =>
          Some (dict_get dat "event_type",
                match assoc "payload" dat with
                | Some x => x
                | None => JDict []
                end)
      | _ => None
      end
  | _ => None
  end.

(** The provider requests made between two worlds, newest first. *)
Definition issued (w w' : world) : list post_record :=
  firstn (List.length (posted w') - List.length (posted w)) (posted w').

(** The digit [_extract_digits] returns for the fields of a payload. *)
Definition digit_of (fields : list (string * json)) : string :=
  match fst (_extract_digits (JDict fields) initial_world) with
  | Return d => d
  | Raise _ => ""
  end.

(** The database file exists, or [init_db] would create it. *)
Definition store_available (E : env) (w : world) : Prop :=
  db_file w = true \/ init_outcome_of E = InitOk.

(** Number of Call records stored under a call id. *)
Definition call_records (c : json) (w : world) : nat :=
  List.length (filter (fun r => sql_eq (call_control_id r) c) (calls w)).

(** The states the process can be in: it starts with both sets empty, and
    each webhook delivery moves it on. *)
Inductive reachable : world -> Prop :=
| reach_start (w : world) :
    ROUTED_CALLS w = [] -> ENDED_CALLS w = [] -> reachable w
| reach_delivery (w w' : world) (E : env) (body : option json)
    (r : outcome response) :
    reachable w -> webhook E body w = (r, w') -> reachable w'.

(** No call id is a member of both sets. *)
Definition sets_disjoint (w : world) : Prop :=
  forall x : json,
    ~ (py_in x (ROUTED_CALLS w) = true /\ py_in x (ENDED_CALLS w) = true).

(** The extraction policy in the words of the specification: the
    locations are tried in their order, and the first non-empty one is
    returned trimmed; the empty string is returned when none is non-empty.
    The locations are the top-level "digit", the top-level "digits", and
    the "digits" and then the "digit" of each nested object that is a
    dict. *)
Definition nested_locations (v : json) : list json :=
  match v with
  | JDict nested => [dict_get nested "digits"; dict_get nested "digit"]
  | _ => []
  end.

Definition digit_locations (nested : list json)
  (fields : list (string * json)) : list json :=
  ([dict_get fields "digit"; dict_get fields "digits"] ++
   flat_map nested_locations nested)%list.

Definition extraction_policy (nested : list json)
  (fields : list (string * json)) (t : string) : Prop :=
  match find truthy (digit_locations nested fields) with
  | Some v => trimmed_of (py_str v) t
  | None => t = ""
  end.

(** The nested objects the specification names: "result" and "dtmf". *)
Definition claimed_extraction (fields : list (string * json)) (t : string)
  : Prop :=
  extraction_policy [dict_get fields "result"; dict_get fields "dtmf"]
    fields t.

(** *** Deliveries in series, and what a delivery addresses *)

(** The call id an event payload carries: [ev.get("call_control_id")]. *)
Definition delivered_call (ev : json) : json :=
  match ev with
  | JDict fields => dict_get fields "call_control_id"
  | _ => JNull
  end.

(** The world after a series of deliveries, the head of the list first;
    each delivery meets an environment of its own. *)
Fixpoint deliveries (ds : list (env * option json)) (w : world) : world :=
  match ds with
  | [] => w
  | (E, body) :: rest => deliveries rest (snd (webhook E body w))
  end.

(** The three Call Control actions the program ever asks for. *)
Definition call_actions : list string :=
  ["answer"; "gather_using_speak"; "transfer"].

(** A provider request that is one of these actions on a given call, and
    whose logged status is what the provider answered to it. *)
Definition call_action (E : env) (ccid : json) (p : post_record) : Prop :=
  p_status p = http E (p_url p) (p_body p) /\
  exists action : string,
    In action call_actions /\ p_url p = action_url ccid action.

(** Between two worlds at most [n] provider requests were made, each of
    them a Call Control action on [ccid]. *)
Definition requests_on (E : env) (ccid : json) (n : nat) (w w' : world)
  : Prop :=
  exists pre : list post_record,
    posted w' = (pre ++ posted w)%list /\
    (List.length pre <= n)%nat /\
    forall p, In p pre -> call_action E ccid p.

(** How many provider requests a delivery of a given type may make. *)
Definition request_budget (etype : json) : nat :=
  if is_str etype "call.initiated" then 2%nat
  else if is_str etype "call.gather.ended" then 1%nat
  else 0%nat.

End App.

(** ** app.py: what is read when the module is imported *)

(** [(os.getenv("TELNYX_API_KEY") or "").strip()], the environment being
    the one [load_dotenv] leaves. *)
Definition TELNYX_API_KEY (E : env) : string :=
  strip (match getenv E "TELNYX_API_KEY" with Some v => v | None => "" end).

(** The check made at import: the module raises [RuntimeError] ([None])
    unless the key is there and starts with "KEY". *)
Definition checked_api_key (E : env) : option string :=
  let key := TELNYX_API_KEY E in
  if (key =? "")%string || negb (String.prefix "KEY" key) then None
  else Some key.

(** [_headers()] for a key that passed the check. *)
Definition _headers (key : string) : list (string * string) :=
  [("Authorization", "Bearer " ++ key);
   ("Content-Type", "application/json");
   ("Accept", "application/json")].

(** *** The analytics surface as one router *)

Inductive analytics_request : Type :=
| GetKpis (department : option string)
| GetTrend (days department : option string)
| GetRecent (limit department : option string).

Definition serve (E : env) (req : analytics_request) : M response :=
  match req with
  | GetKpis d => get_kpis E d
  | GetTrend n d => get_trend E n d
  | GetRecent n d => get_recent_calls E n d
  end.

(** A numeric parameter that is given and is not a number in [lo, hi]. *)
Definition bad_number (lo hi : Z) (arg : option string) : bool :=
  match arg with
  | None => false
  | Some s =>
      match py_int s with
      | None => true
      | Some n => (n <? lo) || (hi <? n)
      end
  end.

(** A department parameter that is given, not empty, and not one of the
    three departments. *)
Definition bad_department (arg : option string) : bool :=
  match arg with
  | None => false
  | Some d => negb (d =? "")%string && negb (str_in d valid_departments)
  end.

Definition invalid_request (req : analytics_request) : bool :=
  match req with
  | GetKpis d => bad_department d
  | GetTrend n d => bad_number 1 365 n || bad_department d
  | GetRecent n d => bad_number 1 1000 n || bad_department d
  end.

(** The 24-hour figures in the words of the specification: the calls of
    the window, and those of them with an IVR selection (for the
    department, when one is asked for). *)
Definition calls_in_window (cutoff : string) (w : world) : list json :=
  distinct (map call_control_id (filter (since cutoff) (calls w))).

Definition has_selection (dept : option string) (w : world) (c : json) : bool :=
  existsb
    (fun i => sql_eq c (ivr_call i) &&
              match dept with
              | Some d => (ivr_department i =? d)%string
              | None => true
              end)
    (ivr_interactions w).

Definition spec_selection_rate (cutoff : string) (dept : option string)
  (w : world) : Q :=
  let n := Z.of_nat (List.length (calls_in_window cutoff w)) in
  let m := Z.of_nat (List.length
                       (filter (has_selection dept w)
                               (calls_in_window cutoff w))) in
  py_round3 (if 0 <? n then true_div m n else 0%Q).

(** What a store operation leaves alone: the two sets and the provider
    log. *)
Definition same_routing (w w' : world) : Prop :=
  ROUTED_CALLS w' = ROUTED_CALLS w /\
  ENDED_CALLS w' = ENDED_CALLS w /\
  posted w' = posted w.

(** How a store operation can end: it returns with the database file in
    place, or [ensure_db] lets the failure of [init_db] through and no
    table has changed. *)
Definition store_outcome (E : env) (w : world) (r : outcome unit) (w' : world)
  : Prop :=
  (r = Return tt /\ db_file w' = true /\ store_available E w) \/
  (r = Raise InitError /\ ~ store_available E w /\
   calls w' = calls w /\ call_events w' = call_events w /\
   ivr_interactions w' = ivr_interactions w /\ transfers w' = transfers w).

(** No two members of the list are equal in SQL. *)
Fixpoint irredundant (l : list json) : Prop :=
  match l with
  | [] => True
  | x :: rest => existsb (sql_eq x) rest = false /\ irredundant rest
  end.

(** The interactions joined to a call, and whether a call id has any. *)
Definition ivr_matches (ivrs : list ivr_row) (c : call_row) : list ivr_row :=
  filter (fun i => sql_eq (call_control_id c) (ivr_call i)) ivrs.

Definition selected (ivrs : list ivr_row) (x : json) : bool :=
  existsb (fun i => sql_eq x (ivr_call i)) ivrs.

(** Every run of [m] relates the world before to the world after by [R]. *)
Definition preserves {A} (R : world -> world -> Prop) (m : M A) : Prop :=
  forall w r w', m w = (r, w') -> R w w'.

(** A component of the world is the same before and after. *)
Definition keeps {T} (proj : world -> T) (w w' : world) : Prop :=
  proj w' = proj w.

(** A value sqlite3 accepts as a parameter. *)
Definition storable (v : json) : bool :=
  match sql_bind v with
  | Some _ => true
  | None => false
  end.

(** Every value [m] returns satisfies [P]. *)
Definition returns {A} (P : A -> Prop) (m : M A) : Prop :=
  forall w a w', m w = (Return a, w') -> P a.

(** A response that acknowledges receipt: HTTP 200 and a JSON object with
    a "status" string. *)
Definition acknowledges (resp : response) : Prop :=
  snd resp = 200 /\
  exists fields s, fst resp = JDict fields /\ assoc "status" fields = Some (JStr s).

(** A list held by the world only gains entries on top of what it had. *)
Definition grows {T} (proj : world -> list T) (w w' : world) : Prop :=
  exists new : list T, proj w' = (new ++ proj w)%list.

(** An IvrSelection row pairs a digit with the department the menu gives
    it; a Transfer row carries one of the two statuses. *)
Definition ivr_row_ok (i : ivr_row) : Prop :=
  DIGIT_TO_DEPARTMENT (ivr_digit i) = Some (ivr_department i).

Definition transfer_row_ok (t : transfer_row) : Prop :=
  status t = "success" \/ status t = "error".

(** A property of a component of the world that, once true, stays true. *)
Definition stays {T} (proj : world -> T) (P : T -> Prop) (w w' : world)
  : Prop :=
  P (proj w) -> P (proj w').

(** The call ids of the Call records, newest first. *)
Definition stored_call_ids (w : world) : list json :=
  map call_control_id (calls w).

(** An operation whose outcome does not depend on the world and which
    leaves the world as it is. *)
Definition pure {A} (m : M A) : Prop :=
  exists r : outcome A, forall w : world, m w = (r, w).

(** Two environments in which the provider client sees the same things:
    the same answers, the same command ids, the same SIP settings.  The
    clock and the health of the store may differ. *)
Definition same_provider (E E' : env) : Prop :=
  (forall url body, http E url body = http E' url body) /\
  (forall url, uuid4 E url = uuid4 E' url) /\
  (forall name, getenv E name = getenv E' name).

(** Two runs, one in each environment, that agree on the sets and on the
    provider log and both have the store at hand. *)
Definition alike (E E' : env) (w w' : world) : Prop :=
  same_routing w w' /\ store_available E w /\ store_available E' w'.

(** Two operations that, started in such worlds, end with the same outcome
    in such worlds. *)
Definition agree {A} (E E' : env) (m m' : M A) : Prop :=
  forall w w' : world,
    alike E E' w w' ->
    fst (m w) = fst (m' w') /\ alike E E' (snd (m w)) (snd (m' w')).

(** *** The four writes of the store as one operation *)

Inductive store_write : Type :=
| SaveCall (ccid from to : json)
| LogEvent (ccid event_type payload : json)
| LogIvr (ccid : json) (dgt dept : string)
| LogTransfer (ccid : json) (to_uri st : string).

Definition write (E : env) (op : store_write) : M unit :=
  match op with
  | SaveCall c f t => save_call_if_new E c f t
  | LogEvent c t p => log_event E c t p
  | LogIvr c d dept => log_ivr_selection E c d dept
  | LogTransfer c uri st => log_transfer E c uri st
  end.

(** The rows the four tables hold together. *)
Definition stored_rows (w : world) : nat :=
  (List.length (calls w) + List.length (call_events w) +
   List.length (ivr_interactions w) + List.length (transfers w))%nat.

(** The store is at hand, as a test. *)
Definition store_ready (E : env) (w : world) : bool :=
  db_file w ||
  match init_outcome_of E with InitOk => true | InitFails _ => false end.

(** The status a request to the analytics surface is answered with. *)
Definition expected_status (E : env) (req : analytics_request) (w : world)
  : Z :=
  if invalid_request req then 400
  else if store_ready E w then 200 else 500.

(** Texts in strictly descending order, and texts none of which is
    followed by a greater one. *)
Fixpoint descending (l : list string) : Prop :=
  match l with
  | a :: (b :: _) as rest => String.ltb b a = true /\ descending rest
  | _ => True
  end.

Fixpoint newest_first (l : list string) : Prop :=
  match l with
  | a :: (b :: _) as rest => String.ltb a b = false /\ newest_first rest
  | _ => True
  end.

(** The sum of a list of counts. *)
Definition total (l : list Z) : Z := fold_right Z.add 0 l.

(** A transfer whose call has a Call record made since the cutoff. *)
Definition transfer_in_window (cutoff : string) (w : world)
  (t : transfer_row) : bool :=
  existsb (fun c => sql_eq (tr_call t) (call_control_id c) && since cutoff c)
          (calls w).

(** *** Concrete data for closed statements *)

(** A [repr] to run the handlers with; the deliveries below carry strings
    only, and [str] of a string does not consult it. *)
Definition plain_repr (v : json) : string := "<object>".

Definition quiet_env : env :=
  mkEnv "2024-05-02T10:00:00.000001Z" "2024-05-01T10:00:00.000001Z"
        (fun _ => "2024-04-25T10:00:00.000001Z")
        (fun _ => "00000000-0000-4000-8000-000000000000")
        (fun _ _ => Some 200)
        InitOk
        (fun _ => true)
        (fun _ => None).

(** The provider refuses every command. *)
Definition refusing_env : env :=
  mkEnv (utcnow quiet_env) (cutoff_24h quiet_env) (cutoff_days quiet_env)
        (uuid4 quiet_env) (fun _ _ => Some 500) InitOk (fun _ => true)
        (fun _ => None).

(** The provider accepts the answer command for call "abc" and refuses
    everything else, the menu included. *)
Definition answer_only_env : env :=
  mkEnv (utcnow quiet_env) (cutoff_24h quiet_env) (cutoff_days quiet_env)
        (uuid4 quiet_env)
        (fun url _ =>
           if (url =? "https://api.telnyx.com/v2/calls/abc/actions/answer")%string
           then Some 200 else Some 500)
        InitOk (fun _ => true) (fun _ => None).

(** The schema cannot be installed: [init_db] raises and leaves no file. *)
Definition no_store_env : env :=
  mkEnv (utcnow quiet_env) (cutoff_24h quiet_env) (cutoff_days quiet_env)
        (uuid4 quiet_env) (http quiet_env) (InitFails false) (fun _ => true)
        (fun _ => None).

(** Every sqlite3 call fails. *)
Definition failing_disk_env : env :=
  mkEnv (utcnow quiet_env) (cutoff_24h quiet_env) (cutoff_days quiet_env)
        (uuid4 quiet_env) (http quiet_env) InitOk (fun _ => false)
        (fun _ => None).

Definition event_body (etype : string) (payload : json) : option json :=
  Some (JDict [("data", JDict [("event_type", JStr etype);
                               ("payload", payload)])]).

Definition gather_abc (dgt : string) : option json :=
  event_body "call.gather.ended"
    (JDict [("call_control_id", JStr "abc"); ("digits", JStr dgt)]).

Definition initiated_abc : option json :=
  event_body "call.initiated"
    (JDict [("call_control_id", JStr "abc");
            ("from", JStr "+1555"); ("to", JStr "+1800")]).

Definition hangup_abc : option json :=
  event_body "call.hangup" (JDict [("call_control_id", JStr "abc")]).

(** The process after call "abc" has been routed. *)
Definition abc_routed : world :=
  mkWorld [JStr "abc"] [] true [] [] [] [] [].

Definition abc_fields (dgt : string) : list (string * json) :=
  [("call_control_id", JStr "abc"); ("digits", JStr dgt)].

Definition initiated_abc_fields : list (string * json) :=
  [("call_control_id", JStr "abc");
   ("from", JStr "+1555"); ("to", JStr "+1800")].

(** The transfer request for call "abc" to the support line, as answered. *)
Definition abc_transfer (st : option Z) : post_record :=
  mkPost "https://api.telnyx.com/v2/calls/abc/actions/transfer"
         (JDict [("to", JStr "sip:agent2@sip.telnyx.com");
                 ("command_id", JStr "00000000-0000-4000-8000-000000000000")])
         st.

(** The answer request for call "abc", as answered. *)
Definition abc_answer (st : option Z) : post_record :=
  mkPost "https://api.telnyx.com/v2/calls/abc/actions/answer"
         (JDict [("command_id", JStr "00000000-0000-4000-8000-000000000000")])
         st.

(** Two calls of the last day; only the first chose a department. *)
Definition two_calls_one_selection : world :=
  mkWorld [] [] true
    [mkCall (JStr "a") (JStr "+1555") (JStr "+1800") "2024-05-02T09:00:00.000001Z";
     mkCall (JStr "b") (JStr "+1556") (JStr "+1800") "2024-05-02T09:30:00.000001Z"]
    []
    [mkIvr (JStr "a") "1" "sales" "2024-05-02T09:00:05.000001Z"]
    [] [].

(** The environment of a process whose key is padded with white space. *)
Definition keyed_env : env :=
  mkEnv (utcnow quiet_env) (cutoff_24h quiet_env) (cutoff_days quiet_env)
        (uuid4 quiet_env) (http quiet_env) InitOk (fun _ => true)
        (fun name =>
           if (name =? "TELNYX_API_KEY")%string then Some "  KEY123 "
           else None).

(** A [call.initiated] that does not say which number was called. *)
Definition initiated_abc_no_to : option json :=
  event_body "call.initiated"
    (JDict [("call_control_id", JStr "abc"); ("from", JStr "+1555")]).



(** Two calls of the last day, one transferred with success and one
    without. *)
Definition two_transfers : world :=
  mkWorld [] [] true
    [mkCall (JStr "a") (JStr "+1555") (JStr "+1800") "2024-05-02T09:00:00.000001Z";
     mkCall (JStr "b") (JStr "+1556") (JStr "+1800") "2024-05-02T09:30:00.000001Z"]
    []
    [mkIvr (JStr "a") "1" "sales" "2024-05-02T09:00:05.000001Z";
     mkIvr (JStr "b") "2" "support" "2024-05-02T09:30:05.000001Z"]
    [mkTransfer (JStr "a") "sip:agent1@sip.telnyx.com" "success"
       "2024-05-02T09:00:06.000001Z";
     mkTransfer (JStr "b") "sip:agent2@sip.telnyx.com" "error"
       "2024-05-02T09:30:06.000001Z"]
    [].

(** A store whose only call is weeks old. *)
Definition last_month : world :=
  mkWorld [] [] true
    [mkCall (JStr "old") (JStr "+1555") (JStr "+1800") "2024-03-01T09:00:00.000001Z"]
    []
    [mkIvr (JStr "old") "1" "sales" "2024-03-01T09:00:05.000001Z"]
    [mkTransfer (JStr "old") "sip:agent1@sip.telnyx.com" "success"
       "2024-03-01T09:00:06.000001Z"]
    [].

(** A payload with both nested objects, the digit being under "dtmf". *)
Definition result_and_dtmf : list (string * json) :=
  [("result", JDict [("status", JStr "valid")]);
   ("dtmf", JDict [("digits", JStr "2")])].

(** A payload whose digit is padded with a no-break space (U+00A0) in
    front and an em space (U+2003) behind. *)
Definition padded_dtmf : list (string * json) :=
  [("dtmf", JDict [("digits", JStr (text [160; 49; 8195]))])].

(** * Properties *)

(** ** Equality of stored values *)

Lemma Qeq_bool_sym (p q : Q) : Qeq_bool p q = Qeq_bool q p.
Proof.
  destruct (Qeq_bool p q) eqn:H1, (Qeq_bool q p) eqn:H2; try reflexivity.
  - apply Qeq_bool_iff in H1. symmetry in H1. apply Qeq_bool_iff in H1.
    congruence.
  - apply Qeq_bool_iff in H2. symmetry in H2. apply Qeq_bool_iff in H2.
    congruence.
Qed.

Lemma Qeq_bool_trans (p q r : Q) :
  Qeq_bool p q = true -> Qeq_bool q r = true -> Qeq_bool p r = true.
Proof.
  intros H1 H2. apply Qeq_bool_iff in H1, H2. apply Qeq_bool_iff.
  now rewrite H1.
Qed.

Lemma py_eq_sym (a b : json) : py_eq a b = py_eq b a.
Proof.
  destruct a as [|ba|na|[pa|ma|]|sa|la|da], b as [|bb|nb|[pb|mb|]|sb|lb|db];
    cbn; try reflexivity; try apply Qeq_bool_sym.
  - destruct ma, mb; reflexivity.
  - apply String.eqb_sym.
Qed.

Lemma py_eq_trans (a b c : json) :
  py_eq a b = true -> py_eq b c = true -> py_eq a c = true.
Proof.
  destruct a as [| | |[]| | |], b as [| | |[]| | |]; cbn; try discriminate;
    destruct c as [| | |[]| | |]; cbn; try discriminate; try reflexivity;
    try apply Qeq_bool_trans.
  - intros H1 H2. apply Bool.eqb_prop in H1, H2. subst. apply Bool.eqb_reflx.
  - intros H1 H2. apply String.eqb_eq in H1, H2. subst. apply String.eqb_refl.
Qed.

Lemma sql_eq_sym (a b : json) : sql_eq a b = sql_eq b a.
Proof.
  unfold sql_eq. pose proof (py_eq_sym a b) as H.
  destruct a, b; try reflexivity; exact H.
Qed.

Lemma sql_eq_trans (a b c : json) :
  sql_eq a b = true -> sql_eq b c = true -> sql_eq a c = true.
Proof.
  unfold sql_eq. pose proof (py_eq_trans a b c) as H.
  destruct a; try discriminate; destruct b; try discriminate;
    destruct c; try discriminate; exact H.
Qed.

Lemma sql_eq_refl_l (a b : json) : sql_eq a b = true -> sql_eq a a = true.
Proof.
  intros H. apply (sql_eq_trans a b a H). rewrite sql_eq_sym. exact H.
Qed.

(** Equal values are found in the same lists. *)
Lemma sql_eq_exists (a b : json) (l : list json) :
  sql_eq a b = true -> existsb (sql_eq a) l = existsb (sql_eq b) l.
Proof.
  intros H. induction l as [|x l IH]; cbn; [reflexivity |]. rewrite IH.
  f_equal.
  destruct (sql_eq a x) eqn:Ha, (sql_eq b x) eqn:Hb; try reflexivity.
  - rewrite sql_eq_sym in H. rewrite (sql_eq_trans b a x H Ha) in Hb.
    discriminate.
  - rewrite (sql_eq_trans a b x H Hb) in Ha. discriminate.
Qed.

Lemma sql_eq_null_r (a : json) : sql_eq a JNull = false.
Proof. destruct a; reflexivity. Qed.

(** [distinct] keeps one member of every class of the list. *)
Lemma exists_distinct (x : json) (l : list json) :
  existsb (sql_eq x) (distinct l) = existsb (sql_eq x) l.
Proof.
  induction l as [|y l IH]; cbn [distinct existsb]; [reflexivity |].
  assert (Hstep : existsb (sql_eq x)
            (if existsb (sql_eq y) (distinct l) then distinct l
             else y :: distinct l) =
          sql_eq x y || existsb (sql_eq x) l).
  { destruct (existsb (sql_eq y) (distinct l)) eqn:Hy; cbn [existsb];
      rewrite IH; [| reflexivity].
    destruct (sql_eq x y) eqn:Hxy; [| reflexivity]. cbn.
    rewrite <- IH, (sql_eq_exists x y _ Hxy). exact Hy. }
  destruct y; try exact Hstep.
  rewrite IH, sql_eq_null_r. reflexivity.
Qed.

(** Congruence of [sql_eq] in its left argument. *)
Lemma sql_eq_left (a b x : json) :
  sql_eq a b = true -> sql_eq a x = sql_eq b x.
Proof.
  intros H.
  destruct (sql_eq a x) eqn:Ha, (sql_eq b x) eqn:Hb; try reflexivity.
  - rewrite sql_eq_sym in H. rewrite (sql_eq_trans b a x H Ha) in Hb.
    discriminate.
  - rewrite (sql_eq_trans a b x H Hb) in Ha. discriminate.
Qed.

Lemma sql_eq_right (a b x : json) :
  sql_eq a b = true -> sql_eq x a = sql_eq x b.
Proof.
  intros H. rewrite (sql_eq_sym x a), (sql_eq_sym x b). now apply sql_eq_left.
Qed.

(** [distinct] returns members of its argument, no two of them equal. *)
Lemma distinct_In (x : json) (l : list json) : In x (distinct l) -> In x l.
Proof.
  induction l as [|y l IH]; cbn [distinct]; [auto |].
  assert (Hstep : In x (if existsb (sql_eq y) (distinct l) then distinct l
                        else y :: distinct l) -> In x (y :: l)).
  { destruct (existsb (sql_eq y) (distinct l)).
    - intros H. right. exact (IH H).
    - intros [-> | H]; [left; reflexivity | right; exact (IH H)]. }
  destruct y; try exact Hstep. intros H. right. exact (IH H).
Qed.

Lemma distinct_irredundant (l : list json) : irredundant (distinct l).
Proof.
  induction l as [|y l IH]; cbn [distinct]; [exact I |].
  assert (Hstep : irredundant (if existsb (sql_eq y) (distinct l)
                               then distinct l else y :: distinct l)).
  { destruct (existsb (sql_eq y) (distinct l)) eqn:He; [exact IH |].
    split; assumption. }
  destruct y; try exact Hstep. exact IH.
Qed.

Lemma irredundant_middle (b : json) (P S : list json) :
  irredundant (P ++ b :: S) ->
  existsb (sql_eq b) (P ++ S) = false /\ irredundant (P ++ S).
Proof.
  induction P as [|p P IH]; cbn [app irredundant]; [auto |].
  intros (Hp & Hrest). destruct (IH Hrest) as (Hb & Hirr).
  rewrite existsb_app in Hp. cbn [existsb] in Hp.
  apply Bool.orb_false_iff in Hp as (HpP & HpbS).
  apply Bool.orb_false_iff in HpbS as (Hpb & HpS).
  split.
  - cbn [existsb]. rewrite sql_eq_sym, Hpb. exact Hb.
  - split; [| exact Hirr]. rewrite existsb_app, HpP, HpS. reflexivity.
Qed.

(** Two irredundant lists with the same classes have the same length. *)
Lemma irredundant_length (l1 : list json) :
  forall l2 : list json,
    irredundant l1 -> irredundant l2 ->
    (forall y, In y l1 -> sql_eq y y = true) ->
    (forall y, In y l2 -> sql_eq y y = true) ->
    (forall x, existsb (sql_eq x) l1 = existsb (sql_eq x) l2) ->
    List.length l1 = List.length l2.
Proof.
  induction l1 as [|a l1 IH]; intros l2 H1 H2 Hrefl1 Hrefl2 Hsame.
  - destruct l2 as [|y l2]; [reflexivity |].
    specialize (Hsame y). cbn in Hsame.
    rewrite (Hrefl2 y (or_introl eq_refl)) in Hsame. discriminate.
  - destruct H1 as (Ha & H1).
    assert (Hex : existsb (sql_eq a) l2 = true).
    { rewrite <- Hsame. cbn. rewrite (Hrefl1 a (or_introl eq_refl)).
      reflexivity. }
    apply existsb_exists in Hex as (b & Hb & Hab).
    apply in_split in Hb as (P & S & ->).
    destruct (irredundant_middle b P S H2) as (HbPS & H2').
    rewrite length_app. cbn [List.length]. rewrite <- plus_n_Sm, <- length_app.
    f_equal. apply IH; [exact H1 | exact H2' | | |].
    + intros y Hy. apply Hrefl1. right. exact Hy.
    + intros y Hy. apply Hrefl2. apply in_app_iff in Hy as [Hy | Hy];
        apply in_app_iff; [left | right; right]; exact Hy.
    + intros x. specialize (Hsame x).
      rewrite existsb_app in Hsame. cbn [existsb] in Hsame.
      destruct (sql_eq x a) eqn:Hxa.
      * rewrite (sql_eq_exists x a _ Hxa), Ha.
        assert (Hxb : sql_eq x b = true) by exact (sql_eq_trans x a b Hxa Hab).
        rewrite (sql_eq_exists x b _ Hxb), HbPS. reflexivity.
      * assert (Hxb : sql_eq x b = false).
        { rewrite <- (sql_eq_right a b x Hab). exact Hxa. }
        rewrite Hxb in Hsame. cbn in Hsame. rewrite existsb_app. exact Hsame.
Qed.

(** ** Text: characters, [strip] and [int] *)

Lemma utf8_chars_cons (c : ascii) (rest : string) :
  utf8_chars (String c rest) =
  match rest with
  | EmptyString => [String c EmptyString]
  | String c' _ =>
      if is_continuation c'
      then match utf8_chars rest with
           | ch :: chs => String c ch :: chs
           | [] => [String c EmptyString]
           end
      else String c EmptyString :: utf8_chars rest
  end.
Proof. reflexivity. Qed.

Lemma utf8_chars_nonempty (c : ascii) (s : string) :
  utf8_chars (String c s) <> [].
Proof.
  rewrite utf8_chars_cons. destruct s as [|c' s]; [discriminate |].
  destruct (is_continuation c'); [| discriminate].
  destruct (utf8_chars (String c' s)); discriminate.
Qed.

Lemma join_cons (x : string) (l : list string) : join (x :: l) = x ++ join l.
Proof. reflexivity. Qed.

Lemma append_assoc (a b c : string) : (a ++ b) ++ c = a ++ (b ++ c).
Proof. induction a as [|x a IH]; [reflexivity |]. cbn. now rewrite IH. Qed.

Lemma join_app (a b : list string) : join (a ++ b)%list = join a ++ join b.
Proof.
  induction a as [|x a IH]; [reflexivity |].
  cbn [app]. rewrite !join_cons, IH, append_assoc. reflexivity.
Qed.

(** The characters of a text, put together again, are the text. *)
Lemma join_utf8_chars (s : string) : join (utf8_chars s) = s.
Proof.
  induction s as [|c s IH]; [reflexivity |].
  rewrite utf8_chars_cons. destruct s as [|c' s]; [reflexivity |].
  destruct (is_continuation c').
  - destruct (utf8_chars (String c' s)) as [|ch chs] eqn:H.
    + exfalso. exact (utf8_chars_nonempty _ _ H).
    + rewrite join_cons in *. cbn [append]. now rewrite IH.
  - rewrite join_cons. cbn [append]. now rewrite IH.
Qed.

Lemma utf8_chars_ok (s : string) : chars_ok (utf8_chars s).
Proof.
  induction s as [|c s IH]; [exact I |].
  rewrite utf8_chars_cons. destruct s as [|c' s].
  - split; [reflexivity | constructor].
  - destruct (is_continuation c') eqn:Hc.
    + destruct (utf8_chars (String c' s)) as [|ch chs] eqn:H.
      * exfalso. exact (utf8_chars_nonempty _ _ H).
      * destruct IH as (H1 & H2). split; [| exact H2].
        assert (Hhd : exists t, ch = String c' t).
        { pose proof (join_utf8_chars (String c' s)) as Hj. rewrite H in Hj.
          rewrite join_cons in Hj. destruct ch as [|x t]; [discriminate H1 |].
          cbn [append] in Hj. injection Hj as -> _. eexists. reflexivity. }
        destruct Hhd as (t & ->). cbn in H1 |- *. rewrite Hc. exact H1.
    + destruct (utf8_chars (String c' s)) as [|ch chs] eqn:H.
      * exfalso. exact (utf8_chars_nonempty _ _ H).
      * destruct IH as (H1 & H2). split; [reflexivity |].
        constructor; [| exact H2]. split; [exact H1 |].
        pose proof (join_utf8_chars (String c' s)) as Hj. rewrite H in Hj.
        rewrite join_cons in Hj. destruct ch as [|x t]; [discriminate H1 |].
        cbn [append] in Hj. injection Hj as -> _. cbn. now rewrite Hc.
Qed.

Lemma utf8_chars_app (a b : string) :
  at_boundary b = true ->
  utf8_chars (a ++ b) = (utf8_chars a ++ utf8_chars b)%list.
Proof.
  intros Hb. induction a as [|c a IH]; [reflexivity |].
  cbn [append]. rewrite !utf8_chars_cons.
  destruct a as [|c' a].
  - cbn [append]. destruct b as [|x b]; [reflexivity |].
    cbn in Hb. apply Bool.negb_true_iff in Hb. rewrite Hb. reflexivity.
  - cbn [append] in *. destruct (is_continuation c').
    + rewrite IH. destruct (utf8_chars (String c' a)) as [|ch chs] eqn:H.
      * exfalso. exact (utf8_chars_nonempty _ _ H).
      * reflexivity.
    + rewrite IH. reflexivity.
Qed.

Lemma utf8_chars_one (ch : string) :
  one_char ch = true -> utf8_chars ch = [ch].
Proof.
  destruct ch as [|c t]; [discriminate |]. cbn [one_char].
  revert c. induction t as [|x t IH]; intros c H; [reflexivity |].
  cbn in H. apply Bool.andb_true_iff in H as (Hx & Ht).
  rewrite utf8_chars_cons, Hx, (IH x Ht). reflexivity.
Qed.

Lemma at_boundary_join (ch : string) (rest : list string) :
  one_char ch = true -> at_boundary ch = true ->
  at_boundary (join (ch :: rest)) = true.
Proof.
  destruct ch as [|c t]; [discriminate |]. intros _ H. exact H.
Qed.

Lemma utf8_chars_join_fresh (chs : list string) :
  Forall (fun x => one_char x = true /\ at_boundary x = true) chs ->
  utf8_chars (join chs) = chs /\ at_boundary (join chs) = true.
Proof.
  induction 1 as [|ch rest (H1 & H2) _ (IH1 & IH2)]; [split; reflexivity |].
  split; [| exact (at_boundary_join ch rest H1 H2)].
  rewrite join_cons.
  rewrite (utf8_chars_app _ _ IH2), (utf8_chars_one _ H1), IH1. reflexivity.
Qed.

(** Characters put together and taken apart again are the same
    characters. *)
Lemma utf8_chars_join (chs : list string) :
  chars_ok chs -> utf8_chars (join chs) = chs.
Proof.
  destruct chs as [|ch rest]; [reflexivity |]. intros (H1 & H2).
  destruct (utf8_chars_join_fresh rest H2) as (Hr & Hb).
  rewrite join_cons.
  rewrite (utf8_chars_app _ _ Hb), (utf8_chars_one _ H1), Hr. reflexivity.
Qed.

Lemma chars_ok_fresh (chs : list string) :
  Forall (fun x => one_char x = true /\ at_boundary x = true) chs ->
  chars_ok chs.
Proof.
  destruct 1 as [|ch rest (H1 & _) H]; [exact I | split; assumption].
Qed.

Lemma chars_ok_app (a b : list string) :
  chars_ok (a ++ b)%list -> chars_ok a /\ chars_ok b.
Proof.
  destruct a as [|ch a]; [intros H; split; [exact I | exact H] |].
  intros (H1 & H2). apply Forall_app in H2 as (Ha & Hb).
  split; [split; assumption | exact (chars_ok_fresh _ Hb)].
Qed.

(** [drop_spaces] cuts a run of white space off the front. *)
Lemma drop_spaces_split (chs : list string) :
  exists ls : list string,
    chs = (ls ++ drop_spaces chs)%list /\
    forallb is_space ls = true /\
    starts_clean (drop_spaces chs) = true.
Proof.
  induction chs as [|ch chs (ls & H1 & H2 & H3)].
  - exists []. repeat split.
  - cbn [drop_spaces]. destruct (is_space ch) eqn:Hc.
    + exists (ch :: ls). cbn [app forallb]. rewrite Hc, H2, <- H1.
      repeat split. exact H3.
    + exists []. cbn [app forallb starts_clean]. rewrite Hc. repeat split.
Qed.

Lemma drop_spaces_clean (chs : list string) :
  starts_clean chs = true -> drop_spaces chs = chs.
Proof.
  destruct chs as [|ch chs]; [reflexivity |]. cbn [starts_clean drop_spaces].
  intros H. apply Bool.negb_true_iff in H. rewrite H. reflexivity.
Qed.

Lemma forallb_rev {A} (f : A -> bool) (l : list A) :
  forallb f (rev l) = forallb f l.
Proof.
  induction l as [|x l IH]; [reflexivity |]. cbn.
  rewrite forallb_app, IH. cbn. rewrite Bool.andb_true_r. apply Bool.andb_comm.
Qed.

Lemma trim_split (chs : list string) :
  exists ls rs : list string,
    chs = (ls ++ trim chs ++ rs)%list /\
    forallb is_space ls = true /\ forallb is_space rs = true /\
    starts_clean (trim chs) = true /\ starts_clean (rev (trim chs)) = true.
Proof.
  unfold trim.
  destruct (drop_spaces_split chs) as (ls & H1 & H2 & H3).
  destruct (drop_spaces_split (rev (drop_spaces chs))) as (rs & H4 & H5 & H6).
  exists ls, (rev rs). rewrite forallb_rev, rev_involutive.
  assert (Hmid : drop_spaces chs =
                 (rev (drop_spaces (rev (drop_spaces chs))) ++ rev rs)%list).
  { rewrite <- rev_app_distr, <- H4, rev_involutive. reflexivity. }
  split; [rewrite <- Hmid; exact H1 |].
  split; [exact H2 |]. split; [exact H5 |]. split; [| exact H6].
  destruct (rev (drop_spaces (rev (drop_spaces chs)))) as [|x m] eqn:Hm;
    [reflexivity |].
  rewrite Hmid in H3. exact H3.
Qed.

Lemma trim_clean (chs : list string) :
  starts_clean chs = true -> starts_clean (rev chs) = true -> trim chs = chs.
Proof.
  intros H1 H2. unfold trim.
  rewrite (drop_spaces_clean _ H1), (drop_spaces_clean _ H2).
  apply rev_involutive.
Qed.

Lemma trim_idem (chs : list string) : trim (trim chs) = trim chs.
Proof.
  destruct (trim_split chs) as (_ & _ & _ & _ & _ & H1 & H2).
  exact (trim_clean _ H1 H2).
Qed.

Lemma trim_chars_ok (s : string) :
  exists ls rs : list string,
    utf8_chars s = (ls ++ trim (utf8_chars s) ++ rs)%list /\
    forallb is_space ls = true /\ forallb is_space rs = true /\
    chars_ok ls /\ chars_ok (trim (utf8_chars s)) /\ chars_ok rs.
Proof.
  destruct (trim_split (utf8_chars s)) as (ls & rs & H & Hl & Hr & _).
  exists ls, rs. repeat (split; [assumption |]).
  pose proof (utf8_chars_ok s) as Hok. rewrite H in Hok.
  apply chars_ok_app in Hok as (Hls & Hok).
  apply chars_ok_app in Hok as (Hm & Hrs). auto.
Qed.

(** The characters of a stripped text are the trimmed characters. *)
Lemma utf8_chars_strip (s : string) :
  utf8_chars (strip s) = trim (utf8_chars s).
Proof.
  destruct (trim_chars_ok s) as (_ & _ & _ & _ & _ & _ & H & _).
  unfold strip. exact (utf8_chars_join _ H).
Qed.

(** Stripping twice is stripping once. *)
Lemma strip_idem (s : string) : strip (strip s) = strip s.
Proof.
  unfold strip at 1. rewrite utf8_chars_strip, trim_idem. reflexivity.
Qed.

(** [strip] trims: it takes white space, and nothing else, off both ends,
    and leaves none there. *)
Lemma strip_trimmed (s : string) : trimmed_of s (strip s).
Proof.
  destruct (trim_chars_ok s) as (ls & rs & H & Hl & Hr & Hls & Hm & Hrs).
  destruct (trim_split (utf8_chars s)) as (_ & _ & _ & _ & _ & H1 & H2).
  exists (join ls), (join rs). split; [| split; [| split]].
  - unfold strip. rewrite <- !join_app, <- H. symmetry. apply join_utf8_chars.
  - unfold white. rewrite (utf8_chars_join _ Hls). exact Hl.
  - unfold white. rewrite (utf8_chars_join _ Hrs). exact Hr.
  - unfold bare. rewrite utf8_chars_strip, H1, H2. reflexivity.
Qed.

(** *** Encoding and decoding agree *)

Lemma byte_of (n : Z) : 0 <= n < 256 -> byte (ascii_of_N (Z.to_N n)) = n.
Proof.
  intros Hn. unfold byte. rewrite N_ascii_embedding by lia.
  apply Z2N.id. lia.
Qed.

Ltac byte_bounds := Z.div_mod_to_equations; lia.

Ltac holds :=
  symmetry;
  repeat (apply Bool.andb_true_iff; split);
  first [apply Z.leb_le | apply Z.ltb_lt];
  byte_bounds.

(** A code point is read back from its bytes. *)
Lemma code_point_utf8_char (cp : Z) :
  0 <= cp <= 1114111 -> code_point (utf8_char cp) = cp.
Proof.
  intros Hcp. unfold utf8_char.
  destruct (cp <? 128) eqn:H1.
  { apply Z.ltb_lt in H1. cbn [code_point]. rewrite byte_of by lia.
    replace (cp <? 128) with true by (symmetry; apply Z.ltb_lt; lia).
    reflexivity. }
  apply Z.ltb_ge in H1.
  destruct (cp <? 2048) eqn:H2.
  { apply Z.ltb_lt in H2. cbn [code_point]. rewrite !byte_of by byte_bounds.
    cbv zeta.
    replace ((192 <=? 192 + cp / 64) && (192 + cp / 64 <? 224) &&
             (128 <=? (192 + cp / 64 - 192) * 64 + (128 + cp mod 64 - 128)))
      with true by holds.
    byte_bounds. }
  apply Z.ltb_ge in H2.
  destruct (cp <? 65536) eqn:H3.
  { apply Z.ltb_lt in H3. cbn [code_point]. rewrite !byte_of by byte_bounds.
    cbv zeta.
    replace ((224 <=? 224 + cp / 4096) && (224 + cp / 4096 <? 240) &&
             (2048 <=? (224 + cp / 4096 - 224) * 4096 +
                       (128 + (cp / 64) mod 64 - 128) * 64 +
                       (128 + cp mod 64 - 128)))
      with true by holds.
    byte_bounds. }
  apply Z.ltb_ge in H3.
  cbn [code_point]. rewrite !byte_of by byte_bounds. cbv zeta.
  set (v := (240 + cp / 262144 - 240) * 262144 +
            (128 + (cp / 4096) mod 64 - 128) * 4096 +
            (128 + (cp / 64) mod 64 - 128) * 64 + (128 + cp mod 64 - 128)).
  assert (Hv : v = cp) by (unfold v; byte_bounds).
  rewrite Hv.
  replace ((240 <=? 240 + cp / 262144) && (240 + cp / 262144 <? 248) &&
           (65536 <=? cp) && (cp <=? 1114111))
    with true by holds.
  reflexivity.
Qed.

Lemma continuation_byte (n : Z) :
  0 <= n < 64 -> is_continuation (ascii_of_N (Z.to_N (128 + n))) = true.
Proof.
  intros Hn. unfold is_continuation. rewrite byte_of by lia.
  apply Bool.andb_true_iff. split; [apply Z.leb_le | apply Z.ltb_lt]; lia.
Qed.

Lemma leading_byte (n : Z) :
  0 <= n < 128 \/ 192 <= n < 256 ->
  is_continuation (ascii_of_N (Z.to_N n)) = false.
Proof.
  intros Hn. unfold is_continuation. rewrite byte_of by lia.
  apply Bool.andb_false_iff.
  destruct Hn; [left; apply Z.leb_gt | right; apply Z.ltb_ge]; lia.
Qed.

(** The bytes of a code point are one character. *)
Lemma utf8_char_fresh (cp : Z) :
  0 <= cp <= 1114111 ->
  one_char (utf8_char cp) = true /\ at_boundary (utf8_char cp) = true.
Proof.
  intros Hcp. unfold utf8_char.
  destruct (cp <? 128) eqn:H1;
    [| destruct (cp <? 2048) eqn:H2; [| destruct (cp <? 65536) eqn:H3]];
    rewrite ?Z.ltb_lt, ?Z.ltb_ge in *;
    cbn [one_char at_boundary list_ascii_of_string forallb];
    rewrite ?continuation_byte by byte_bounds;
    rewrite leading_byte by byte_bounds; split; reflexivity.
Qed.

(** A text made of code points has these code points. *)
Lemma code_points_text (cps : list Z) :
  Forall (fun cp => 0 <= cp <= 1114111) cps -> code_points (text cps) = cps.
Proof.
  intros H. unfold code_points, text.
  assert (Hfresh : Forall (fun x => one_char x = true /\ at_boundary x = true)
                     (map utf8_char cps)).
  { induction H as [|cp l Hcp _ IH]; constructor;
      [exact (utf8_char_fresh cp Hcp) | exact IH]. }
  rewrite (proj1 (utf8_chars_join_fresh _ Hfresh)), map_map.
  induction H as [|cp l Hcp _ IH]; [reflexivity |].
  cbn [map]. rewrite (code_point_utf8_char cp Hcp). f_equal.
  apply IH. inversion Hfresh. assumption.
Qed.

(** *** [strip] and [int] on texts beyond ASCII *)

(** White space of any script is trimmed, at both ends and only there;
    the file separator U+001C is white space to [strip]. *)
Example strip_trims_unicode_space :
  strip (text [160; 49; 8195]) = "1" /\
  strip (text [12288; 97; 32; 98; 133]) = "a b" /\
  strip (text [28; 50; 31]) = "2" /\
  strip (text [8203; 49]) = text [8203; 49].
Proof. repeat split; vm_compute; reflexivity. Qed.

(** [int] reads the decimal digits of any script and skips white space
    around them, but not the separators U+001C to U+001F; it takes a sign
    and single underscores between digits, and refuses more than 4300
    digits. *)
Example int_reads_unicode_digits :
  py_int (text [1639]) = Some 7 /\
  py_int (text [160; 55]) = Some 7 /\
  py_int (text [1635; 1638; 1637]) = Some 365 /\
  py_int (text [28; 55]) = None /\
  py_int " +1_000 " = Some 1000 /\
  py_int "1__0" = None /\
  py_int "- 7" = None /\
  py_int (text (repeat 48 4299 ++ [55])%list) = Some 7 /\
  py_int (text (repeat 48 4300 ++ [55])%list) = None.
Proof. repeat split; vm_compute; reflexivity. Qed.

Lemma bytes_cons (c : ascii) (s : string) : bytes (String c s) = byte c :: bytes s.
Proof. reflexivity. Qed.

Lemma plain_cons (c : ascii) (s : string) :
  plain (String c s) = ((byte c <? 128) && negb (c_isspace (byte c))) && plain s.
Proof. reflexivity. Qed.

Lemma ascii_not_continuation (c : ascii) :
  (byte c <? 128) = true -> is_continuation c = false.
Proof.
  intros H. unfold is_continuation. apply Z.ltb_lt in H.
  apply Bool.andb_false_iff. left. apply Z.leb_gt. exact H.
Qed.

(** The code points of an ASCII text are its bytes. *)
Lemma code_points_plain (s : string) : plain s = true -> code_points s = bytes s.
Proof.
  unfold code_points.
  induction s as [|c s IH]; [reflexivity |].
  rewrite plain_cons, bytes_cons. intros H.
  apply Bool.andb_true_iff in H as (Hc & Hs).
  apply Bool.andb_true_iff in Hc as (Hc & _).
  rewrite utf8_chars_cons. destruct s as [|c' s].
  - cbn [map code_point]. rewrite Hc. reflexivity.
  - assert (Hc' : is_continuation c' = false).
    { rewrite plain_cons in Hs. apply Bool.andb_true_iff in Hs as (Hs & _).
      apply Bool.andb_true_iff in Hs as (Hs & _).
      exact (ascii_not_continuation _ Hs). }
    rewrite Hc'. cbn [map]. rewrite (IH Hs). cbn [code_point]. rewrite Hc.
    reflexivity.
Qed.

Lemma to_ascii_plain (s : string) : plain s = true -> to_ascii (bytes s) = bytes s.
Proof.
  induction s as [|c s IH]; [reflexivity |].
  rewrite plain_cons, bytes_cons. intros H.
  apply Bool.andb_true_iff in H as (Hc & Hs).
  apply Bool.andb_true_iff in Hc as (Hc & _).
  cbn [to_ascii]. rewrite Hc, (IH Hs). reflexivity.
Qed.

Lemma skip_spaces_none (l : list Z) :
  forallb (fun c => negb (c_isspace c)) l = true -> skip_spaces l = l.
Proof.
  destruct l as [|c m]; [reflexivity |]. cbn [forallb skip_spaces].
  intros Hm. apply Bool.andb_true_iff in Hm as (Hc & _).
  apply Bool.negb_true_iff in Hc. rewrite Hc. reflexivity.
Qed.

Lemma plain_no_space (s : string) :
  plain s = true -> forallb (fun c => negb (c_isspace c)) (bytes s) = true.
Proof.
  unfold plain. induction (bytes s) as [|c l IH]; [reflexivity |].
  cbn [forallb]. intros H. apply Bool.andb_true_iff in H as (Hc & Hl).
  apply Bool.andb_true_iff in Hc as (_ & Hc). rewrite Hc, (IH Hl). reflexivity.
Qed.

Lemma bytes_length (s : string) : List.length (bytes s) = String.length s.
Proof.
  unfold bytes. rewrite length_map.
  induction s as [|c s IH]; [reflexivity |]. cbn. now rewrite IH.
Qed.

(** [int] of a short ASCII text without white space: a sign, then
    digits. *)
Lemma py_int_plain (s : string) :
  plain s = true -> Z.of_nat (String.length s) <= int_max_str_digits ->
  py_int s = parse_signed (bytes s).
Proof.
  intros Hp Hlen. unfold py_int.
  rewrite (code_points_plain s Hp), (to_ascii_plain s Hp).
  rewrite (skip_spaces_none _ (plain_no_space s Hp)).
  pose proof (filter_length_le is_digit (bytes s)) as Hf.
  rewrite bytes_length in Hf.
  destruct (int_max_str_digits <? _) eqn:Hover; [| reflexivity].
  apply Z.ltb_lt in Hover. lia.
Qed.

(** The decimal digits of a number are read back as that number. *)
Lemma parse_digits_acc (d : Decimal.uint) (acc : positive) :
  parse_digits (bytes (NilEmpty.string_of_uint d)) (Z.pos acc) true =
  Some (Z.pos (Pos.of_uint_acc d acc)).
Proof.
  revert acc.
  induction d; intros acc;
    cbn [NilEmpty.string_of_uint Pos.of_uint_acc]; [reflexivity | ..].
  all: rewrite bytes_cons.
  all: match goal with
       | |- parse_digits (byte ?c :: ?l) ?a _ = _ =>
           change (parse_digits (byte c :: l) a true)
             with (parse_digits l (10 * a + (byte c - 48)) true)
       end.
  all: rewrite <- IHd; f_equal.
  all: set (k := byte _); vm_compute in k; subst k; lia.
Qed.

Lemma parse_digits_uint (d : Decimal.uint) (b : bool) :
  d <> Decimal.Nil \/ b = true ->
  parse_digits (bytes (NilEmpty.string_of_uint d)) 0 b =
  Some (Z.of_N (Pos.of_uint d)).
Proof.
  revert b. induction d; intros b Hb; cbn [NilEmpty.string_of_uint Pos.of_uint].
  - destruct Hb as [Hb | ->]; [contradiction | reflexivity].
  - rewrite bytes_cons.
    change (parse_digits (byte "0" :: ?l) 0 b) with (parse_digits l 0 true).
    apply IHd. right. reflexivity.
  - exact (parse_digits_acc d 1).
  - exact (parse_digits_acc d 2).
  - exact (parse_digits_acc d 3).
  - exact (parse_digits_acc d 4).
  - exact (parse_digits_acc d 5).
  - exact (parse_digits_acc d 6).
  - exact (parse_digits_acc d 7).
  - exact (parse_digits_acc d 8).
  - exact (parse_digits_acc d 9).
Qed.

Lemma plain_uint (d : Decimal.uint) :
  plain (NilEmpty.string_of_uint d) = true.
Proof. induction d; cbn [NilEmpty.string_of_uint]; try rewrite plain_cons, IHd; reflexivity. Qed.

Lemma to_uint_not_nil (p : positive) : Pos.to_uint p <> Decimal.Nil.
Proof.
  intros H. pose proof (DecimalPos.Unsigned.of_to p) as Hp.
  rewrite H in Hp. discriminate Hp.
Qed.

(** [int(str(n))] is [n], as long as [str(n)] is within the length that
    [int] converts. *)
Lemma py_int_str_of_int (n : Z) :
  Z.of_nat (String.length (str_of_int n)) <= int_max_str_digits ->
  py_int (str_of_int n) = Some n.
Proof.
  unfold str_of_int.
  destruct n as [|p|p]; cbn [Z.to_int NilZero.string_of_int]; [reflexivity | |].
  - pose proof (to_uint_not_nil p) as Hnil.
    pose proof (DecimalPos.Unsigned.of_to p) as Hp.
    pose proof (parse_digits_uint (Pos.to_uint p) false (or_introl Hnil)) as Hd.
    pose proof (plain_uint (Pos.to_uint p)) as Hs.
    unfold NilZero.string_of_uint.
    destruct (Pos.to_uint p) as [|u|u|u|u|u|u|u|u|u|u]; [contradiction | ..];
      intros Hlen; rewrite (py_int_plain _ Hs Hlen);
      cbn [NilEmpty.string_of_uint] in *; rewrite bytes_cons in *;
      (etransitivity; [exact Hd | rewrite Hp; reflexivity]).
  - pose proof (to_uint_not_nil p) as Hnil.
    pose proof (DecimalPos.Unsigned.of_to p) as Hp.
    pose proof (parse_digits_uint (Pos.to_uint p) false (or_introl Hnil)) as Hd.
    pose proof (plain_uint (Pos.to_uint p)) as Hs.
    unfold NilZero.string_of_uint.
    assert (Hm : plain (String "-" (NilEmpty.string_of_uint (Pos.to_uint p))) = true)
      by (rewrite plain_cons, Hs; reflexivity).
    destruct (Pos.to_uint p) as [|u|u|u|u|u|u|u|u|u|u]; [contradiction | ..];
      intros Hlen; rewrite (py_int_plain _ Hm Hlen);
      rewrite bytes_cons; change (byte "-") with 45;
      unfold parse_signed; change (45 =? 43) with false;
      change (45 =? 45) with true; cbv iota; rewrite Hd, Hp; reflexivity.
Qed.

Section Properties.

Variable py_repr : json -> string.

(** ** Running the monad *)

Lemma bind_return {A B} (m : M A) (k : A -> M B) (w w' : world) (a : A) :
  m w = (Return a, w') -> bind m k w = k a w'.
Proof. intros H. unfold bind. now rewrite H. Qed.

Lemma bind_raise {A B} (m : M A) (k : A -> M B) (w w' : world) (e : exn) :
  m w = (Raise e, w') -> bind m k w = (Raise e, w').
Proof. intros H. unfold bind. now rewrite H. Qed.

Lemma bind_ret {A B} (a : A) (k : A -> M B) : bind (ret a) k = k a.
Proof. reflexivity. Qed.

(** A request whose body has the expected shape reaches the [try]. *)
Lemma webhook_on_event (E : env) (body : option json) (etype ev : json)
  (w : world) :
  request_event body = Some (etype, ev) ->
  webhook py_repr E body w =
  try_except (webhook_try py_repr E etype ev) (fun _ => ret (ack "error")) w.
Proof.
  unfold request_event, webhook. intros H.
  destruct (py_or _ _) as [| | | | | |top]; try discriminate.
  unfold py_get_default at 1.
  destruct (match assoc "data" top with Some x => x | None => JDict [] end)
    as [| | | | | |dat]; try discriminate.
  injection H as <- <-. reflexivity.
Qed.

(** A request whose body has another shape escapes the handler. *)
Lemma webhook_off_event (E : env) (body : option json) (w : world) :
  request_event body = None ->
  webhook py_repr E body w = (Raise AttributeError, w).
Proof.
  unfold request_event, webhook. intros H.
  destruct (py_or _ _) as [| | | | | |top]; try reflexivity.
  unfold py_get_default at 1.
  destruct (match assoc "data" top with Some x => x | None => JDict [] end)
    as [| | | | | |dat]; try reflexivity; discriminate.
Qed.

(** The handler hands on the world its [try] block leaves. *)
Lemma webhook_world (E : env) (body : option json) (etype ev : json)
  (w w' : world) (r : outcome response) :
  request_event body = Some (etype, ev) ->
  webhook py_repr E body w = (r, w') ->
  exists r0, webhook_try py_repr E etype ev w = (r0, w') /\
             r = match r0 with
                 | Return a => Return a
                 | Raise _ => Return (ack "error")
                 end.
Proof.
  intros Hev. rewrite (webhook_on_event _ _ _ _ _ Hev). unfold try_except.
  destruct (webhook_try py_repr E etype ev w) as [[a|e] w0];
    intros [= <- <-]; eexists; split; reflexivity.
Qed.

(** Only hashable values are ever found in a set. *)
Lemma py_in_hashable (x : json) (s : list json) :
  py_in x s = true -> hashable x = true.
Proof.
  unfold py_in. intros H. apply existsb_exists in H as (y & _ & H).
  destruct x; try reflexivity; destruct y as [| | |[]| | |]; discriminate H.
Qed.

(** ** The idempotence guard *)


(** ** The event store *)

Lemma ensure_db_spec (E : env) (w : world) (r : outcome unit) (w' : world) :
  ensure_db E w = (r, w') ->
  same_routing w w' /\ store_outcome E w r w' /\
  calls w' = calls w /\ call_events w' = call_events w /\
  ivr_interactions w' = ivr_interactions w /\ transfers w' = transfers w.
Proof.
  unfold ensure_db, bind, get_world, init_db, same_routing, store_outcome,
    store_available.
  destruct w as [R N f cs es vs ts ps]; cbn.
  destruct f; cbn.
  - intros [= <- <-]; cbn. intuition.
  - destruct (init_outcome_of E) as [|created]; intros [= <- <-]; cbn.
    + intuition.
    + repeat split; try (destruct created; reflexivity).
      right. repeat split; try (destruct created; reflexivity).
      intros [H | H]; discriminate.
Qed.

(** Case analysis over everything a store operation can meet. *)
Ltac store_cases w :=
  unfold same_routing, store_outcome, store_available,
    ensure_db, init_db, bind, try_except, sql_guard, bind_param,
    modify, ret, raise, get_world;
  destruct w as [wR wN wf wcs wes wvs wts wps]; cbn;
  repeat match goal with
    | |- context [match (if ?b then _ else _) with _ => _ end] =>
        destruct b eqn:?; cbn
    | |- context [(if ?b then _ else _) _] => destruct b eqn:?; cbn
    | |- context [match init_outcome_of ?E with _ => _ end] =>
        destruct (init_outcome_of E) as [|[]] eqn:?; cbn
    | |- context [match sql_bind ?v with _ => _ end] =>
        destruct (sql_bind v) eqn:?; cbn
    end;
  intros [= <- <-]; cbn;
  repeat split; auto;
  try (left; repeat split; auto; fail);
  try (right; repeat split; auto; intros [? | ?]; discriminate).

Lemma save_call_if_new_spec (E : env) (c f t : json) (w : world)
  (r : outcome unit) (w' : world) :
  save_call_if_new E c f t w = (r, w') ->
  same_routing w w' /\ store_outcome E w r w' /\
  call_events w' = call_events w /\
  ivr_interactions w' = ivr_interactions w /\ transfers w' = transfers w.
Proof. unfold save_call_if_new. store_cases w. Qed.

Lemma log_event_spec (E : env) (c t p : json) (w : world)
  (r : outcome unit) (w' : world) :
  log_event E c t p w = (r, w') ->
  same_routing w w' /\ store_outcome E w r w' /\
  calls w' = calls w /\
  ivr_interactions w' = ivr_interactions w /\ transfers w' = transfers w.
Proof. unfold log_event. store_cases w. Qed.

Lemma log_ivr_selection_spec (E : env) (c : json) (d dept : string) (w : world)
  (r : outcome unit) (w' : world) :
  log_ivr_selection E c d dept w = (r, w') ->
  same_routing w w' /\ store_outcome E w r w' /\
  calls w' = calls w /\
  call_events w' = call_events w /\ transfers w' = transfers w.
Proof. unfold log_ivr_selection. store_cases w. Qed.

Lemma log_transfer_spec (E : env) (c : json) (uri st : string) (w : world)
  (r : outcome unit) (w' : world) :
  log_transfer E c uri st w = (r, w') ->
  same_routing w w' /\ store_outcome E w r w' /\
  calls w' = calls w /\
  call_events w' = call_events w /\
  ivr_interactions w' = ivr_interactions w.
Proof. unfold log_transfer. store_cases w. Qed.

(** Once the database file is there, no store operation raises. *)
Lemma store_outcome_available (E : env) (w : world) (r : outcome unit)
  (w' : world) :
  store_available E w -> store_outcome E w r w' ->
  r = Return tt /\ db_file w' = true.
Proof.
  intros Hav [(-> & H & _) | (_ & Hn & _)]; [split; [reflexivity | exact H] |].
  contradiction.
Qed.

Lemma store_outcome_ready (E : env) (w : world) (r : outcome unit)
  (w' : world) :
  db_file w = true -> store_outcome E w r w' ->
  r = Return tt /\ db_file w' = true.
Proof.
  intros Hf [(-> & H & _) | (_ & Hn & _)]; [split; [reflexivity | exact H] |].
  exfalso. apply Hn. left. exact Hf.
Qed.

(** ** The provider client *)

Lemma answer_call_run (E : env) (ccid : json) (w : world) :
  let url := action_url py_repr ccid "answer" in
  let body := JDict [("command_id", JStr (uuid4 E url))] in
  answer_call py_repr E ccid w =
  (Return (is_200 (http E url body)),
   with_posted (mkPost url body (http E url body) :: posted w) w).
Proof. reflexivity. Qed.

Lemma transfer_call_run (E : env) (ccid : json) (uri : string) (w : world) :
  let url := action_url py_repr ccid "transfer" in
  let body := JDict [("to", JStr uri); ("command_id", JStr (uuid4 E url))] in
  transfer_call py_repr E ccid uri w =
  (Return (is_200 (http E url body)),
   with_posted (mkPost url body (http E url body) :: posted w) w).
Proof. reflexivity. Qed.

Lemma start_menu_run (E : env) (ccid : json) (w : world) :
  let url := action_url py_repr ccid "gather_using_speak" in
  let body := menu_body (uuid4 E url) in
  start_menu py_repr E ccid w =
  (Return tt, with_posted (mkPost url body (http E url body) :: posted w) w).
Proof. reflexivity. Qed.

(** The requests made between two worlds are what the later log has on
    top of the earlier one. *)
Lemma issued_prefix (w w' : world) (pre : list post_record) :
  posted w' = (pre ++ posted w)%list -> issued w w' = pre.
Proof.
  intros H. unfold issued. rewrite H, length_app.
  replace (List.length pre + List.length (posted w) - List.length (posted w))%nat
    with (List.length pre + 0)%nat by lia.
  rewrite firstn_app_2. cbn. apply app_nil_r.
Qed.

Lemma append_inj_l (a x y : string) : (a ++ x = a ++ y)%string -> x = y.
Proof.
  induction a as [|c a IH]; cbn; intros H; [exact H |].
  injection H as H. exact (IH H).
Qed.

(** Two actions on one call have different urls. *)
Lemma action_url_inj (ccid : json) (a b : string) :
  action_url py_repr ccid a = action_url py_repr ccid b -> a = b.
Proof.
  unfold action_url. intros H.
  repeat apply append_inj_l in H. exact H.
Qed.

#[local] Arguments bind : simpl never.
#[local] Arguments try_except : simpl never.
#[local] Arguments save_call_if_new : simpl never.
#[local] Arguments log_event : simpl never.
#[local] Arguments log_ivr_selection : simpl never.
#[local] Arguments log_transfer : simpl never.
#[local] Arguments answer_call : simpl never.
#[local] Arguments transfer_call : simpl never.
#[local] Arguments start_menu : simpl never.
#[local] Arguments action_url : simpl never.
#[local] Arguments truthy : simpl never.
#[local] Arguments py_in : simpl never.
#[local] Arguments hashable : simpl never.
#[local] Arguments DIGIT_TO_DEPARTMENT : simpl never.
#[local] Arguments DEPARTMENT_URIS : simpl never.
#[local] Arguments _extract_digits : simpl never.

(** Name the outcome of the first operation of the sequence in [H]. *)
Ltac peel H r w1 Heq :=
  match type of H with
  | bind ?m ?k ?w = _ => destruct (m w) as [r w1] eqn:Heq
  end.

(** Move [H] past that operation once its outcome is known. *)
Ltac advance H Heq :=
  first [ rewrite (bind_return _ _ _ _ _ Heq) in H
        | rewrite (bind_raise _ _ _ _ _ Heq) in H ].

(** ** Frame rules *)

Create HintDb frame.

Lemma preserves_ret {A} {T} (proj : world -> T) (a : A) :
  preserves (keeps proj) (ret a).
Proof. intros w r w' [= <- <-]. reflexivity. Qed.

Lemma preserves_raise {A} {T} (proj : world -> T) (e : exn) :
  preserves (keeps proj) (@raise A e).
Proof. intros w r w' [= <- <-]. reflexivity. Qed.

Lemma preserves_get_world {T} (proj : world -> T) :
  preserves (keeps proj) get_world.
Proof. intros w r w' [= <- <-]. reflexivity. Qed.

Lemma preserves_bind {A B} {T} (proj : world -> T) (m : M A) (k : A -> M B) :
  preserves (keeps proj) m -> (forall a, preserves (keeps proj) (k a)) ->
  preserves (keeps proj) (bind m k).
Proof.
  intros Hm Hk w r w'. unfold bind.
  destruct (m w) as [[a|e] w1] eqn:H1; intros H2.
  - unfold keeps. rewrite (Hk a _ _ _ H2). exact (Hm _ _ _ H1).
  - injection H2 as <- <-. exact (Hm _ _ _ H1).
Qed.

Lemma preserves_try_except {A} {T} (proj : world -> T) (m : M A)
  (h : exn -> M A) :
  preserves (keeps proj) m -> (forall e, preserves (keeps proj) (h e)) ->
  preserves (keeps proj) (try_except m h).
Proof.
  intros Hm Hh w r w'. unfold try_except.
  destruct (m w) as [[a|e] w1] eqn:H1; intros H2.
  - injection H2 as <- <-. exact (Hm _ _ _ H1).
  - unfold keeps. rewrite (Hh e _ _ _ H2). exact (Hm _ _ _ H1).
Qed.

Lemma preserves_if {A} {T} (proj : world -> T) (b : bool) (m1 m2 : M A) :
  preserves (keeps proj) m1 -> preserves (keeps proj) m2 ->
  preserves (keeps proj) (if b then m1 else m2).
Proof. destruct b; auto. Qed.

Lemma preserves_py_get {T} (proj : world -> T) (v : json) (k : string) :
  preserves (keeps proj) (py_get v k).
Proof. destruct v; intros w r w' [= <- <-]; reflexivity. Qed.

Lemma preserves_set_contains {T} (proj : world -> T) (x : json)
  (s : list json) :
  preserves (keeps proj) (set_contains x s).
Proof.
  unfold set_contains. destruct (hashable x); intros w r w' [= <- <-];
    reflexivity.
Qed.

Lemma preserves_extract_digits {T} (proj : world -> T) (ev : json) :
  preserves (keeps proj) (_extract_digits py_repr ev).
Proof.
  unfold _extract_digits.
  repeat first
    [ apply preserves_bind; [apply preserves_py_get | intros ?]
    | apply preserves_if
    | apply preserves_ret ].
  destruct (py_or _ _); apply preserves_ret.
Qed.

#[local] Hint Resolve preserves_ret preserves_raise preserves_get_world
  preserves_py_get preserves_set_contains preserves_extract_digits : frame.

(** A store operation keeps whatever component does not look at the
    database file nor at the table it writes. *)
Ltac frame_cases :=
  intros w r w';
  unfold ensure_db, init_db, bind, try_except, sql_guard, bind_param,
    modify, ret, raise, get_world, keeps;
  repeat match goal with
    | |- context [if ?b then _ else _] => destruct b
    | |- context [match init_outcome_of ?E with _ => _ end] =>
        destruct (init_outcome_of E) as [|[]]
    | |- context [match sql_bind ?v with _ => _ end] => destruct (sql_bind v)
    end;
  intros [= <- <-];
  repeat match goal with H : forall _ _, _ = _ |- _ => rewrite ?H; clear H end;
  reflexivity.

Section StoreFrames.

Context {T : Type} (proj : world -> T).
Hypothesis proj_db_file : forall b w, proj (with_db_file b w) = proj w.

Lemma preserves_save_call_if_new (E : env) (c f t : json) :
  (forall l w, proj (with_calls l w) = proj w) ->
  preserves (keeps proj) (save_call_if_new E c f t).
Proof. intros H. unfold save_call_if_new. frame_cases. Qed.

Lemma preserves_log_event (E : env) (c t p : json) :
  (forall l w, proj (with_call_events l w) = proj w) ->
  preserves (keeps proj) (log_event E c t p).
Proof. intros H. unfold log_event. frame_cases. Qed.

Lemma preserves_log_ivr_selection (E : env) (c : json) (d dept : string) :
  (forall l w, proj (with_ivr_interactions l w) = proj w) ->
  preserves (keeps proj) (log_ivr_selection E c d dept).
Proof. intros H. unfold log_ivr_selection. frame_cases. Qed.

Lemma preserves_log_transfer (E : env) (c : json) (uri st : string) :
  (forall l w, proj (with_transfers l w) = proj w) ->
  preserves (keeps proj) (log_transfer E c uri st).
Proof. intros H. unfold log_transfer. frame_cases. Qed.

End StoreFrames.

Section ProviderFrames.

Context {T : Type} (proj : world -> T).
Hypothesis proj_posted : forall l w, proj (with_posted l w) = proj w.

Lemma preserves_answer_call (E : env) (c : json) :
  preserves (keeps proj) (answer_call py_repr E c).
Proof.
  intros w r w'. rewrite answer_call_run. intros [= <- <-]. apply proj_posted.
Qed.

Lemma preserves_transfer_call (E : env) (c : json) (uri : string) :
  preserves (keeps proj) (transfer_call py_repr E c uri).
Proof.
  intros w r w'. rewrite transfer_call_run. intros [= <- <-]. apply proj_posted.
Qed.

Lemma preserves_start_menu (E : env) (c : json) :
  preserves (keeps proj) (start_menu py_repr E c).
Proof.
  intros w r w'. rewrite start_menu_run. intros [= <- <-]. apply proj_posted.
Qed.

End ProviderFrames.

Lemma preserves_routed_add {T} (proj : world -> T) (x : json) :
  (forall l w, proj (with_routed l w) = proj w) ->
  preserves (keeps proj) (routed_add x).
Proof.
  intros H w r w'. unfold routed_add, modify, raise.
  destruct (hashable x); intros [= <- <-]; [apply H | reflexivity].
Qed.

Lemma preserves_ended_add {T} (proj : world -> T) (x : json) :
  (forall l w, proj (with_ended l w) = proj w) ->
  preserves (keeps proj) (ended_add x).
Proof.
  intros H w r w'. unfold ended_add, modify, raise.
  destruct (hashable x); intros [= <- <-]; [apply H | reflexivity].
Qed.

#[local] Hint Resolve preserves_save_call_if_new preserves_log_event
  preserves_log_ivr_selection preserves_log_transfer preserves_answer_call
  preserves_transfer_call preserves_start_menu preserves_routed_add
  preserves_ended_add : frame.
#[local] Hint Extern 1 (forall _ _, _ = _) => intros; reflexivity : frame.

(** Decompose a handler into its operations and frame each of them. *)
Ltac frame :=
  repeat first
    [ solve [auto with frame]
    | match goal with
      | |- preserves _ (bind _ _) => apply preserves_bind; [| intros ?]
      | |- preserves _ (try_except _ _) =>
          apply preserves_try_except; [| intros ?]
      | |- preserves _ (if _ then _ else _) => apply preserves_if
      | |- preserves _ (match ?x with _ => _ end) => destruct x
      end ].

(** ** call.initiated *)

(** C10.  When the answer request of a [call.initiated] delivery was made
    and came back with status 200, the acknowledgement is
    [answered_and_menu_started] whatever the provider answered to the menu
    request: that answer is in the log only. *)
Theorem answered_ack_ignores_menu (E : env) (body : option json)
  (fields : list (string * json)) (w w' : world) (r : outcome response)
  (p : post_record) :
  request_event body = Some (JStr "call.initiated", JDict fields) ->
  webhook py_repr E body w = (r, w') ->
  In p (issued w w') ->
  p_url p = action_url py_repr (dict_get fields "call_control_id") "answer" ->
  is_200 (p_status p) = true ->
  r = Return (ack "answered_and_menu_started") /\
  exists menu_status : option Z,
    issued w w' =
    [mkPost (action_url py_repr (dict_get fields "call_control_id")
               "gather_using_speak")
            (menu_body (uuid4 E (action_url py_repr
               (dict_get fields "call_control_id") "gather_using_speak")))
            menu_status; p].
Proof.
  intros Hev Hrun Hin Hurl Hok.
  rewrite (webhook_on_event _ _ _ _ _ Hev) in Hrun.
  unfold try_except, webhook_try in Hrun. cbn in Hrun.
  match type of Hrun with
  | (let (_, _) := ?m w in _) = _ => destruct (m w) as [o w0] eqn:Hm
  end.
  rewrite !bind_ret in Hm.
  set (ccid := dict_get fields "call_control_id") in *.
  destruct (truthy ccid); cbn in Hm.
  2: { unfold ret in Hm. injection Hm as <- <-. cbn in Hrun.
       injection Hrun as <- <-.
       rewrite (issued_prefix w w []) in Hin by reflexivity. destruct Hin. }
  peel Hm r1 w1 Hsave.
  pose proof (save_call_if_new_spec _ _ _ _ _ _ _ Hsave)
    as ((_ & _ & HP1) & Hout1 & _).
  destruct Hout1 as [(-> & _) | (-> & _)]; advance Hm Hsave.
  2: { injection Hm as <- <-. cbn in Hrun. injection Hrun as <- <-.
       rewrite (issued_prefix w w1 []) in Hin by exact HP1. destruct Hin. }
  peel Hm r2 w2 Hlog.
  pose proof (log_event_spec _ _ _ _ _ _ _ Hlog)
    as ((_ & _ & HP2) & Hout2 & _).
  destruct Hout2 as [(-> & _) | (-> & _)]; advance Hm Hlog.
  2: { injection Hm as <- <-. cbn in Hrun. injection Hrun as <- <-.
       rewrite (issued_prefix w w2 []) in Hin by (cbn; congruence).
       destruct Hin. }
  rewrite (bind_return _ _ _ _ _ (answer_call_run E ccid w2)) in Hm.
  destruct (is_200 (http E _ _)) eqn:Hans in Hm; cbn in Hm.
  - rewrite (bind_return _ _ _ _ _ (start_menu_run E ccid _)) in Hm.
    injection Hm as <- <-. cbn in Hrun. injection Hrun as <- <-.
    match type of Hin with
    | In p (issued w ?wf) =>
        assert (Hiss : exists m a, issued w wf = [m; a] /\
                  p_url m = action_url py_repr ccid "gather_using_speak" /\
                  p_body m = menu_body (uuid4 E (p_url m)) /\
                  p_url a = action_url py_repr ccid "answer" /\
                  a = mkPost (p_url a) (p_body a) (p_status a))
          by (do 2 eexists; split;
              [apply issued_prefix; cbn; rewrite HP2, HP1; reflexivity
              | cbn; repeat split; reflexivity])
    end.
    destruct Hiss as (m & a & Hiss & Hmu & Hmb & Hau & Ha).
    rewrite Hiss in Hin |- *. split; [reflexivity |].
    destruct Hin as [<- | [<- | []]].
    + rewrite Hmu in Hurl. apply action_url_inj in Hurl. discriminate.
    + exists (p_status m). destruct m as [mu mb ms]; cbn in *. subst. reflexivity.
  - injection Hm as <- <-. cbn in Hrun. injection Hrun as <- <-.
    match type of Hin with
    | In p (issued w ?wf) =>
        rewrite (issued_prefix w wf [mkPost _ _ _]) in Hin
          by (cbn; rewrite HP2, HP1; reflexivity)
    end.
    destruct Hin as [<- | []]. cbn in Hok. congruence.
Qed.

(** What [save_call_if_new] does to the calls table: nothing, or one new
    record under an id that had none. *)
Lemma save_call_if_new_calls (E : env) (c f t : json) (w : world)
  (r : outcome unit) (w' : world) :
  save_call_if_new E c f t w = (r, w') ->
  calls w' = calls w \/
  exists k fv tv,
    sql_bind c = Some k /\
    existsb (fun row => sql_eq (call_control_id row) k) (calls w) = false /\
    calls w' = mkCall k fv tv (utcnow E) :: calls w.
Proof.
  unfold save_call_if_new.
  unfold ensure_db, init_db, bind, try_except, sql_guard, bind_param,
    modify, ret, raise, get_world.
  destruct w as [wR wN wf wcs wes wvs wts wps]; cbn.
  destruct wf; cbn.
  2: destruct (init_outcome_of E) as [|[]]; cbn.
  all: destruct (disk_ok E OpSaveCall); cbn;
    try (intros [= <- <-]; left; reflexivity).
  all: destruct (sql_bind c) as [k|] eqn:Hk; cbn;
    try (intros [= <- <-]; left; reflexivity).
  all: destruct (existsb _ wcs) eqn:Hex; cbn;
    try (intros [= <- <-]; left; reflexivity).
  all: destruct (sql_bind f) as [fv|]; cbn;
    try (intros [= <- <-]; left; reflexivity).
  all: destruct (sql_bind t) as [tv|]; cbn;
    try (intros [= <- <-]; left; reflexivity).
  all: intros [= <- <-]; right; exists k, fv, tv; cbn; auto.
Qed.

(** With the store at hand and values it can hold, the write goes through. *)
Lemma save_call_if_new_healthy (E : env) (c f t k fv tv : json) (w : world) :
  store_available E w -> disk_ok E OpSaveCall = true ->
  sql_bind c = Some k -> sql_bind f = Some fv -> sql_bind t = Some tv ->
  existsb (fun row => sql_eq (call_control_id row) k) (calls w) = false ->
  exists w',
    save_call_if_new E c f t w = (Return tt, w') /\
    calls w' = mkCall k fv tv (utcnow E) :: calls w.
Proof.
  intros Hav Hdisk Hc Hf Ht Hnew.
  unfold save_call_if_new.
  unfold ensure_db, init_db, bind, try_except, sql_guard, bind_param,
    modify, ret, raise, get_world.
  destruct w as [wR wN wf wcs wes wvs wts wps]; cbn in *.
  rewrite Hdisk, Hc, Hf, Ht.
  destruct wf; cbn.
  - rewrite Hnew. cbn. eexists; split; reflexivity.
  - destruct Hav as [Hav | Hav]; [discriminate |]. cbn in Hav.
    rewrite Hav. cbn. rewrite Hnew. cbn. eexists; split; reflexivity.
Qed.

Lemma call_records_zero (c : json) (w : world) :
  call_records c w = 0%nat ->
  existsb (fun row => sql_eq (call_control_id row) c) (calls w) = false.
Proof.
  unfold call_records. induction (calls w) as [|row rows IH]; cbn; [reflexivity |].
  destruct (sql_eq (call_control_id row) c); cbn; [discriminate | exact IH].
Qed.

(** A [call.initiated] delivery changes the calls table only through
    [save_call_if_new]. *)
Lemma initiated_calls (E : env) (fields : list (string * json)) (w w' : world)
  (r : outcome response) :
  webhook_try py_repr E (JStr "call.initiated") (JDict fields) w = (r, w') ->
  calls w' = calls w \/
  exists k fv tv,
    sql_bind (dict_get fields "call_control_id") = Some k /\
    existsb (fun row => sql_eq (call_control_id row) k) (calls w) = false /\
    calls w' = mkCall k fv tv (utcnow E) :: calls w.
Proof.
  unfold webhook_try. cbn. rewrite !bind_ret.
  set (ccid := dict_get fields "call_control_id").
  destruct (truthy ccid); cbn.
  2: { intros [= <- <-]. left. reflexivity. }
  intros Hrun. peel Hrun r1 w1 Hsave.
  pose proof (save_call_if_new_calls _ _ _ _ _ _ _ Hsave) as Hcalls.
  assert (Hrest : calls w' = calls w1).
  { destruct r1 as [[]|e]; advance Hrun Hsave.
    - match type of Hrun with
      | ?m w1 = _ =>
          assert (Hp : preserves (keeps calls) m) by frame;
          exact (Hp _ _ _ Hrun)
      end.
    - injection Hrun as <- <-. reflexivity. }
  rewrite Hrest. exact Hcalls.
Qed.

(** Only [call.initiated] writes to the calls table. *)
Lemma calls_kept_unless_initiated (E : env) (etype ev : json) :
  is_str etype "call.initiated" = false ->
  preserves (keeps calls) (webhook_try py_repr E etype ev).
Proof.
  intros Hi. unfold webhook_try. rewrite Hi.
  destruct (is_str etype "call.gather.ended"); [frame |].
  destruct (is_str etype "call.hangup"); frame.
Qed.

Lemma is_str_true (v : json) (lit : string) :
  is_str v lit = true -> v = JStr lit.
Proof.
  destruct v; cbn; try discriminate.
  intros H. apply String.eqb_eq in H. now subst.
Qed.

(** Whatever is delivered, and whether the store works or not, the number
    of Call records under a call id stays as it is or goes from none to
    one: no delivery makes a second record. *)
Lemma call_records_step (E : env) (body : option json) (w w' : world)
  (r : outcome response) (c : json) :
  webhook py_repr E body w = (r, w') ->
  call_records c w' = call_records c w \/
  (call_records c w = 0%nat /\ call_records c w' = 1%nat).
Proof.
  intros Hrun.
  destruct (request_event body) as [[etype ev]|] eqn:Hev.
  2: { rewrite (webhook_off_event _ _ _ Hev) in Hrun.
       injection Hrun as _ <-. left. reflexivity. }
  destruct (webhook_world _ _ _ _ _ _ _ Hev Hrun) as (r0 & Htry & _).
  unfold call_records.
  destruct (is_str etype "call.initiated") eqn:Hi.
  2: { left. rewrite (calls_kept_unless_initiated _ _ _ Hi _ _ _ Htry).
       reflexivity. }
  apply is_str_true in Hi. subst etype.
  destruct ev as [| | | | | |fields];
    try (unfold webhook_try in Htry; cbn in Htry;
         injection Htry as _ <-; left; reflexivity).
  destruct (initiated_calls _ _ _ _ _ Htry)
    as [-> | (k & fv & tv & _ & Hnone & ->)]; [left; reflexivity |].
  cbn [filter call_control_id].
  destruct (sql_eq k c) eqn:Hkc; [| left; reflexivity].
  right.
  assert (Hzero : filter (fun row => sql_eq (call_control_id row) c) (calls w) = []).
  { induction (calls w) as [|row rows IH]; [reflexivity |].
    cbn in Hnone |- *. apply Bool.orb_false_iff in Hnone as (Hrow & Hrows).
    rewrite (sql_eq_right c k (call_control_id row)), Hrow
      by (rewrite sql_eq_sym; exact Hkc).
    exact (IH Hrows). }
  rewrite Hzero. split; reflexivity.
Qed.

Lemma call_records_none (c : json) (w : world) :
  existsb (fun row => sql_eq (call_control_id row) c) (calls w) = false ->
  call_records c w = 0%nat.
Proof.
  unfold call_records.
  induction (calls w) as [|row rows IH]; cbn; [reflexivity |].
  destruct (sql_eq (call_control_id row) c); cbn; [discriminate | exact IH].
Qed.

(** C5, as it holds.  Take a [call.initiated] event for a call id that
    has no Call record.  Delivered while the store is at hand, it makes
    exactly one answer request, and the menu request exactly once when the
    answer came back with status 200 and not at all otherwise; it leaves
    exactly one Call record for that id when sqlite3 accepts the write and
    the from and to values can be stored.  Delivered when the store cannot
    be set up, it is acknowledged with [error]: no request is made and the
    calls table is as it was.  In every case there is at most one Call
    record for the id afterwards, and delivering the same event again,
    under any conditions, never makes a second one and leaves the calls
    table as it is once the record exists. *)
Theorem initiated_once (E : env) (body : option json)
  (fields : list (string * json)) (c : string) (w : world) :
  request_event body = Some (JStr "call.initiated", JDict fields) ->
  dict_get fields "call_control_id" = JStr c -> c <> "" ->
  call_records (JStr c) w = 0%nat ->
  let answer_url := action_url py_repr (JStr c) "answer" in
  let answer_body := JDict [("command_id", JStr (uuid4 E answer_url))] in
  let answered := http E answer_url answer_body in
  let menu_url := action_url py_repr (JStr c) "gather_using_speak" in
  let menu := menu_body (uuid4 E menu_url) in
  exists (r : outcome response) (w' : world),
    webhook py_repr E body w = (r, w') /\
    (call_records (JStr c) w' <= 1)%nat /\
    (forall (E2 : env) (r2 : outcome response) (w2 : world),
       webhook py_repr E2 body w' = (r2, w2) ->
       (call_records (JStr c) w2 <= 1)%nat /\
       (call_records (JStr c) w' = 1%nat -> calls w2 = calls w')) /\
    (store_available E w ->
     issued w w' =
       (if is_200 answered
        then [mkPost menu_url menu (http E menu_url menu);
              mkPost answer_url answer_body answered]
        else [mkPost answer_url answer_body answered]) /\
     (disk_ok E OpSaveCall = true ->
      storable (py_or (dict_get fields "from") (JStr "unknown")) = true ->
      storable (py_or (dict_get fields "to") (JStr "unknown")) = true ->
      call_records (JStr c) w' = 1%nat)) /\
    (~ store_available E w ->
     r = Return (ack "error") /\ issued w w' = [] /\ calls w' = calls w).
Proof.
  intros Hev Hid Hne Hnew.
  intros answer_url answer_body answered menu_url menu.
  destruct (webhook py_repr E body w) as [r w'] eqn:Hweb.
  assert (Hmost : (call_records (JStr c) w' <= 1)%nat).
  { destruct (call_records_step _ _ _ _ _ (JStr c) Hweb) as [Hs | (_ & Hs)];
      rewrite Hs; [rewrite Hnew |]; auto. }
  exists r, w'. split; [reflexivity |]. split; [exact Hmost |].
  split.
  { intros E2 r2 w2' Hrun2. split.
    - destruct (call_records_step _ _ _ _ _ (JStr c) Hrun2) as [Hs | (_ & Hs)];
        rewrite Hs; auto.
    - intros Hone.
      rewrite (webhook_on_event _ _ _ _ _ Hev) in Hrun2.
      unfold try_except in Hrun2.
      destruct (webhook_try py_repr E2 _ _ w') as [o w3] eqn:Htry.
      assert (Hw : w2' = w3) by (destruct o; unfold ret in Hrun2; congruence).
      subst w3.
      destruct (initiated_calls _ _ _ _ _ Htry)
        as [Hsame | (k & fv' & tv' & Hk & Hex & _)]; [exact Hsame |].
      rewrite Hid in Hk. injection Hk as <-.
      rewrite (call_records_none _ _ Hex) in Hone. discriminate. }
  assert (Ht : truthy (JStr c) = true).
  { unfold truthy. destruct c; [contradiction | reflexivity]. }
  destruct (save_call_if_new E (JStr c)
              (py_or (dict_get fields "from") (JStr "unknown"))
              (py_or (dict_get fields "to") (JStr "unknown")) w)
    as [r1 w1] eqn:Hsave.
  pose proof (save_call_if_new_spec _ _ _ _ _ _ _ Hsave)
    as ((_ & _ & HP1) & Hout1 & _).
  rewrite (webhook_on_event _ _ _ _ _ Hev) in Hweb.
  split.
  - intros Hav.
    destruct (store_outcome_available _ _ _ _ Hav Hout1) as (-> & Hfile1).
    destruct (log_event E (JStr c) (JStr "call.initiated") (JDict fields) w1)
      as [r2 w2] eqn:Hlog.
    pose proof (log_event_spec _ _ _ _ _ _ _ Hlog)
      as ((_ & _ & HP2) & Hout2 & Hcalls2 & _).
    destruct (store_outcome_ready _ _ _ _ Hfile1 Hout2) as (-> & Hfile2).
    assert (Hrun : exists w'',
      webhook_try py_repr E (JStr "call.initiated") (JDict fields) w =
        (Return (ack (if is_200 answered then "answered_and_menu_started"
                      else "answer_failed")), w'') /\
      calls w'' = calls w1 /\
      posted w'' =
        ((if is_200 answered
          then [mkPost menu_url menu (http E menu_url menu);
                mkPost answer_url answer_body answered]
          else [mkPost answer_url answer_body answered]) ++ posted w)%list).
    { unfold webhook_try. cbn. rewrite !bind_ret, Hid, Ht. cbn.
      rewrite (bind_return _ _ _ _ _ Hsave), (bind_return _ _ _ _ _ Hlog).
      rewrite (bind_return _ _ _ _ _ (answer_call_run E (JStr c) w2)).
      fold answer_url answer_body answered.
      destruct (is_200 answered); cbn.
      - rewrite (bind_return _ _ _ _ _ (start_menu_run E (JStr c) _)).
        eexists. split; [reflexivity |]. cbn.
        split; [exact Hcalls2 | rewrite HP2, HP1; reflexivity].
      - eexists. split; [reflexivity |]. cbn.
        split; [exact Hcalls2 | rewrite HP2, HP1; reflexivity]. }
    destruct Hrun as (w'' & Hrun & Hcalls' & Hposted).
    unfold try_except in Hweb. rewrite Hrun in Hweb.
    injection Hweb as _ <-.
    split; [apply issued_prefix; exact Hposted |].
    intros Hdisk Hfrom Hto. unfold storable in Hfrom, Hto.
    destruct (sql_bind (py_or (dict_get fields "from") _)) as [fv|] eqn:Hf;
      [| discriminate].
    destruct (sql_bind (py_or (dict_get fields "to") _)) as [tv|] eqn:Hto';
      [| discriminate].
    destruct (save_call_if_new_healthy E (JStr c) _ _ (JStr c) fv tv w
                Hav Hdisk eq_refl Hf Hto' (call_records_zero _ _ Hnew))
      as (w1' & Hsave' & Hcalls1).
    rewrite Hsave in Hsave'. injection Hsave' as <-.
    unfold call_records in *. rewrite Hcalls', Hcalls1. cbn.
    rewrite String.eqb_refl. cbn. rewrite Hnew. reflexivity.
  - intros Hno.
    destruct Hout1 as [(_ & _ & Hyes) | (-> & _ & Hc & _)]; [contradiction |].
    assert (Hrun :
      webhook_try py_repr E (JStr "call.initiated") (JDict fields) w =
      (Raise InitError, w1)).
    { unfold webhook_try. cbn. rewrite !bind_ret, Hid, Ht. cbn.
      exact (bind_raise _ _ _ _ _ Hsave). }
    unfold try_except in Hweb. rewrite Hrun in Hweb.
    injection Hweb as <- <-.
    split; [reflexivity |]. split; [| exact Hc].
    apply (issued_prefix w w1 []). exact HP1.
Qed.

(** ** call.gather.ended *)

(** Extraction reads the payload only. *)
Lemma extract_digits_run (fields : list (string * json)) (w : world) :
  _extract_digits py_repr (JDict fields) w =
  (Return (digit_of py_repr fields), w).
Proof.
  unfold digit_of, _extract_digits, py_get, bind, ret. cbn.
  destruct (truthy (py_or _ _)); cbn; [reflexivity |].
  destruct (py_or _ _); reflexivity.
Qed.

Lemma truthy_str (c : string) : c <> "" -> truthy (JStr c) = true.
Proof. unfold truthy. destruct c; [contradiction | reflexivity]. Qed.

Lemma get_world_run (w : world) : get_world w = (Return w, w).
Proof. reflexivity. Qed.

(** A string call id that is in neither set passes the guard. *)
Lemma gather_passes_guard (E : env) (fields : list (string * json))
  (c : string) (w : world) :
  dict_get fields "call_control_id" = JStr c -> c <> "" ->
  py_in (JStr c) (ROUTED_CALLS w) = false ->
  py_in (JStr c) (ENDED_CALLS w) = false ->
  webhook_try py_repr E (JStr "call.gather.ended") (JDict fields) w =
  (log_event E (JStr c) (JStr "call.gather.ended") (JDict fields) ;;
   dgt <- _extract_digits py_repr (JDict fields) ;;
   (match DIGIT_TO_DEPARTMENT dgt with
    | Some dept =>
        log_ivr_selection E (JStr c) dgt dept ;;
        match DEPARTMENT_URIS E dept with
        | None => raise KeyError
        | Some to_uri =>
            transfer_success <- transfer_call py_repr E (JStr c) to_uri ;;
            log_transfer E (JStr c) to_uri
              (if transfer_success then "success" else "error") ;;
            if transfer_success then routed_add (JStr c) else ret tt
        end
    | None => start_menu py_repr E (JStr c)
    end) ;;
   ret (JDict [("status", JStr "gather_processed"); ("digit", JStr dgt)],
        200)) w.
Proof.
  intros Hid Hne Hr Hn. unfold webhook_try. cbn.
  rewrite bind_ret, Hid.
  rewrite (bind_return _ _ _ _ _ (get_world_run w)).
  rewrite (truthy_str c Hne). cbn. unfold set_contains.
  change (hashable (JStr c)) with true. cbn iota.
  rewrite bind_ret, Hr, Hn. cbn. reflexivity.
Qed.

Lemma digit_unmapped (d : string) :
  d <> "1" -> d <> "2" -> d <> "3" -> DIGIT_TO_DEPARTMENT d = None.
Proof.
  intros H1 H2 H3. unfold DIGIT_TO_DEPARTMENT.
  apply String.eqb_neq in H1, H2, H3. rewrite H1, H2, H3. reflexivity.
Qed.

(** C3, as it holds.  The table sends 1 to sales, 2 to support and 3 to
    porting, and nothing else anywhere.  A [call.gather.ended] delivery
    that passes the guard with any other extracted digit (the empty string
    included) writes no IvrSelection or Transfer record and leaves both
    sets unchanged.  With the store at hand it replays the menu: one menu
    request, and the acknowledgement [gather_processed] with the digit.
    When the store cannot be set up it is acknowledged with [error] and no
    request is made. *)
Theorem unmapped_digit_replays_menu (E : env) (body : option json)
  (fields : list (string * json)) (c : string) (w : world) :
  request_event body = Some (JStr "call.gather.ended", JDict fields) ->
  dict_get fields "call_control_id" = JStr c -> c <> "" ->
  py_in (JStr c) (ROUTED_CALLS w) = false ->
  py_in (JStr c) (ENDED_CALLS w) = false ->
  digit_of py_repr fields <> "1" ->
  digit_of py_repr fields <> "2" ->
  digit_of py_repr fields <> "3" ->
  let d := digit_of py_repr fields in
  let menu_url := action_url py_repr (JStr c) "gather_using_speak" in
  let menu := menu_body (uuid4 E menu_url) in
  (DIGIT_TO_DEPARTMENT "1" = Some "sales" /\
   DIGIT_TO_DEPARTMENT "2" = Some "support" /\
   DIGIT_TO_DEPARTMENT "3" = Some "porting" /\
   DIGIT_TO_DEPARTMENT d = None) /\
  exists (r : outcome response) (w' : world),
    webhook py_repr E body w = (r, w') /\
    ivr_interactions w' = ivr_interactions w /\
    transfers w' = transfers w /\
    ROUTED_CALLS w' = ROUTED_CALLS w /\
    ENDED_CALLS w' = ENDED_CALLS w /\
    (store_available E w ->
     r = Return (JDict [("status", JStr "gather_processed");
                        ("digit", JStr d)], 200) /\
     issued w w' = [mkPost menu_url menu (http E menu_url menu)]) /\
    (~ store_available E w ->
     r = Return (ack "error") /\ issued w w' = []).
Proof.
  intros Hev Hid Hne Hr Hn H1 H2 H3 d menu_url menu.
  pose proof (digit_unmapped d H1 H2 H3) as Hnone.
  split; [repeat split; try reflexivity; exact Hnone |].
  destruct (log_event E (JStr c) (JStr "call.gather.ended") (JDict fields) w)
    as [r1 w1] eqn:Hlog.
  pose proof (log_event_spec _ _ _ _ _ _ _ Hlog)
    as ((HR & HN & HP) & Hout & _ & Hivr & Htr).
  rewrite (webhook_on_event _ _ _ _ _ Hev). unfold try_except.
  rewrite (gather_passes_guard E fields c w Hid Hne Hr Hn).
  destruct Hout as [(-> & _ & Hyes) | (-> & Hno & _)].
  - rewrite (bind_return _ _ _ _ _ Hlog).
    rewrite (bind_return _ _ _ _ _ (extract_digits_run fields w1)).
    fold d. rewrite Hnone.
    rewrite (bind_return _ _ _ _ _ (start_menu_run E (JStr c) w1)).
    eexists _, _. split; [reflexivity |].
    split; [cbn; exact Hivr |]. split; [cbn; exact Htr |].
    split; [cbn; exact HR |]. split; [cbn; exact HN |].
    split; [| intros Hnot; contradiction].
    intros _. split; [reflexivity |].
    apply issued_prefix. cbn. rewrite HP. reflexivity.
  - rewrite (bind_raise _ _ _ _ _ Hlog).
    exists (Return (ack "error")), w1. split; [reflexivity |].
    repeat (split; [assumption |]).
    split; [intros Hyes; contradiction |].
    intros _. split; [reflexivity |].
    apply (issued_prefix w w1 []). exact HP.
Qed.

Lemma department_has_uri (E : env) (d dept : string) :
  DIGIT_TO_DEPARTMENT d = Some dept ->
  exists uri, DEPARTMENT_URIS E dept = Some uri /\
              str_in dept valid_departments = true.
Proof.
  unfold DIGIT_TO_DEPARTMENT.
  destruct (d =? "1")%string; [| destruct (d =? "2")%string;
    [| destruct (d =? "3")%string; [| discriminate]]];
    intros [= <-]; eexists; split; reflexivity.
Qed.

Lemma py_in_set_add_str (c : string) (s : list json) :
  py_in (JStr c) (set_add (JStr c) s) = true.
Proof.
  unfold set_add. destruct (py_in (JStr c) s) eqn:H; [exact H |].
  unfold py_in. cbn. rewrite String.eqb_refl. reflexivity.
Qed.

Lemma store_available_dec (E : env) (w : world) :
  store_available E w \/ ~ store_available E w.
Proof.
  unfold store_available.
  destruct (db_file w); [left; left; reflexivity |].
  destruct (init_outcome_of E); [left; right; reflexivity |].
  right. intros [H | H]; discriminate.
Qed.

(** The whole run of a delivery that passes the guard with a mapped digit
    while the store is at hand. *)
Lemma mapped_gather_run (E : env) (fields : list (string * json))
  (c dept : string) (w : world) :
  dict_get fields "call_control_id" = JStr c -> c <> "" ->
  py_in (JStr c) (ROUTED_CALLS w) = false ->
  py_in (JStr c) (ENDED_CALLS w) = false ->
  DIGIT_TO_DEPARTMENT (digit_of py_repr fields) = Some dept ->
  store_available E w ->
  let url := action_url py_repr (JStr c) "transfer" in
  exists (uri : string) (w' : world),
    let body := JDict [("to", JStr uri); ("command_id", JStr (uuid4 E url))] in
    DEPARTMENT_URIS E dept = Some uri /\
    webhook_try py_repr E (JStr "call.gather.ended") (JDict fields) w =
      (Return (JDict [("status", JStr "gather_processed");
                      ("digit", JStr (digit_of py_repr fields))], 200), w') /\
    posted w' = mkPost url body (http E url body) :: posted w /\
    ROUTED_CALLS w' =
      (if is_200 (http E url body)
       then set_add (JStr c) (ROUTED_CALLS w) else ROUTED_CALLS w) /\
    ENDED_CALLS w' = ENDED_CALLS w /\
    db_file w' = true.
Proof.
  intros Hid Hne Hr Hn Hmap Hav url.
  destruct (department_has_uri E _ _ Hmap) as (uri & Huri & Hvalid).
  exists uri.
  destruct (log_event E (JStr c) (JStr "call.gather.ended") (JDict fields) w)
    as [r1 w1] eqn:Hlog.
  pose proof (log_event_spec _ _ _ _ _ _ _ Hlog) as ((HR1 & HN1 & HP1) & Hout1 & _).
  destruct (store_outcome_available _ _ _ _ Hav Hout1) as (-> & Hf1).
  destruct (log_ivr_selection E (JStr c) (digit_of py_repr fields) dept w1)
    as [r2 w2] eqn:Hivr.
  pose proof (log_ivr_selection_spec _ _ _ _ _ _ _ Hivr)
    as ((HR2 & HN2 & HP2) & Hout2 & _).
  destruct (store_outcome_ready _ _ _ _ Hf1 Hout2) as (-> & Hf2).
  pose proof (transfer_call_run E (JStr c) uri w2) as Htr. cbn zeta in Htr.
  fold url in Htr.
  set (body := JDict [("to", JStr uri); ("command_id", JStr (uuid4 E url))]) in *.
  set (w3 := with_posted (mkPost url body (http E url body) :: posted w2) w2) in *.
  destruct (log_transfer E (JStr c) uri
              (if is_200 (http E url body) then "success" else "error") w3)
    as [r4 w4] eqn:Hlt.
  pose proof (log_transfer_spec _ _ _ _ _ _ _ Hlt)
    as ((HR4 & HN4 & HP4) & Hout4 & _).
  assert (Hf3 : db_file w3 = true) by exact Hf2.
  destruct (store_outcome_ready _ _ _ _ Hf3 Hout4) as (-> & Hf4).
  rewrite (gather_passes_guard E fields c w Hid Hne Hr Hn).
  rewrite (bind_return _ _ _ _ _ Hlog).
  rewrite (bind_return _ _ _ _ _ (extract_digits_run fields w1)).
  rewrite Hmap.
  match goal with
  | |- context [bind (bind ?m ?k) ?k2 w1] =>
      assert (Hinner : exists w',
        bind m k w1 = (Return tt, w') /\
        posted w' = posted w3 /\
        ROUTED_CALLS w' =
          (if is_200 (http E url body)
           then set_add (JStr c) (ROUTED_CALLS w4) else ROUTED_CALLS w4) /\
        ENDED_CALLS w' = ENDED_CALLS w4 /\ db_file w' = true)
  end.
  { rewrite (bind_return _ _ _ _ _ Hivr), Huri.
    rewrite (bind_return _ _ _ _ _ Htr).
    rewrite (bind_return _ _ _ _ _ Hlt).
    destruct (is_200 (http E url body)).
    - unfold routed_add. change (hashable (JStr c)) with true. cbn iota.
      eexists. split; [reflexivity |]. cbn. auto.
    - eexists. split; [reflexivity |]. auto. }
  destruct Hinner as (w' & Hinner & HP' & HR' & HN' & Hf').
  exists w'. cbn zeta. fold url body.
  rewrite (bind_return _ _ _ _ _ Hinner).
  split; [exact Huri |]. split; [reflexivity |].
  split; [rewrite HP'; unfold w3; cbn; rewrite HP2, HP1; reflexivity |].
  split; [rewrite HR', HR4; unfold w3; cbn; rewrite HR2, HR1; reflexivity |].
  split; [rewrite HN', HN4; unfold w3; cbn; rewrite HN2, HN1; reflexivity |].
  exact Hf'.
Qed.

(** Without the store, a delivery that passes the guard stops at its
    first write: no provider request is made. *)
Lemma gather_without_store (E : env) (fields : list (string * json))
  (c : string) (w w' : world) (r : outcome response) :
  dict_get fields "call_control_id" = JStr c -> c <> "" ->
  py_in (JStr c) (ROUTED_CALLS w) = false ->
  py_in (JStr c) (ENDED_CALLS w) = false ->
  ~ store_available E w ->
  webhook_try py_repr E (JStr "call.gather.ended") (JDict fields) w = (r, w') ->
  posted w' = posted w.
Proof.
  intros Hid Hne Hr Hn Hav.
  rewrite (gather_passes_guard E fields c w Hid Hne Hr Hn).
  destruct (log_event E (JStr c) (JStr "call.gather.ended") (JDict fields) w)
    as [r1 w1] eqn:Hlog.
  pose proof (log_event_spec _ _ _ _ _ _ _ Hlog) as ((_ & _ & HP1) & Hout1 & _).
  destruct Hout1 as [(_ & _ & Hyes) | (-> & _)]; [contradiction |].
  rewrite (bind_raise _ _ _ _ _ Hlog). intros [= <- <-]. exact HP1.
Qed.

(** C2.  Take a [call.gather.ended] delivery that passes the guard with a
    mapped digit and whose transfer request came back.  If the answer was
    a success (status 200), the call id is in the routed set afterwards.
    If it was a failure, the call id is in neither set afterwards, and any
    later [call.gather.ended] for the same id with a mapped digit is
    processed again: it is acknowledged with [gather_processed] and makes
    a transfer request of its own. *)
Theorem transfer_outcome_gates_routed (E : env) (body : option json)
  (fields : list (string * json)) (c dept : string) (w w' : world)
  (r : outcome response) (p : post_record) :
  request_event body = Some (JStr "call.gather.ended", JDict fields) ->
  dict_get fields "call_control_id" = JStr c -> c <> "" ->
  py_in (JStr c) (ROUTED_CALLS w) = false ->
  py_in (JStr c) (ENDED_CALLS w) = false ->
  DIGIT_TO_DEPARTMENT (digit_of py_repr fields) = Some dept ->
  webhook py_repr E body w = (r, w') ->
  In p (issued w w') ->
  p_url p = action_url py_repr (JStr c) "transfer" ->
  (is_200 (p_status p) = true ->
   py_in (JStr c) (ROUTED_CALLS w') = true) /\
  (is_200 (p_status p) = false ->
   py_in (JStr c) (ROUTED_CALLS w') = false /\
   py_in (JStr c) (ENDED_CALLS w') = false /\
   forall (E2 : env) (body2 : option json) (fields2 : list (string * json))
          (dept2 : string),
     request_event body2 = Some (JStr "call.gather.ended", JDict fields2) ->
     dict_get fields2 "call_control_id" = JStr c ->
     DIGIT_TO_DEPARTMENT (digit_of py_repr fields2) = Some dept2 ->
     exists (w2 : world) (p2 : post_record),
       webhook py_repr E2 body2 w' =
         (Return (JDict [("status", JStr "gather_processed");
                         ("digit", JStr (digit_of py_repr fields2))], 200),
          w2) /\
       issued w' w2 = [p2] /\
       p_url p2 = action_url py_repr (JStr c) "transfer").
Proof.
  intros Hev Hid Hne Hr Hn Hmap Hrun Hin Hurl.
  destruct (webhook_world _ _ _ _ _ _ _ Hev Hrun) as (r0 & Htry & _).
  destruct (store_available_dec E w) as [Hav | Hav].
  2: { rewrite (issued_prefix w w' [])
         in Hin by exact (gather_without_store _ _ _ _ _ _ Hid Hne Hr Hn Hav Htry).
       destruct Hin. }
  destruct (mapped_gather_run E fields c dept w Hid Hne Hr Hn Hmap Hav)
    as (uri & w1 & _ & Htry1 & HP & HR & HN & Hf).
  rewrite Htry in Htry1. injection Htry1 as -> <-.
  rewrite (issued_prefix w w' [_]) in Hin by exact HP.
  destruct Hin as [<- | []]. cbn [p_status].
  split; intros Hok; rewrite Hok in HR.
  - rewrite HR. apply py_in_set_add_str.
  - rewrite HR, HN. split; [exact Hr |]. split; [exact Hn |].
    intros E2 body2 fields2 dept2 Hev2 Hid2 Hmap2.
    assert (Hr' : py_in (JStr c) (ROUTED_CALLS w') = false) by (rewrite HR; exact Hr).
    assert (Hn' : py_in (JStr c) (ENDED_CALLS w') = false) by (rewrite HN; exact Hn).
    destruct (mapped_gather_run E2 fields2 c dept2 w' Hid2 Hne Hr' Hn' Hmap2
                (or_introl Hf))
      as (uri2 & w2 & _ & Htry2 & HP2 & _).
    eexists w2, _. split; [| split].
    + rewrite (webhook_on_event _ _ _ _ _ Hev2). unfold try_except.
      rewrite Htry2. reflexivity.
    + apply issued_prefix. exact HP2.
    + reflexivity.
Qed.

(** ** Digit extraction *)

(** What [_extract_digits] computes, without the monad. *)
Lemma digit_of_unfold (fields : list (string * json)) :
  digit_of py_repr fields =
  let d := py_or (dict_get fields "digit") (dict_get fields "digits") in
  if truthy d then strip (py_str py_repr d)
  else
    match py_or (py_or (dict_get fields "result") (dict_get fields "dtmf"))
                (JDict []) with
    | JDict nested =>
        strip (py_str py_repr
                 (py_or (py_or (dict_get nested "digits")
                               (dict_get nested "digit"))
                        (JStr "")))
    | _ => ""
    end.
Proof.
  unfold digit_of, _extract_digits, py_get, bind, ret. cbn [fst].
  destruct (truthy (py_or _ _)); cbn [fst]; [reflexivity |].
  destruct (py_or (py_or _ _) _); reflexivity.
Qed.

(** The nested object: its "digits", then its "digit". *)
Lemma nested_extraction (res : json) :
  match find truthy (nested_locations res ++ [])%list with
  | Some v =>
      trimmed_of (py_str py_repr v)
        match py_or res (JDict []) with
        | JDict nested =>
            strip (py_str py_repr
                     (py_or (py_or (dict_get nested "digits")
                                   (dict_get nested "digit"))
                            (JStr "")))
        | _ => ""
        end
  | None =>
      match py_or res (JDict []) with
      | JDict nested =>
          strip (py_str py_repr
                   (py_or (py_or (dict_get nested "digits")
                                 (dict_get nested "digit"))
                          (JStr "")))
      | _ => ""
      end = ""
  end.
Proof.
  destruct res as [| | | | | |nested]; unfold py_or at 1 4;
    cbn [nested_locations app find];
    try (destruct (truthy _); reflexivity).
  destruct nested as [|kv nested]; [reflexivity |].
  assert (Ht : truthy (JDict (kv :: nested)) = true) by reflexivity.
  remember (kv :: nested) as d eqn:Hd. clear Hd.
  unfold py_or. rewrite Ht. cbv iota.
  destruct (truthy (dict_get d "digits")) eqn:H1; cbv iota; rewrite ?H1;
    [apply strip_trimmed |].
  destruct (truthy (dict_get d "digit")) eqn:H2; cbv iota; rewrite ?H2;
    [apply strip_trimmed | reflexivity].
Qed.

(** An empty or absent nested object offers no location. *)
Lemma falsy_offers_nothing (v : json) (l : list json) :
  truthy v = false ->
  find truthy (nested_locations v ++ l)%list = find truthy l.
Proof.
  destruct v as [| | | | | |nested]; try reflexivity.
  destruct nested; [reflexivity | discriminate].
Qed.

(** C7, as it holds.  For every gather payload that is an object,
    [_extract_digits] returns the first non-empty value, trimmed, among
    the top-level "digit", the top-level "digits", and the "digits" and
    then the "digit" of one nested object, when that is a dict: the value
    under "result", or the value under "dtmf" when "result" is absent or
    empty.  It returns the empty string when none of them is non-empty.
    Non-empty is Python's truth test, and trimmed is said without
    [strip]: the value is the result between two runs of white space,
    and the result has none at either end.  Whenever "result" is absent
    or empty, this is the policy of the specification. *)
Theorem extraction_follows_policy (fields : list (string * json)) (w : world) :
  exists t : string,
    _extract_digits py_repr (JDict fields) w = (Return t, w) /\
    extraction_policy py_repr
      [py_or (dict_get fields "result") (dict_get fields "dtmf")] fields t /\
    (truthy (dict_get fields "result") = false ->
     claimed_extraction py_repr fields t).
Proof.
  exists (digit_of py_repr fields). split; [apply extract_digits_run |].
  rewrite digit_of_unfold. cbv zeta.
  unfold claimed_extraction, extraction_policy, digit_locations.
  cbn [flat_map app find].
  destruct (truthy (dict_get fields "digit")) eqn:H1; cbv iota.
  { assert (Hd : py_or (dict_get fields "digit") (dict_get fields "digits")
                 = dict_get fields "digit")
      by (unfold py_or; rewrite H1; reflexivity).
    rewrite Hd, H1. split; [| intros _]; apply strip_trimmed. }
  assert (Hd : py_or (dict_get fields "digit") (dict_get fields "digits")
               = dict_get fields "digits")
    by (unfold py_or; rewrite H1; reflexivity).
  rewrite Hd.
  destruct (truthy (dict_get fields "digits")) eqn:H2; cbv iota.
  { split; [| intros _]; apply strip_trimmed. }
  split; [apply nested_extraction |].
  intros Hres. rewrite (falsy_offers_nothing _ _ Hres).
  assert (Hr : py_or (dict_get fields "result") (dict_get fields "dtmf")
               = dict_get fields "dtmf")
    by (unfold py_or; rewrite Hres; reflexivity).
  rewrite Hr. apply nested_extraction.
Qed.

(** ** The two sets across a delivery *)

Lemma bind_inv {A B} (m : M A) (k : A -> M B) (w w' : world) (r : outcome B) :
  bind m k w = (r, w') ->
  (exists a w1, m w = (Return a, w1) /\ k a w1 = (r, w')) \/
  (exists e, m w = (Raise e, w') /\ r = Raise e).
Proof.
  unfold bind. destruct (m w) as [[a|e] w1]; intros H.
  - left. exists a, w1. split; [reflexivity | exact H].
  - right. injection H as <- <-. exists e. split; reflexivity.
Qed.

Lemma set_add_new (x : json) (s : list json) :
  py_in x s = false -> set_add x s = x :: s.
Proof. intros H. unfold set_add. rewrite H. reflexivity. Qed.

(** Outside [call.gather.ended] the routed set is not touched. *)
Lemma routed_kept_unless_gather (E : env) (etype ev : json) :
  is_str etype "call.gather.ended" = false ->
  preserves (keeps ROUTED_CALLS) (webhook_try py_repr E etype ev).
Proof.
  intros Hg. unfold webhook_try. rewrite Hg.
  destruct (is_str etype "call.initiated"); [frame |].
  destruct (is_str etype "call.hangup"); frame.
Qed.

(** [call.gather.ended] never touches the ended set. *)
Lemma ended_kept_by_gather (E : env) (ev : json) :
  preserves (keeps ENDED_CALLS)
    (webhook_try py_repr E (JStr "call.gather.ended") ev).
Proof. unfold webhook_try. cbn. frame. Qed.

(** What the guard of [call.gather.ended] lets through. *)
Lemma guard_false (ccid : json) (w w0 w1 : world) :
  (if negb (truthy ccid) then ret true
   else
     routed <- set_contains ccid (ROUTED_CALLS w) ;;
     if routed then ret true else set_contains ccid (ENDED_CALLS w)) w0 =
  (Return false, w1) ->
  w1 = w0 /\ hashable ccid = true /\
  py_in ccid (ROUTED_CALLS w) = false /\ py_in ccid (ENDED_CALLS w) = false.
Proof.
  unfold set_contains, bind, ret, raise.
  destruct (truthy ccid); cbn; [| discriminate].
  destruct (hashable ccid); cbn; [| discriminate].
  destruct (py_in ccid (ROUTED_CALLS w)); cbn; [discriminate |].
  destruct (py_in ccid (ENDED_CALLS w)); cbn; [discriminate |].
  intros [= <-]. auto.
Qed.

Lemma guard_pure (ccid : json) (w : world) :
  preserves (keeps (fun w0 : world => w0))
    (if negb (truthy ccid) then ret true
     else
       routed <- set_contains ccid (ROUTED_CALLS w) ;;
       if routed then ret true else set_contains ccid (ENDED_CALLS w)).
Proof. frame. Qed.

(** A [call.gather.ended] delivery leaves the routed set alone or puts on
    it one call id that was in neither set. *)
Lemma gather_routed (E : env) (ev : json) (w w' : world)
  (r : outcome response) :
  webhook_try py_repr E (JStr "call.gather.ended") ev w = (r, w') ->
  ROUTED_CALLS w' = ROUTED_CALLS w \/
  exists c : json,
    py_in c (ROUTED_CALLS w) = false /\ py_in c (ENDED_CALLS w) = false /\
    ROUTED_CALLS w' = c :: ROUTED_CALLS w.
Proof.
  unfold webhook_try. cbn. intros H.
  apply bind_inv in H as [(ccid & w1 & H1 & H) | (e & H1 & ->)].
  2: { left. exact (preserves_py_get ROUTED_CALLS _ _ _ _ _ H1). }
  pose proof (preserves_py_get (fun w0 => w0) _ _ _ _ _ H1) as Hw.
  unfold keeps in Hw. subst w1.
  rewrite (bind_return _ _ _ _ _ (get_world_run w)) in H.
  apply bind_inv in H as [(ignore & w1 & H2 & H) | (e & H2 & ->)].
  2: { left. apply guard_pure in H2. unfold keeps in H2. now subst. }
  destruct ignore.
  { left. apply guard_pure in H2. unfold keeps in H2. subst w1.
    injection H as _ <-. reflexivity. }
  apply guard_false in H2 as (-> & Hh & Hr & Hn).
  apply bind_inv in H as [([] & w1 & H3 & H) | (e & H3 & ->)].
  2: { left. exact (preserves_log_event ROUTED_CALLS (fun _ _ => eq_refl)
                      _ _ _ _ (fun _ _ => eq_refl) _ _ _ H3). }
  pose proof (preserves_log_event ROUTED_CALLS (fun _ _ => eq_refl)
                _ _ _ _ (fun _ _ => eq_refl) _ _ _ H3) as HR1.
  unfold keeps in HR1.
  apply bind_inv in H as [(dgt & w2 & H4 & H) | (e & H4 & ->)].
  2: { left. rewrite <- HR1.
       exact (preserves_extract_digits ROUTED_CALLS _ _ _ _ H4). }
  pose proof (preserves_extract_digits ROUTED_CALLS _ _ _ _ H4) as HR2.
  unfold keeps in HR2.
  assert (Hgoal : forall w3 r3,
    (match DIGIT_TO_DEPARTMENT dgt with
     | Some dept =>
         log_ivr_selection E ccid dgt dept ;;
         match DEPARTMENT_URIS E dept with
         | None => raise KeyError
         | Some to_uri =>
             transfer_success <- transfer_call py_repr E ccid to_uri ;;
             log_transfer E ccid to_uri
               (if transfer_success then "success" else "error") ;;
             if transfer_success then routed_add ccid else ret tt
         end
     | None => start_menu py_repr E ccid
     end) w2 = (r3, w3) ->
    ROUTED_CALLS w3 = ROUTED_CALLS w2 \/
    ROUTED_CALLS w3 = ccid :: ROUTED_CALLS w2).
  { intros w3 r3 Hm.
    destruct (DIGIT_TO_DEPARTMENT dgt) as [dept|].
    2: { left. exact (preserves_start_menu ROUTED_CALLS (fun _ _ => eq_refl)
                        _ _ _ _ _ Hm). }
    apply bind_inv in Hm as [([] & w4 & H5 & Hm) | (e & H5 & ->)].
    2: { left. exact (preserves_log_ivr_selection ROUTED_CALLS
                        (fun _ _ => eq_refl) _ _ _ _ (fun _ _ => eq_refl)
                        _ _ _ H5). }
    pose proof (preserves_log_ivr_selection ROUTED_CALLS
                  (fun _ _ => eq_refl) _ _ _ _ (fun _ _ => eq_refl)
                  _ _ _ H5) as HR4.
    unfold keeps in HR4. rewrite <- HR4.
    destruct (DEPARTMENT_URIS E dept) as [uri|].
    2: { injection Hm as _ <-. left. reflexivity. }
    apply bind_inv in Hm as [(ts & w5 & H6 & Hm) | (e & H6 & ->)].
    2: { left. exact (preserves_transfer_call ROUTED_CALLS
                        (fun _ _ => eq_refl) _ _ _ _ _ _ H6). }
    pose proof (preserves_transfer_call ROUTED_CALLS (fun _ _ => eq_refl)
                  _ _ _ _ _ _ H6) as HR5.
    unfold keeps in HR5. rewrite <- HR5.
    apply bind_inv in Hm as [([] & w6 & H7 & Hm) | (e & H7 & ->)].
    2: { left. exact (preserves_log_transfer ROUTED_CALLS
                        (fun _ _ => eq_refl) _ _ _ _ (fun _ _ => eq_refl)
                        _ _ _ H7). }
    pose proof (preserves_log_transfer ROUTED_CALLS (fun _ _ => eq_refl)
                  _ _ _ _ (fun _ _ => eq_refl) _ _ _ H7) as HR6.
    unfold keeps in HR6. rewrite <- HR6.
    destruct ts.
    - unfold routed_add in Hm. rewrite Hh in Hm.
      injection Hm as _ <-. right. cbn.
      apply set_add_new. rewrite HR6, HR5, HR4, HR2, HR1. exact Hr.
    - injection Hm as _ <-. left. reflexivity. }
  apply bind_inv in H as [([] & w3 & H5 & H) | (e & H5 & ->)].
  - injection H as _ <-.
    destruct (Hgoal _ _ H5) as [Hs | Hs]; rewrite Hs, HR2, HR1;
      [left; reflexivity | right; exists ccid; auto].
  - destruct (Hgoal _ _ H5) as [Hs | Hs]; rewrite Hs, HR2, HR1;
      [left; reflexivity | right; exists ccid; auto].
Qed.

(** C6, as it holds.  Whatever the delivery and whatever the state, the
    routed set either stays as it is or gains exactly one call id; that id
    was a member of neither set before the delivery, and the delivery
    leaves the ended set unchanged.  (A later hangup may still put a routed
    id into the ended set: the two sets are not disjoint.) *)
Theorem routed_gains_only_unseen (E : env) (body : option json) (w : world) :
  let w' := snd (webhook py_repr E body w) in
  ROUTED_CALLS w' = ROUTED_CALLS w \/
  exists c : json,
    py_in c (ROUTED_CALLS w) = false /\
    py_in c (ENDED_CALLS w) = false /\
    ROUTED_CALLS w' = c :: ROUTED_CALLS w /\
    ENDED_CALLS w' = ENDED_CALLS w.
Proof.
  destruct (webhook py_repr E body w) as [r w'] eqn:Hrun. cbn.
  destruct (request_event body) as [[etype ev]|] eqn:Hev.
  2: { rewrite (webhook_off_event _ _ _ Hev) in Hrun.
       injection Hrun as _ <-. left. reflexivity. }
  destruct (webhook_world _ _ _ _ _ _ _ Hev Hrun) as (r0 & Htry & _).
  destruct (is_str etype "call.gather.ended") eqn:Hg.
  - apply is_str_true in Hg. subst etype.
    destruct (gather_routed _ _ _ _ _ Htry) as [Hs | (c & Hr & Hn & Hs)];
      [left; exact Hs |].
    right. exists c. repeat split; try assumption.
    exact (ended_kept_by_gather _ _ _ _ _ Htry).
  - left. exact (routed_kept_unless_gather _ _ _ Hg _ _ _ Htry).
Qed.

(** ** Acknowledgement *)

Lemma returns_ret {A} (P : A -> Prop) (a : A) : P a -> returns P (ret a).
Proof. intros H w a' w' [= <- _]. exact H. Qed.

Lemma returns_raise {A} (P : A -> Prop) (e : exn) : returns P (raise e).
Proof. intros w a w' H. discriminate H. Qed.

Lemma returns_bind {A B} (P : B -> Prop) (m : M A) (k : A -> M B) :
  (forall a, returns P (k a)) -> returns P (bind m k).
Proof.
  intros Hk w b w' H.
  apply bind_inv in H as [(a & w1 & _ & H) | (e & _ & H)];
    [exact (Hk a _ _ _ H) | discriminate H].
Qed.

Lemma returns_if {A} (P : A -> Prop) (b : bool) (m1 m2 : M A) :
  returns P m1 -> returns P m2 -> returns P (if b then m1 else m2).
Proof. destruct b; auto. Qed.

Lemma ack_acknowledges (s : string) : acknowledges (ack s).
Proof. split; [reflexivity |]. eexists _, s. split; reflexivity. Qed.

(** Whatever the [try] block returns is an acknowledgement. *)
Lemma webhook_try_acknowledges (E : env) (etype ev : json) :
  returns acknowledges (webhook_try py_repr E etype ev).
Proof.
  unfold webhook_try.
  repeat first
    [ apply returns_ret;
      first [ apply ack_acknowledges
            | split; [reflexivity |]; eexists _, _; split; reflexivity ]
    | apply returns_raise
    | match goal with
      | |- returns _ (bind _ _) => apply returns_bind; intros ?
      | |- returns _ (if _ then _ else _) => apply returns_if
      end ].
Qed.

(** Every request that reaches the [try] is acknowledged: the handler
    returns, with status 200 and a JSON object carrying a status. *)
Lemma webhook_acknowledges (E : env) (body : option json) (w : world) :
  request_event body <> None ->
  exists resp w',
    webhook py_repr E body w = (Return resp, w') /\ acknowledges resp.
Proof.
  intros Hev. destruct (request_event body) as [[etype ev]|] eqn:He;
    [| contradiction].
  rewrite (webhook_on_event _ _ _ _ _ He). unfold try_except.
  destruct (webhook_try py_repr E etype ev w) as [[resp|e] w'] eqn:Htry.
  - exists resp, w'. split; [reflexivity |].
    exact (webhook_try_acknowledges _ _ _ _ _ _ Htry).
  - exists (ack "error"), w'. split; [reflexivity | apply ack_acknowledges].
Qed.

(** C4 where the code departs from it.  A body whose "data" is [null]
    makes [data.get] raise before the [try] is entered: the handler does
    not return a response at all. *)
Theorem webhook_raises_on_null_data (E : env) (w : world) :
  request_event (Some (JDict [("data", JNull)])) = None /\
  webhook py_repr E (Some (JDict [("data", JNull)])) w =
  (Raise AttributeError, w).
Proof. split; reflexivity. Qed.

(** ** Relations kept along a handler *)

(** The frame rules above follow one component of the world.  The rules
    below follow any relation between the world before and the world
    after that is reflexive and transitive. *)
Section Steps.

Context (R : world -> world -> Prop).
Hypothesis R_refl : forall w, R w w.
Hypothesis R_trans : forall a b c, R a b -> R b c -> R a c.

Lemma steps_pure {A} (m : M A) :
  preserves (keeps (fun w : world => w)) m -> preserves R m.
Proof.
  intros H w r w' Hrun. pose proof (H _ _ _ Hrun) as Hw. unfold keeps in Hw.
  subst w'. apply R_refl.
Qed.

Lemma steps_bind {A B} (m : M A) (k : A -> M B) :
  preserves R m -> (forall a, preserves R (k a)) -> preserves R (bind m k).
Proof.
  intros Hm Hk w r w' H.
  apply bind_inv in H as [(a & w1 & H1 & H2) | (e & H1 & _)].
  - exact (R_trans _ _ _ (Hm _ _ _ H1) (Hk a _ _ _ H2)).
  - exact (Hm _ _ _ H1).
Qed.

Lemma steps_try_except {A} (m : M A) (h : exn -> M A) :
  preserves R m -> (forall e, preserves R (h e)) ->
  preserves R (try_except m h).
Proof.
  intros Hm Hh w r w'. unfold try_except.
  destruct (m w) as [[a|e] w1] eqn:H1; intros H2.
  - injection H2 as <- <-. exact (Hm _ _ _ H1).
  - exact (R_trans _ _ _ (Hm _ _ _ H1) (Hh e _ _ _ H2)).
Qed.

Lemma steps_if {A} (b : bool) (m1 m2 : M A) :
  preserves R m1 -> preserves R m2 -> preserves R (if b then m1 else m2).
Proof. destruct b; auto. Qed.

(** From the [try] block to the handler, and on to a series of
    deliveries. *)
Lemma steps_webhook :
  (forall E etype ev, preserves R (webhook_try py_repr E etype ev)) ->
  forall E body, preserves R (webhook py_repr E body).
Proof.
  intros H E body w r w' Hrun.
  destruct (request_event body) as [[etype ev]|] eqn:Hev.
  - destruct (webhook_world _ _ _ _ _ _ _ Hev Hrun) as (r0 & Htry & _).
    exact (H _ _ _ _ _ _ Htry).
  - rewrite (webhook_off_event _ _ _ Hev) in Hrun. injection Hrun as _ <-.
    apply R_refl.
Qed.

Lemma steps_deliveries :
  (forall E etype ev, preserves R (webhook_try py_repr E etype ev)) ->
  forall ds w, R w (deliveries py_repr ds w).
Proof.
  intros H ds. induction ds as [|[E body] ds IH]; intros w; [apply R_refl |].
  cbn [deliveries]. apply (R_trans _ (snd (webhook py_repr E body w))).
  - exact (steps_webhook H E body w _ _ (surjective_pairing _)).
  - apply IH.
Qed.

End Steps.

(** Decompose a handler and settle each operation with [prim]. *)
Ltac steps Hrefl Htrans prim :=
  repeat first
    [ solve [prim]
    | apply (steps_pure _ Hrefl); solve [auto with frame]
    | match goal with
      | |- preserves _ (bind _ _) =>
          apply (steps_bind _ Htrans); [| intros ?]
      | |- preserves _ (try_except _ _) =>
          apply (steps_try_except _ Htrans); [| intros ?]
      | |- preserves _ (if _ then _ else _) => apply steps_if
      | |- preserves _ (match ?x with _ => _ end) => destruct x eqn:?
      end ].

(** ** The store and the provider log only grow *)

Lemma grows_refl {T} (proj : world -> list T) (w : world) : grows proj w w.
Proof. exists []. reflexivity. Qed.

Lemma grows_trans {T} (proj : world -> list T) (a b c : world) :
  grows proj a b -> grows proj b c -> grows proj a c.
Proof.
  intros (n1 & H1) (n2 & H2). exists (n2 ++ n1)%list.
  rewrite H2, H1. apply app_assoc.
Qed.

Lemma keeps_grows {T A} (proj : world -> list T) (m : M A) :
  preserves (keeps proj) m -> preserves (grows proj) m.
Proof.
  intros H w r w' Hrun. exists []. exact (H _ _ _ Hrun).
Qed.

Ltac grow_cases :=
  intros w r w';
  unfold ensure_db, init_db, bind, try_except, sql_guard, bind_param,
    modify, ret, raise, get_world, grows;
  repeat match goal with
    | |- context [if ?b then _ else _] => destruct b
    | |- context [match init_outcome_of ?E with _ => _ end] =>
        destruct (init_outcome_of E) as [|[]]
    | |- context [match sql_bind ?v with _ => _ end] => destruct (sql_bind v)
    end;
  intros [= <- <-];
  first [ exists []; reflexivity | eexists [_]; reflexivity ].

Lemma grows_save_call_if_new (E : env) (c f t : json) :
  preserves (grows calls) (save_call_if_new E c f t).
Proof. unfold save_call_if_new. grow_cases. Qed.

Lemma grows_log_event (E : env) (c t p : json) :
  preserves (grows call_events) (log_event E c t p).
Proof. unfold log_event. grow_cases. Qed.

Lemma grows_log_ivr_selection (E : env) (c : json) (d dept : string) :
  preserves (grows ivr_interactions) (log_ivr_selection E c d dept).
Proof. unfold log_ivr_selection. grow_cases. Qed.

Lemma grows_log_transfer (E : env) (c : json) (uri st : string) :
  preserves (grows transfers) (log_transfer E c uri st).
Proof. unfold log_transfer. grow_cases. Qed.

Lemma grows_answer_call (E : env) (c : json) :
  preserves (grows posted) (answer_call py_repr E c).
Proof.
  intros w r w'. rewrite answer_call_run. intros [= <- <-].
  eexists [_]. reflexivity.
Qed.

Lemma grows_transfer_call (E : env) (c : json) (uri : string) :
  preserves (grows posted) (transfer_call py_repr E c uri).
Proof.
  intros w r w'. rewrite transfer_call_run. intros [= <- <-].
  eexists [_]. reflexivity.
Qed.

Lemma grows_start_menu (E : env) (c : json) :
  preserves (grows posted) (start_menu py_repr E c).
Proof.
  intros w r w'. rewrite start_menu_run. intros [= <- <-].
  eexists [_]. reflexivity.
Qed.

Ltac grow_prim :=
  first [ apply grows_save_call_if_new | apply grows_log_event
        | apply grows_log_ivr_selection | apply grows_log_transfer
        | apply grows_answer_call | apply grows_transfer_call
        | apply grows_start_menu
        | apply keeps_grows; solve [auto with frame] ].

Lemma webhook_try_grows {T} (proj : world -> list T) :
  (forall E c f t, preserves (grows proj) (save_call_if_new E c f t)) ->
  (forall E c t p, preserves (grows proj) (log_event E c t p)) ->
  (forall E c d dept, preserves (grows proj) (log_ivr_selection E c d dept)) ->
  (forall E c uri st, preserves (grows proj) (log_transfer E c uri st)) ->
  (forall E c, preserves (grows proj) (answer_call py_repr E c)) ->
  (forall E c uri, preserves (grows proj) (transfer_call py_repr E c uri)) ->
  (forall E c, preserves (grows proj) (start_menu py_repr E c)) ->
  (forall x, preserves (grows proj) (routed_add x)) ->
  (forall x, preserves (grows proj) (ended_add x)) ->
  forall E etype ev, preserves (grows proj) (webhook_try py_repr E etype ev).
Proof.
  intros H1 H2 H3 H4 H5 H6 H7 H8 H9 E etype ev. unfold webhook_try.
  steps (grows_refl proj) (grows_trans proj)
    ltac:(first [ apply H1 | apply H2 | apply H3 | apply H4 | apply H5
                | apply H6 | apply H7 | apply H8 | apply H9 ]).
Qed.

(** Across any series of deliveries, each of the four tables keeps what
    it had, in place and below whatever the deliveries put on top: the
    handler inserts, and never deletes or rewrites a row. *)
Theorem store_only_grows (ds : list (env * option json)) (w : world) :
  grows calls w (deliveries py_repr ds w) /\
  grows call_events w (deliveries py_repr ds w) /\
  grows ivr_interactions w (deliveries py_repr ds w) /\
  grows transfers w (deliveries py_repr ds w).
Proof.
  repeat split;
    (apply steps_deliveries;
     [ apply grows_refl | apply grows_trans
     | apply webhook_try_grows; intros; grow_prim ]).
Qed.

(** ** What stays true of the sets and of the rows *)

Lemma stays_refl {T} (proj : world -> T) (P : T -> Prop) (w : world) :
  stays proj P w w.
Proof. intros H. exact H. Qed.

Lemma stays_trans {T} (proj : world -> T) (P : T -> Prop) (a b c : world) :
  stays proj P a b -> stays proj P b c -> stays proj P a c.
Proof. unfold stays. auto. Qed.

Lemma keeps_stays {T A} (proj : world -> T) (P : T -> Prop) (m : M A) :
  preserves (keeps proj) m -> preserves (stays proj P) m.
Proof.
  intros H w r w' Hrun HP. rewrite (H _ _ _ Hrun). exact HP.
Qed.

Lemma grows_routed_add (x : json) : preserves (grows ROUTED_CALLS) (routed_add x).
Proof.
  intros w r w'. unfold routed_add, modify, raise, set_add.
  destruct (hashable x); [| intros [= <- <-]; apply grows_refl].
  intros [= <- <-]. cbn.
  destruct (py_in x (ROUTED_CALLS w)); [exists [] | exists [x]]; reflexivity.
Qed.

Lemma grows_ended_add (x : json) : preserves (grows ENDED_CALLS) (ended_add x).
Proof.
  intros w r w'. unfold ended_add, modify, raise, set_add.
  destruct (hashable x); [| intros [= <- <-]; apply grows_refl].
  intros [= <- <-]. cbn.
  destruct (py_in x (ENDED_CALLS w)); [exists [] | exists [x]]; reflexivity.
Qed.

Lemma py_in_app_r (x : json) (new old : list json) :
  py_in x old = true -> py_in x (new ++ old)%list = true.
Proof.
  unfold py_in. intros H. rewrite existsb_app, H. apply Bool.orb_true_r.
Qed.

(** A member of either set is still a member after any series of
    deliveries. *)
Lemma members_stay (ds : list (env * option json)) (w : world) (x : json) :
  (py_in x (ROUTED_CALLS w) = true ->
   py_in x (ROUTED_CALLS (deliveries py_repr ds w)) = true) /\
  (py_in x (ENDED_CALLS w) = true ->
   py_in x (ENDED_CALLS (deliveries py_repr ds w)) = true).
Proof.
  split; intros H.
  - assert (Hg : grows ROUTED_CALLS w (deliveries py_repr ds w)).
    { apply steps_deliveries;
        [ apply grows_refl | apply grows_trans
        | apply webhook_try_grows; intros;
          first [apply grows_routed_add | grow_prim] ]. }
    destruct Hg as (new & ->). exact (py_in_app_r _ _ _ H).
  - assert (Hg : grows ENDED_CALLS w (deliveries py_repr ds w)).
    { apply steps_deliveries;
        [ apply grows_refl | apply grows_trans
        | apply webhook_try_grows; intros;
          first [apply grows_ended_add | grow_prim] ]. }
    destruct Hg as (new & ->). exact (py_in_app_r _ _ _ H).
Qed.

(** The guard of [call.gather.ended], for a call id found in one of the
    sets. *)
Lemma settled_call_ignored (E : env) (body : option json)
  (fields : list (string * json)) (w : world) :
  request_event body = Some (JStr "call.gather.ended", JDict fields) ->
  py_in (dict_get fields "call_control_id") (ROUTED_CALLS w) = true \/
  py_in (dict_get fields "call_control_id") (ENDED_CALLS w) = true ->
  webhook py_repr E body w = (Return (ack "gather_ignored"), w).
Proof.
  intros Hev Hm. rewrite (webhook_on_event _ _ _ _ _ Hev).
  unfold try_except, webhook_try. cbn [is_str String.eqb Ascii.eqb Bool.eqb].
  unfold py_get. rewrite bind_ret, (bind_return _ _ _ _ _ (get_world_run w)).
  set (ccid := dict_get fields "call_control_id") in *.
  assert (Hh : hashable ccid = true)
    by (destruct Hm as [Hm | Hm]; exact (py_in_hashable _ _ Hm)).
  unfold set_contains. rewrite Hh.
  destruct (truthy ccid); cbn [negb]; [| reflexivity].
  rewrite bind_ret.
  destruct (py_in ccid (ROUTED_CALLS w)) eqn:Hr; [reflexivity |].
  destruct Hm as [Hm | Hm]; [discriminate |]. rewrite bind_ret, Hm.
  reflexivity.
Qed.

(** Once a call id is in the routed set or in the ended set, it is there
    for good: whatever is delivered afterwards, and in whatever
    environment, the id is still a member, and a [call.gather.ended] that
    carries it is acknowledged with [gather_ignored] and changes
    nothing. *)
Theorem settled_call_stays_ignored (ds : list (env * option json))
  (E : env) (body : option json) (fields : list (string * json)) (w : world) :
  request_event body = Some (JStr "call.gather.ended", JDict fields) ->
  py_in (dict_get fields "call_control_id") (ROUTED_CALLS w) = true \/
  py_in (dict_get fields "call_control_id") (ENDED_CALLS w) = true ->
  let later := deliveries py_repr ds w in
  (py_in (dict_get fields "call_control_id") (ROUTED_CALLS later) = true \/
   py_in (dict_get fields "call_control_id") (ENDED_CALLS later) = true) /\
  webhook py_repr E body later = (Return (ack "gather_ignored"), later).
Proof.
  intros Hev Hm later.
  assert (Hlater :
    py_in (dict_get fields "call_control_id") (ROUTED_CALLS later) = true \/
    py_in (dict_get fields "call_control_id") (ENDED_CALLS later) = true).
  { destruct (members_stay ds w (dict_get fields "call_control_id"))
      as (HR & HN).
    destruct Hm as [Hm | Hm]; [left; exact (HR Hm) | right; exact (HN Hm)]. }
  split; [exact Hlater |].
  exact (settled_call_ignored E body fields later Hev Hlater).
Qed.

(** What each write leaves in its table: nothing, or one row made of the
    values it was given. *)
Lemma log_event_rows (E : env) (c t p : json) (w : world)
  (r : outcome unit) (w' : world) :
  log_event E c t p w = (r, w') ->
  call_events w' = call_events w \/
  exists k kt,
    sql_bind c = Some k /\ sql_bind t = Some kt /\
    call_events w' =
    mkEvent k kt (utcnow E) (if truthy p then Some p else None)
      :: call_events w.
Proof.
  unfold log_event, ensure_db, init_db, bind, try_except, sql_guard,
    bind_param, modify, ret, raise, get_world.
  destruct (db_file w); [| destruct (init_outcome_of E) as [|[]]];
    destruct (disk_ok E OpLogEvent);
    destruct (sql_bind c) as [k|]; destruct (sql_bind t) as [kt|];
    intros [= <- <-];
    first [ left; reflexivity
          | right; exists k, kt; repeat split; reflexivity ].
Qed.

Lemma log_ivr_selection_rows (E : env) (c : json) (d dept : string)
  (w : world) (r : outcome unit) (w' : world) :
  log_ivr_selection E c d dept w = (r, w') ->
  ivr_interactions w' = ivr_interactions w \/
  exists k,
    sql_bind c = Some k /\ str_in dept valid_departments = true /\
    ivr_interactions w' = mkIvr k d dept (utcnow E) :: ivr_interactions w.
Proof.
  unfold log_ivr_selection, ensure_db, init_db, bind, try_except, sql_guard,
    bind_param, modify, ret, raise, get_world.
  destruct (str_in dept valid_departments);
    (destruct (db_file w); [| destruct (init_outcome_of E) as [|[]]]);
    cbn [negb];
    destruct (disk_ok E OpLogIvr);
    destruct (sql_bind c) as [k|];
    intros [= <- <-];
    first [ left; reflexivity
          | right; exists k; repeat split; reflexivity ].
Qed.

Lemma log_transfer_rows (E : env) (c : json) (uri st : string)
  (w : world) (r : outcome unit) (w' : world) :
  log_transfer E c uri st w = (r, w') ->
  transfers w' = transfers w \/
  exists k,
    sql_bind c = Some k /\ str_in st ["success"; "error"] = true /\
    transfers w' = mkTransfer k uri st (utcnow E) :: transfers w.
Proof.
  unfold log_transfer, ensure_db, init_db, bind, try_except, sql_guard,
    bind_param, modify, ret, raise, get_world.
  destruct (str_in st ["success"; "error"]);
    (destruct (db_file w); [| destruct (init_outcome_of E) as [|[]]]);
    cbn [negb];
    destruct (disk_ok E OpLogTransfer);
    destruct (sql_bind c) as [k|];
    intros [= <- <-];
    first [ left; reflexivity
          | right; exists k; repeat split; reflexivity ].
Qed.

Lemma existsb_map_sym (k : json) (cs : list call_row) :
  existsb (sql_eq k) (map call_control_id cs) =
  existsb (fun row => sql_eq (call_control_id row) k) cs.
Proof.
  induction cs as [|c cs IH]; [reflexivity |].
  cbn. rewrite IH, (sql_eq_sym k). reflexivity.
Qed.

Lemma stays_save_call_if_new (E : env) (c f t : json) :
  preserves (stays stored_call_ids irredundant) (save_call_if_new E c f t).
Proof.
  intros w r w' Hrun Hirr. unfold stored_call_ids in *.
  destruct (save_call_if_new_calls _ _ _ _ _ _ _ Hrun)
    as [-> | (k & fv & tv & _ & Hnew & ->)]; [exact Hirr |].
  cbn. split; [| exact Hirr]. rewrite existsb_map_sym. exact Hnew.
Qed.

Lemma stays_log_ivr_selection (E : env) (c : json) (d dept : string) :
  DIGIT_TO_DEPARTMENT d = Some dept ->
  preserves (stays ivr_interactions (Forall ivr_row_ok))
    (log_ivr_selection E c d dept).
Proof.
  intros Hd w r w' Hrun Hok.
  destruct (log_ivr_selection_rows _ _ _ _ _ _ _ Hrun)
    as [-> | (k & _ & _ & ->)]; [exact Hok |].
  constructor; [exact Hd | exact Hok].
Qed.

Lemma str_in_two (s a b : string) :
  str_in s [a; b] = true -> s = a \/ s = b.
Proof.
  unfold str_in. cbn. rewrite Bool.orb_false_r.
  intros H. apply Bool.orb_true_iff in H as [H | H];
    apply String.eqb_eq in H; auto.
Qed.

Lemma stays_log_transfer (E : env) (c : json) (uri st : string) :
  preserves (stays transfers (Forall transfer_row_ok))
    (log_transfer E c uri st).
Proof.
  intros w r w' Hrun Hok.
  destruct (log_transfer_rows _ _ _ _ _ _ _ Hrun)
    as [-> | (k & _ & Hst & ->)]; [exact Hok |].
  constructor; [exact (str_in_two _ _ _ Hst) | exact Hok].
Qed.

Ltac stay_prim :=
  first [ apply stays_save_call_if_new
        | apply stays_log_ivr_selection; assumption
        | apply stays_log_transfer
        | apply keeps_stays; solve [auto with frame] ].

(** No series of deliveries gives two Call records to one call id: if
    the ids of the calls table are pairwise different, they still are
    afterwards.  The handler checks before it inserts, and nothing else
    writes to the table. *)
Theorem call_ids_stay_unique (ds : list (env * option json)) (w : world) :
  irredundant (stored_call_ids w) ->
  irredundant (stored_call_ids (deliveries py_repr ds w)).
Proof.
  apply (steps_deliveries (stays stored_call_ids irredundant)
           (stays_refl _ _) (stays_trans _ _)).
  intros E etype ev. unfold webhook_try.
  steps (stays_refl stored_call_ids irredundant)
        (stays_trans stored_call_ids irredundant) stay_prim.
Qed.

(** Whatever is delivered, the rows the handler adds to the two audit
    tables are well formed: an IvrSelection row pairs the digit with the
    department the menu gives it, and a Transfer row has status
    [success] or [error]. *)
Theorem audit_rows_stay_well_formed (ds : list (env * option json))
  (w : world) :
  Forall ivr_row_ok (ivr_interactions w) ->
  Forall transfer_row_ok (transfers w) ->
  Forall ivr_row_ok (ivr_interactions (deliveries py_repr ds w)) /\
  Forall transfer_row_ok (transfers (deliveries py_repr ds w)).
Proof.
  intros Hivr Htr. split.
  - revert Hivr.
    apply (steps_deliveries (stays ivr_interactions (Forall ivr_row_ok))
             (stays_refl _ _) (stays_trans _ _)).
    intros E etype ev. unfold webhook_try.
    steps (stays_refl ivr_interactions (Forall ivr_row_ok))
          (stays_trans ivr_interactions (Forall ivr_row_ok)) stay_prim.
  - revert Htr.
    apply (steps_deliveries (stays transfers (Forall transfer_row_ok))
             (stays_refl _ _) (stays_trans _ _)).
    intros E etype ev. unfold webhook_try.
    steps (stays_refl transfers (Forall transfer_row_ok))
          (stays_trans transfers (Forall transfer_row_ok)) stay_prim.
Qed.

(** ** The branches without a provider request *)



(** When the answer request of a [call.initiated] delivery does not come
    back with status 200 (any other status, or no answer at all), the
    delivery is acknowledged with [answer_failed] and the menu is not
    started: the answer request is the only one made. *)
Theorem answer_failure_stops_menu (E : env) (body : option json)
  (fields : list (string * json)) (w : world) :
  request_event body = Some (JStr "call.initiated", JDict fields) ->
  truthy (dict_get fields "call_control_id") = true ->
  store_available E w ->
  is_200 (http E (action_url py_repr (dict_get fields "call_control_id") "answer")
            (JDict [("command_id",
                     JStr (uuid4 E (action_url py_repr
                             (dict_get fields "call_control_id") "answer")))]))
  = false ->
  exists (w' : world) (answered : option Z),
    webhook py_repr E body w = (Return (ack "answer_failed"), w') /\
    issued w w' =
      [mkPost (action_url py_repr (dict_get fields "call_control_id") "answer")
         (JDict [("command_id",
                  JStr (uuid4 E (action_url py_repr
                          (dict_get fields "call_control_id") "answer")))])
         answered] /\
    is_200 answered = false.
Proof.
  intros Hev Ht Hav Hans. rewrite (webhook_on_event _ _ _ _ _ Hev).
  unfold try_except, webhook_try. cbn [is_str String.eqb Ascii.eqb Bool.eqb].
  unfold py_get. rewrite !bind_ret.
  set (ccid := dict_get fields "call_control_id") in *.
  rewrite Ht. cbn [negb].
  match goal with
  | |- context [bind (save_call_if_new E ccid ?f ?t) _ w] =>
      destruct (save_call_if_new E ccid f t w) as [r1 w1] eqn:Hsave
  end.
  pose proof (save_call_if_new_spec _ _ _ _ _ _ _ Hsave)
    as ((_ & _ & HP1) & Hout1 & _).
  destruct (store_outcome_available _ _ _ _ Hav Hout1) as (-> & Hf1).
  rewrite (bind_return _ _ _ _ _ Hsave).
  destruct (log_event E ccid (JStr "call.initiated") (JDict fields) w1)
    as [r2 w2] eqn:Hlog.
  pose proof (log_event_spec _ _ _ _ _ _ _ Hlog)
    as ((_ & _ & HP2) & Hout2 & _).
  destruct (store_outcome_ready _ _ _ _ Hf1 Hout2) as (-> & _).
  rewrite (bind_return _ _ _ _ _ Hlog).
  rewrite (bind_return _ _ _ _ _ (answer_call_run E ccid w2)).
  rewrite Hans. cbn [negb].
  eexists _, _. split; [reflexivity |]. split; [| exact Hans].
  apply issued_prefix. cbn. rewrite HP2, HP1. reflexivity.
Qed.


(** Only [call.initiated] and [call.gather.ended] reach beyond the event
    log: a delivery of any other type, whatever its payload and whether
    the store works or not, makes no provider request, leaves the routed
    set alone and writes no Call, IvrSelection or Transfer record. *)
Theorem other_events_only_log (E : env) (body : option json)
  (etype ev : json) (w : world) :
  request_event body = Some (etype, ev) ->
  is_str etype "call.initiated" = false ->
  is_str etype "call.gather.ended" = false ->
  posted (snd (webhook py_repr E body w)) = posted w /\
  ROUTED_CALLS (snd (webhook py_repr E body w)) = ROUTED_CALLS w /\
  calls (snd (webhook py_repr E body w)) = calls w /\
  ivr_interactions (snd (webhook py_repr E body w)) = ivr_interactions w /\
  transfers (snd (webhook py_repr E body w)) = transfers w.
Proof.
  intros Hev H1 H2.
  destruct (webhook py_repr E body w) as [r w'] eqn:Hrun. cbn [snd].
  destruct (webhook_world _ _ _ _ _ _ _ Hev Hrun) as (r0 & Htry & _).
  clear Hrun Hev.
  assert (Hk : forall T (proj : world -> T),
            (forall b w, proj (with_db_file b w) = proj w) ->
            (forall l w, proj (with_call_events l w) = proj w) ->
            (forall l w, proj (with_ended l w) = proj w) ->
            preserves (keeps proj) (webhook_try py_repr E etype ev)).
  { intros T proj Hdb Hce Hen. unfold webhook_try. rewrite H1, H2.
    destruct (is_str etype "call.hangup"); frame. }
  repeat split;
    match goal with
    | |- ?proj w' = ?proj w =>
        exact (Hk _ proj (fun _ _ => eq_refl) (fun _ _ => eq_refl)
                 (fun _ _ => eq_refl) _ _ _ Htry)
    end.
Qed.

(** ** The provider requests of a delivery *)

Section Requests.

Variable E : env.
Variable ccid : json.

Lemma requests_keep {A} (n : nat) (m : M A) :
  preserves (keeps posted) m -> preserves (requests_on py_repr E ccid n) m.
Proof.
  intros H w r w' Hrun. exists []. split; [exact (H _ _ _ Hrun) |].
  split; [cbn; lia | intros p []].
Qed.

Lemma requests_bind {A B} (n1 n2 : nat) (m : M A) (k : A -> M B) :
  preserves (requests_on py_repr E ccid n1) m ->
  (forall a, preserves (requests_on py_repr E ccid n2) (k a)) ->
  preserves (requests_on py_repr E ccid (n1 + n2)) (bind m k).
Proof.
  intros Hm Hk w r w' H.
  apply bind_inv in H as [(a & w1 & H1 & H2) | (e & H1 & _)].
  - destruct (Hm _ _ _ H1) as (p1 & E1 & L1 & A1).
    destruct (Hk a _ _ _ H2) as (p2 & E2 & L2 & A2).
    exists (p2 ++ p1)%list. split; [rewrite E2, E1; apply app_assoc |].
    split; [rewrite length_app; lia |].
    intros p Hp. apply in_app_or in Hp as [Hp | Hp]; auto.
  - destruct (Hm _ _ _ H1) as (p1 & E1 & L1 & A1).
    exists p1. split; [exact E1 |]. split; [lia | exact A1].
Qed.

Lemma requests_one (url : string) (body : json) (action : string)
  (n : nat) (w : world) :
  In action call_actions -> url = action_url py_repr ccid action ->
  requests_on py_repr E ccid (S n) w
    (with_posted (mkPost url body (http E url body) :: posted w) w).
Proof.
  intros Ha Hu. exists [mkPost url body (http E url body)].
  split; [reflexivity |]. split; [cbn; lia |].
  intros p [<- | []]. split; [reflexivity |]. exists action. auto.
Qed.

Lemma requests_answer_call (n : nat) :
  preserves (requests_on py_repr E ccid (S n)) (answer_call py_repr E ccid).
Proof.
  intros w r w'. rewrite answer_call_run. intros [= <- <-].
  apply (requests_one _ _ "answer"); [cbn; auto | reflexivity].
Qed.

Lemma requests_transfer_call (n : nat) (uri : string) :
  preserves (requests_on py_repr E ccid (S n))
    (transfer_call py_repr E ccid uri).
Proof.
  intros w r w'. rewrite transfer_call_run. intros [= <- <-].
  apply (requests_one _ _ "transfer"); [cbn; auto | reflexivity].
Qed.

Lemma requests_start_menu (n : nat) :
  preserves (requests_on py_repr E ccid (S n)) (start_menu py_repr E ccid).
Proof.
  intros w r w'. rewrite start_menu_run. intros [= <- <-].
  apply (requests_one _ _ "gather_using_speak"); [cbn; auto | reflexivity].
Qed.

End Requests.

(** Spend nothing on an operation that makes no request, and part of the
    budget on one that may. *)
Ltac quiet := apply requests_keep; frame.

Ltac spend n1 n2 x := apply (requests_bind _ _ n1 n2); [| intros x].

Lemma requests_webhook_try (E : env) (etype : json)
  (fields : list (string * json)) :
  preserves
    (requests_on py_repr E (dict_get fields "call_control_id")
       (request_budget etype))
    (webhook_try py_repr E etype (JDict fields)).
Proof.
  unfold webhook_try, request_budget, py_get. rewrite !bind_ret.
  set (ccid := dict_get fields "call_control_id").
  destruct (is_str etype "call.initiated").
  { destruct (negb (truthy ccid)); [quiet |].
    spend 0%nat 2%nat u1; [quiet |].
    spend 0%nat 2%nat u2; [quiet |].
    spend 1%nat 1%nat answered; [apply requests_answer_call |].
    destruct (negb answered); [quiet |].
    spend 1%nat 0%nat u3; [apply requests_start_menu | quiet]. }
  destruct (is_str etype "call.gather.ended").
  { spend 0%nat 1%nat w0; [quiet |].
    spend 0%nat 1%nat ignore; [quiet |].
    destruct ignore; [quiet |].
    spend 0%nat 1%nat u1; [quiet |].
    spend 0%nat 1%nat dgt; [quiet |].
    spend 1%nat 0%nat u2; [| quiet].
    destruct (DIGIT_TO_DEPARTMENT dgt) as [dept|];
      [| apply requests_start_menu].
    spend 0%nat 1%nat u3; [quiet |].
    destruct (DEPARTMENT_URIS E dept) as [uri|]; [| quiet].
    spend 1%nat 0%nat ok; [apply requests_transfer_call |].
    spend 0%nat 0%nat u4; [quiet |].
    quiet. }
  quiet.
Qed.

Lemma bind_raise_l {A B} (e : exn) (k : A -> M B) :
  bind (raise e) k = raise e.
Proof. reflexivity. Qed.

(** A payload that is not an object stops the [try] block at its first
    [get]: the world is left as it was. *)
Lemma webhook_try_no_payload (E : env) (etype ev : json) :
  (forall fields, ev <> JDict fields) ->
  preserves (keeps (fun w : world => w)) (webhook_try py_repr E etype ev).
Proof.
  intros Hn. unfold webhook_try.
  assert (Hget : forall k, py_get ev k = raise AttributeError).
  { intros k. destruct ev; try reflexivity. exfalso. eapply Hn. reflexivity. }
  rewrite !Hget, !bind_raise_l.
  destruct (is_str etype "call.initiated"); [frame |].
  destruct (is_str etype "call.gather.ended"); [frame |].
  destruct (is_str etype "call.hangup"); frame.
Qed.

(** Every provider request a delivery makes is one of the three Call
    Control actions (answer, gather_using_speak, transfer) on the call the
    delivery is about, and is logged with the status the provider gave.
    A [call.initiated] delivery makes at most two requests, a
    [call.gather.ended] delivery at most one, any other delivery none. *)
Theorem requests_are_actions_on_the_call (E : env) (body : option json)
  (etype ev : json) (w : world) :
  request_event body = Some (etype, ev) ->
  requests_on py_repr E (delivered_call ev) (request_budget etype) w
    (snd (webhook py_repr E body w)).
Proof.
  intros Hev.
  destruct (webhook py_repr E body w) as [r w'] eqn:Hrun. cbn [snd].
  destruct (webhook_world _ _ _ _ _ _ _ Hev Hrun) as (r0 & Htry & _).
  destruct ev as [|b|n|f|s|items|fields];
    [ | | | | | | exact (requests_webhook_try E etype fields _ _ _ Htry) ].
  all: assert (Hw : w' = w)
         by (refine (webhook_try_no_payload E etype _ _ _ _ _ Htry);
             intros fields; discriminate).
  all: subst w'; exists []; split; [reflexivity |];
       split; [cbn; lia | intros p []].
Qed.

(** ** Call handling does not look at the store *)

Lemma pure_ret {A} (a : A) : pure (ret a).
Proof. exists (Return a). reflexivity. Qed.

Lemma pure_raise {A} (e : exn) : pure (@raise A e).
Proof. exists (Raise e). reflexivity. Qed.

Lemma pure_bind {A B} (m : M A) (k : A -> M B) :
  pure m -> (forall a, pure (k a)) -> pure (bind m k).
Proof.
  intros ([a|e] & Hm) Hk.
  - destruct (Hk a) as (r & Hr). exists r. intros w.
    rewrite (bind_return _ _ _ _ _ (Hm w)). apply Hr.
  - exists (Raise e). intros w. exact (bind_raise _ _ _ _ _ (Hm w)).
Qed.

Lemma pure_if {A} (b : bool) (m1 m2 : M A) :
  pure m1 -> pure m2 -> pure (if b then m1 else m2).
Proof. destruct b; auto. Qed.

Lemma pure_py_get (v : json) (k : string) : pure (py_get v k).
Proof. destruct v; first [apply pure_ret | apply pure_raise]. Qed.

Lemma pure_set_contains (x : json) (s : list json) : pure (set_contains x s).
Proof.
  unfold set_contains. destruct (hashable x);
    first [apply pure_ret | apply pure_raise].
Qed.

Lemma pure_extract_digits (ev : json) : pure (_extract_digits py_repr ev).
Proof.
  unfold _extract_digits.
  repeat first
    [ apply pure_bind; [apply pure_py_get | intros ?]
    | apply pure_if
    | apply pure_ret ].
  destruct (py_or _ _); apply pure_ret.
Qed.

Section Agree.

Variables E E' : env.
Hypothesis provider : same_provider E E'.

Lemma agree_pure {A} (m : M A) : pure m -> agree E E' m m.
Proof.
  intros (r & Hr) w w' Hw. rewrite (Hr w), (Hr w'). split; [reflexivity |].
  exact Hw.
Qed.

Lemma agree_bind {A B} (m m' : M A) (k k' : A -> M B) :
  agree E E' m m' -> (forall a, agree E E' (k a) (k' a)) ->
  agree E E' (bind m k) (bind m' k').
Proof.
  intros Hm Hk w w' Hw. unfold bind.
  destruct (Hm w w' Hw) as (Hr & Hw1).
  destruct (m w) as [[a|e] w1], (m' w') as [[a'|e'] w1']; cbn in Hr, Hw1;
    try discriminate.
  - injection Hr as <-. exact (Hk a w1 w1' Hw1).
  - injection Hr as <-. split; [reflexivity | exact Hw1].
Qed.

Lemma agree_try_except {A} (m m' : M A) (h h' : exn -> M A) :
  agree E E' m m' -> (forall e, agree E E' (h e) (h' e)) ->
  agree E E' (try_except m h) (try_except m' h').
Proof.
  intros Hm Hh w w' Hw. unfold try_except.
  destruct (Hm w w' Hw) as (Hr & Hw1).
  destruct (m w) as [[a|e] w1], (m' w') as [[a'|e'] w1']; cbn in Hr, Hw1;
    try discriminate.
  - injection Hr as <-. split; [reflexivity | exact Hw1].
  - injection Hr as <-. exact (Hh e w1 w1' Hw1).
Qed.

Lemma agree_get_world {B} (k k' : world -> M B) :
  (forall w0 w0', alike E E' w0 w0' -> agree E E' (k w0) (k' w0')) ->
  agree E E' (bind get_world k) (bind get_world k').
Proof.
  intros H w w' Hw.
  rewrite (bind_return _ _ _ _ _ (get_world_run w)),
          (bind_return _ _ _ _ _ (get_world_run w')).
  exact (H w w' Hw w w' Hw).
Qed.

(** A store write, in whichever environment: it returns, and leaves the
    sets and the provider log alone. *)
Lemma agree_write (m m' : M unit) :
  (forall w r w1, m w = (r, w1) -> same_routing w w1 /\ store_outcome E w r w1) ->
  (forall w r w1, m' w = (r, w1) -> same_routing w w1 /\ store_outcome E' w r w1) ->
  agree E E' m m'.
Proof.
  intros Hm Hm' w w' ((HR & HN & HP) & Hav & Hav').
  destruct (m w) as [r w1] eqn:H1, (m' w') as [r' w1'] eqn:H1'.
  destruct (Hm _ _ _ H1) as ((HR1 & HN1 & HP1) & Ho).
  destruct (Hm' _ _ _ H1') as ((HR1' & HN1' & HP1') & Ho').
  destruct (store_outcome_available _ _ _ _ Hav Ho) as (-> & Hf).
  destruct (store_outcome_available _ _ _ _ Hav' Ho') as (-> & Hf').
  cbn. split; [reflexivity |]. split; [| split; left; assumption].
  unfold same_routing. rewrite HR1', HN1', HP1', HR1, HN1, HP1. auto.
Qed.

Lemma agree_save_call_if_new (c f t : json) :
  agree E E' (save_call_if_new E c f t) (save_call_if_new E' c f t).
Proof.
  apply agree_write; intros w r w1 H;
    destruct (save_call_if_new_spec _ _ _ _ _ _ _ H) as (? & ? & _); auto.
Qed.

Lemma agree_log_event (c t p : json) :
  agree E E' (log_event E c t p) (log_event E' c t p).
Proof.
  apply agree_write; intros w r w1 H;
    destruct (log_event_spec _ _ _ _ _ _ _ H) as (? & ? & _); auto.
Qed.

Lemma agree_log_ivr_selection (c : json) (d dept : string) :
  agree E E' (log_ivr_selection E c d dept) (log_ivr_selection E' c d dept).
Proof.
  apply agree_write; intros w r w1 H;
    destruct (log_ivr_selection_spec _ _ _ _ _ _ _ H) as (? & ? & _); auto.
Qed.

Lemma agree_log_transfer (c : json) (uri st : string) :
  agree E E' (log_transfer E c uri st) (log_transfer E' c uri st).
Proof.
  apply agree_write; intros w r w1 H;
    destruct (log_transfer_spec _ _ _ _ _ _ _ H) as (? & ? & _); auto.
Qed.

(** A provider request: the same url and body go out, the same answer
    comes back, the same entry is logged. *)
Lemma agree_post (url : string) (body : json) :
  agree E E' (_post E url body) (_post E' url body).
Proof.
  intros w w' ((HR & HN & HP) & Hav & Hav'). unfold _post. cbn.
  destruct provider as (Hhttp & _). rewrite <- Hhttp.
  split; [reflexivity |]. split; [| split; assumption].
  unfold same_routing. cbn. rewrite HR, HN, HP. auto.
Qed.

Lemma agree_answer_call (c : json) :
  agree E E' (answer_call py_repr E c) (answer_call py_repr E' c).
Proof.
  unfold answer_call. destruct provider as (_ & Huuid & _). rewrite <- Huuid.
  apply agree_bind; [apply agree_post | intros r; apply agree_pure, pure_ret].
Qed.

Lemma agree_transfer_call (c : json) (uri : string) :
  agree E E' (transfer_call py_repr E c uri) (transfer_call py_repr E' c uri).
Proof.
  unfold transfer_call. destruct provider as (_ & Huuid & _). rewrite <- Huuid.
  apply agree_bind; [apply agree_post | intros r; apply agree_pure, pure_ret].
Qed.

Lemma agree_start_menu (c : json) :
  agree E E' (start_menu py_repr E c) (start_menu py_repr E' c).
Proof.
  unfold start_menu. destruct provider as (_ & Huuid & _). rewrite <- Huuid.
  apply agree_bind; [apply agree_post | intros r; apply agree_pure, pure_ret].
Qed.

Lemma agree_routed_add (x : json) : agree E E' (routed_add x) (routed_add x).
Proof.
  intros w w' ((HR & HN & HP) & Hav & Hav'). unfold routed_add, modify, raise.
  destruct (hashable x); cbn.
  - split; [reflexivity |]. split; [| split; assumption].
    unfold same_routing. cbn. rewrite HR, HN, HP. auto.
  - split; [reflexivity |]. split; [| split; assumption].
    unfold same_routing. auto.
Qed.

Lemma agree_ended_add (x : json) : agree E E' (ended_add x) (ended_add x).
Proof.
  intros w w' ((HR & HN & HP) & Hav & Hav'). unfold ended_add, modify, raise.
  destruct (hashable x); cbn.
  - split; [reflexivity |]. split; [| split; assumption].
    unfold same_routing. cbn. rewrite HR, HN, HP. auto.
  - split; [reflexivity |]. split; [| split; assumption].
    unfold same_routing. auto.
Qed.

Lemma uris_agree (dept : string) :
  DEPARTMENT_URIS E' dept = DEPARTMENT_URIS E dept.
Proof.
  unfold DEPARTMENT_URIS, getenv_default.
  destruct provider as (_ & _ & Henv). rewrite !Henv. reflexivity.
Qed.

Ltac agree_prim :=
  first [ apply agree_save_call_if_new | apply agree_log_event
        | apply agree_log_ivr_selection | apply agree_log_transfer
        | apply agree_answer_call | apply agree_transfer_call
        | apply agree_start_menu | apply agree_routed_add
        | apply agree_ended_add
        | apply agree_pure;
          repeat first [ apply pure_ret | apply pure_raise | apply pure_py_get
                       | apply pure_set_contains | apply pure_extract_digits
                       | apply pure_if
                       | apply pure_bind; [| intros ?] ] ].

Ltac agrees :=
  repeat first
    [ solve [agree_prim]
    | match goal with
      | |- agree _ _ (bind get_world _) (bind get_world _) =>
          let H := fresh "Hw" in
          apply agree_get_world; intros ? ? ((H & ? & ?) & _ & _);
          try rewrite H
      | |- agree _ _ (bind _ _) (bind _ _) => apply agree_bind; [| intros ?]
      | |- agree _ _ (try_except _ _) (try_except _ _) =>
          apply agree_try_except; [| intros ?]
      | |- agree _ _ (if ?b then _ else _) (if ?b then _ else _) => destruct b
      | |- agree _ _ (match DEPARTMENT_URIS E ?d with _ => _ end)
                     (match DEPARTMENT_URIS E' ?d with _ => _ end) =>
          rewrite (uris_agree d); destruct (DEPARTMENT_URIS E d)
      | |- agree _ _ (match ?x with _ => _ end) (match ?x with _ => _ end) =>
          destruct x
      end ].

Lemma agree_webhook_try (etype ev : json) :
  agree E E' (webhook_try py_repr E etype ev) (webhook_try py_repr E' etype ev).
Proof.
  unfold webhook_try.
  destruct (is_str etype "call.initiated"); [agrees |].
  destruct (is_str etype "call.gather.ended"); [| agrees].
  apply agree_bind; [agree_prim | intros ccid].
  apply agree_get_world. intros w0 w0' ((HR & HN & _) & _ & _).
  rewrite HR, HN. agrees.
Qed.

End Agree.

(** With the store at hand, call handling does not depend on what the
    store holds, on the clock, or on whether its writes go through: two
    deliveries of the same body, met by the same provider in worlds with
    the same two sets and the same provider log, are acknowledged alike,
    issue the same provider requests and leave the same two sets. *)
Theorem call_handling_ignores_the_store (E E' : env) (body : option json)
  (w w' : world) :
  same_provider E E' -> same_routing w w' ->
  store_available E w -> store_available E' w' ->
  fst (webhook py_repr E body w) = fst (webhook py_repr E' body w') /\
  same_routing (snd (webhook py_repr E body w))
               (snd (webhook py_repr E' body w')).
Proof.
  intros Hp Hs Hav Hav'.
  destruct (request_event body) as [[etype ev]|] eqn:Hev.
  2: { rewrite !(webhook_off_event _ _ _ Hev). split; [reflexivity | exact Hs]. }
  rewrite !(webhook_on_event _ _ _ _ _ Hev).
  assert (Hag : agree E E'
            (try_except (webhook_try py_repr E etype ev)
                        (fun _ => ret (ack "error")))
            (try_except (webhook_try py_repr E' etype ev)
                        (fun _ => ret (ack "error")))).
  { apply agree_try_except; [exact (agree_webhook_try E E' Hp etype ev) |].
    intros e. apply agree_pure, pure_ret. }
  destruct (Hag w w' (conj Hs (conj Hav Hav'))) as (Hr & Hw & _).
  split; assumption.
Qed.

(** ** The audit trail of a transfer *)

(** The writes of a healthy store, on values it can hold. *)
Lemma log_event_healthy (E : env) (c t p k kt : json) (w : world) :
  store_available E w -> disk_ok E OpLogEvent = true ->
  sql_bind c = Some k -> sql_bind t = Some kt ->
  exists w',
    log_event E c t p w = (Return tt, w') /\
    call_events w' =
      mkEvent k kt (utcnow E) (if truthy p then Some p else None)
        :: call_events w /\
    same_routing w w' /\ db_file w' = true /\
    calls w' = calls w /\ ivr_interactions w' = ivr_interactions w /\
    transfers w' = transfers w.
Proof.
  intros Hav Hdisk Hc Ht.
  unfold log_event, ensure_db, init_db, bind, try_except, sql_guard,
    bind_param, modify, ret, raise, get_world, same_routing.
  rewrite Hdisk, Hc, Ht.
  destruct (db_file w) eqn:Hf.
  - eexists. split; [reflexivity |]. cbn. auto 10.
  - destruct Hav as [Hav | Hav]; [congruence |]. rewrite Hav.
    eexists. split; [reflexivity |]. cbn. auto 10.
Qed.

Lemma log_ivr_selection_healthy (E : env) (c k : json) (d dept : string)
  (w : world) :
  store_available E w -> disk_ok E OpLogIvr = true ->
  sql_bind c = Some k -> str_in dept valid_departments = true ->
  exists w',
    log_ivr_selection E c d dept w = (Return tt, w') /\
    ivr_interactions w' = mkIvr k d dept (utcnow E) :: ivr_interactions w /\
    same_routing w w' /\ db_file w' = true /\
    calls w' = calls w /\ call_events w' = call_events w /\
    transfers w' = transfers w.
Proof.
  intros Hav Hdisk Hc Hd.
  unfold log_ivr_selection, ensure_db, init_db, bind, try_except, sql_guard,
    bind_param, modify, ret, raise, get_world, same_routing.
  rewrite Hdisk, Hc, Hd.
  destruct (db_file w) eqn:Hf.
  - eexists. split; [reflexivity |]. cbn. auto 10.
  - destruct Hav as [Hav | Hav]; [congruence |]. rewrite Hav.
    eexists. split; [reflexivity |]. cbn. auto 10.
Qed.

Lemma log_transfer_healthy (E : env) (c k : json) (uri st : string)
  (w : world) :
  store_available E w -> disk_ok E OpLogTransfer = true ->
  sql_bind c = Some k -> str_in st ["success"; "error"] = true ->
  exists w',
    log_transfer E c uri st w = (Return tt, w') /\
    transfers w' = mkTransfer k uri st (utcnow E) :: transfers w /\
    same_routing w w' /\ db_file w' = true /\
    calls w' = calls w /\ call_events w' = call_events w /\
    ivr_interactions w' = ivr_interactions w.
Proof.
  intros Hav Hdisk Hc Hs.
  unfold log_transfer, ensure_db, init_db, bind, try_except, sql_guard,
    bind_param, modify, ret, raise, get_world, same_routing.
  rewrite Hdisk, Hc, Hs.
  destruct (db_file w) eqn:Hf.
  - eexists. split; [reflexivity |]. cbn. auto 10.
  - destruct Hav as [Hav | Hav]; [congruence |]. rewrite Hav.
    eexists. split; [reflexivity |]. cbn. auto 10.
Qed.

(** A [call.gather.ended] delivery that passes the guard with a mapped
    digit, met by a healthy store, leaves a complete trail: one event
    row, one IvrSelection row with the digit and its department, and one
    Transfer row whose target is the one the transfer request named and
    whose status is [success] exactly when that request came back with
    status 200.  The calls table is not touched. *)
Theorem transfer_leaves_audit_trail (E : env) (body : option json)
  (fields : list (string * json)) (c dept : string) (w : world) :
  request_event body = Some (JStr "call.gather.ended", JDict fields) ->
  dict_get fields "call_control_id" = JStr c -> c <> "" ->
  py_in (JStr c) (ROUTED_CALLS w) = false ->
  py_in (JStr c) (ENDED_CALLS w) = false ->
  DIGIT_TO_DEPARTMENT (digit_of py_repr fields) = Some dept ->
  store_available E w -> (forall op, disk_ok E op = true) ->
  exists (uri : string) (answered : option Z) (command_id : string),
    let w' := snd (webhook py_repr E body w) in
    DEPARTMENT_URIS E dept = Some uri /\
    issued w w' =
      [mkPost (action_url py_repr (JStr c) "transfer")
              (JDict [("to", JStr uri); ("command_id", JStr command_id)])
              answered] /\
    call_events w' =
      mkEvent (JStr c) (JStr "call.gather.ended") (utcnow E)
              (Some (JDict fields)) :: call_events w /\
    ivr_interactions w' =
      mkIvr (JStr c) (digit_of py_repr fields) dept (utcnow E)
        :: ivr_interactions w /\
    transfers w' =
      mkTransfer (JStr c) uri (if is_200 answered then "success" else "error")
                 (utcnow E) :: transfers w /\
    calls w' = calls w.
Proof.
  intros Hev Hid Hne Hr Hn Hmap Hav Hdisk.
  destruct (department_has_uri E _ _ Hmap) as (uri & Huri & Hvalid).
  set (url := action_url py_repr (JStr c) "transfer").
  set (tbody := JDict [("to", JStr uri); ("command_id", JStr (uuid4 E url))]).
  exists uri, (http E url tbody), (uuid4 E url). cbn zeta.
  assert (Hpay : truthy (JDict fields) = true).
  { destruct fields; [discriminate Hid | reflexivity]. }
  destruct (log_event_healthy E (JStr c) (JStr "call.gather.ended")
              (JDict fields) _ _ w Hav (Hdisk _) eq_refl eq_refl)
    as (w1 & Hlog & He1 & (HR1 & HN1 & HP1) & Hf1 & Hc1 & Hi1 & Ht1).
  rewrite Hpay in He1.
  destruct (log_ivr_selection_healthy E (JStr c) _ (digit_of py_repr fields)
              dept w1 (or_introl Hf1) (Hdisk _) eq_refl Hvalid)
    as (w2 & Hivr & Hi2 & (HR2 & HN2 & HP2) & Hf2 & Hc2 & He2 & Ht2).
  pose proof (transfer_call_run E (JStr c) uri w2) as Htr. cbn zeta in Htr.
  fold url tbody in Htr.
  set (w3 := with_posted (mkPost url tbody (http E url tbody) :: posted w2) w2)
    in *.
  assert (Hst : str_in (if is_200 (http E url tbody) then "success" else "error")
                  ["success"; "error"] = true)
    by (destruct (is_200 _); reflexivity).
  destruct (log_transfer_healthy E (JStr c) _ uri _ w3
              (or_introl Hf2 : store_available E w3) (Hdisk _) eq_refl Hst)
    as (w4 & Hlt & Ht4 & (HR4 & HN4 & HP4) & Hf4 & Hc4 & He4 & Hi4).
  assert (Hrun : exists w',
    webhook py_repr E body w =
      (Return (JDict [("status", JStr "gather_processed");
                      ("digit", JStr (digit_of py_repr fields))], 200), w') /\
    posted w' = posted w4 /\ calls w' = calls w4 /\
    call_events w' = call_events w4 /\
    ivr_interactions w' = ivr_interactions w4 /\ transfers w' = transfers w4).
  { rewrite (webhook_on_event _ _ _ _ _ Hev). unfold try_except.
    rewrite (gather_passes_guard E fields c w Hid Hne Hr Hn).
    rewrite (bind_return _ _ _ _ _ Hlog).
    rewrite (bind_return _ _ _ _ _ (extract_digits_run fields w1)).
    rewrite Hmap.
    match goal with
    | |- context [bind (bind ?m ?k) ?k2 w1] =>
        assert (Hinner : exists w',
          bind m k w1 = (Return tt, w') /\
          posted w' = posted w4 /\ calls w' = calls w4 /\
          call_events w' = call_events w4 /\
          ivr_interactions w' = ivr_interactions w4 /\
          transfers w' = transfers w4)
    end.
    { rewrite (bind_return _ _ _ _ _ Hivr), Huri.
      rewrite (bind_return _ _ _ _ _ Htr).
      rewrite (bind_return _ _ _ _ _ Hlt).
      destruct (is_200 (http E url tbody)).
      - unfold routed_add. change (hashable (JStr c)) with true. cbn iota.
        eexists. split; [reflexivity |]. cbn. auto.
      - eexists. split; [reflexivity |]. auto. }
    destruct Hinner as (w' & Hinner & Hrest).
    rewrite (bind_return _ _ _ _ _ Hinner).
    exists w'. split; [reflexivity | exact Hrest]. }
  destruct Hrun as (w' & Hrun & HP' & Hc' & He' & Hi' & Ht').
  rewrite Hrun. cbn [snd].
  split; [exact Huri |].
  split; [apply issued_prefix; rewrite HP', HP4; unfold w3; cbn;
          rewrite HP2, HP1; reflexivity |].
  split; [rewrite He', He4; unfold w3; cbn; rewrite He2, He1; reflexivity |].
  split; [rewrite Hi', Hi4; unfold w3; cbn; rewrite Hi2, Hi1; reflexivity |].
  split; [rewrite Ht', Ht4; unfold w3; cbn; rewrite Ht2, Ht1; reflexivity |].
  rewrite Hc', Hc4. unfold w3. cbn. rewrite Hc2, Hc1. reflexivity.
Qed.

(** ** The record of a new call *)

(** A [call.initiated] delivery for a call id that has no Call record,
    met by a store that takes the write, puts one record on top of the
    calls table: the call id, the caller and the called number as the
    payload gave them, and the time of the delivery.  A number the payload
    does not give (absent, null or empty) is recorded as "unknown". *)
Theorem initiated_stores_the_call (E : env) (body : option json)
  (fields : list (string * json)) (c : string) (fv tv : json) (w : world) :
  request_event body = Some (JStr "call.initiated", JDict fields) ->
  dict_get fields "call_control_id" = JStr c -> c <> "" ->
  call_records (JStr c) w = 0%nat ->
  store_available E w -> disk_ok E OpSaveCall = true ->
  sql_bind (py_or (dict_get fields "from") (JStr "unknown")) = Some fv ->
  sql_bind (py_or (dict_get fields "to") (JStr "unknown")) = Some tv ->
  calls (snd (webhook py_repr E body w)) =
    mkCall (JStr c) fv tv (utcnow E) :: calls w /\
  (truthy (dict_get fields "from") = false -> fv = JStr "unknown") /\
  (truthy (dict_get fields "to") = false -> tv = JStr "unknown").
Proof.
  intros Hev Hid Hne Hnew Hav Hdisk Hf Ht.
  split; [| split].
  2: { intros Hno. unfold py_or in Hf. rewrite Hno in Hf. cbn in Hf.
       congruence. }
  2: { intros Hno. unfold py_or in Ht. rewrite Hno in Ht. cbn in Ht.
       congruence. }
  destruct (save_call_if_new_healthy E (JStr c) _ _ (JStr c) fv tv w
              Hav Hdisk eq_refl Hf Ht (call_records_zero _ _ Hnew))
    as (w1 & Hsave & Hcalls1).
  destruct (webhook py_repr E body w) as [r w'] eqn:Hrun. cbn [snd].
  destruct (webhook_world _ _ _ _ _ _ _ Hev Hrun) as (r0 & Htry & _).
  unfold webhook_try in Htry. cbn [is_str String.eqb Ascii.eqb Bool.eqb] in Htry.
  unfold py_get in Htry. rewrite !bind_ret, Hid, (truthy_str c Hne) in Htry.
  cbn [negb] in Htry. rewrite (bind_return _ _ _ _ _ Hsave) in Htry.
  match type of Htry with
  | ?m w1 = _ =>
      assert (Hp : preserves (keeps calls) m) by frame;
      rewrite (Hp _ _ _ Htry)
  end.
  exact Hcalls1.
Qed.

(** ** Why a set changes *)

(** What an operation that touches neither the routed set nor the
    provider log leaves of them. *)
Ltac kept H HR HP :=
  match type of H with
  | ?m ?wa = (_, ?wb) =>
      assert (HR : ROUTED_CALLS wb = ROUTED_CALLS wa)
        by (refine ((_ : preserves (keeps ROUTED_CALLS) m) _ _ _ H); frame);
      assert (HP : posted wb = posted wa)
        by (refine ((_ : preserves (keeps posted) m) _ _ _ H); frame)
  end.

(** The routed set after a [call.gather.ended] delivery: as before, or
    with the delivered call id on top, and then a transfer request for
    that call was made and came back with status 200. *)
Lemma gather_routed_reason (E : env) (ev : json) (w w' : world)
  (r : outcome response) :
  webhook_try py_repr E (JStr "call.gather.ended") ev w = (r, w') ->
  ROUTED_CALLS w' = ROUTED_CALLS w \/
  exists p : post_record,
    ROUTED_CALLS w' = delivered_call ev :: ROUTED_CALLS w /\
    posted w' = p :: posted w /\
    p_url p = action_url py_repr (delivered_call ev) "transfer" /\
    is_200 (p_status p) = true.
Proof.
  intros H.
  destruct ev as [|b|n|f|s|items|fields];
    try (left;
         refine (f_equal ROUTED_CALLS
                   (webhook_try_no_payload E _ _ _ _ _ _ H));
         intros fields; discriminate).
  unfold webhook_try in H. cbn [is_str String.eqb Ascii.eqb Bool.eqb] in H.
  unfold py_get in H. rewrite bind_ret in H. cbn [delivered_call].
  set (ccid := dict_get fields "call_control_id") in *.
  rewrite (bind_return _ _ _ _ _ (get_world_run w)) in H.
  apply bind_inv in H as [(ignore & w1 & H2 & H) | (e & H2 & ->)].
  2: { left. apply guard_pure in H2. unfold keeps in H2. now subst. }
  destruct ignore.
  { left. apply guard_pure in H2. unfold keeps in H2. subst w1.
    injection H as _ <-. reflexivity. }
  apply guard_false in H2 as (-> & Hh & Hr & Hn).
  apply bind_inv in H as [([] & w1 & H3 & H) | (e & H3 & ->)].
  2: { left. kept H3 HR1 HP1. exact HR1. }
  kept H3 HR1 HP1.
  apply bind_inv in H as [(dgt & w2 & H4 & H) | (e & H4 & ->)].
  2: { left. kept H4 HR2 HP2. rewrite HR2. exact HR1. }
  kept H4 HR2 HP2.
  assert (Hgoal : forall w3 r3,
    (match DIGIT_TO_DEPARTMENT dgt with
     | Some dept =>
         log_ivr_selection E ccid dgt dept ;;
         match DEPARTMENT_URIS E dept with
         | None => raise KeyError
         | Some to_uri =>
             transfer_success <- transfer_call py_repr E ccid to_uri ;;
             log_transfer E ccid to_uri
               (if transfer_success then "success" else "error") ;;
             if transfer_success then routed_add ccid else ret tt
         end
     | None => start_menu py_repr E ccid
     end) w2 = (r3, w3) ->
    ROUTED_CALLS w3 = ROUTED_CALLS w2 \/
    exists p : post_record,
      ROUTED_CALLS w3 = ccid :: ROUTED_CALLS w2 /\
      posted w3 = p :: posted w2 /\
      p_url p = action_url py_repr ccid "transfer" /\
      is_200 (p_status p) = true).
  { intros w3 r3 Hm.
    destruct (DIGIT_TO_DEPARTMENT dgt) as [dept|].
    2: { left. exact (preserves_start_menu ROUTED_CALLS (fun _ _ => eq_refl)
                        _ _ _ _ _ Hm). }
    apply bind_inv in Hm as [([] & w4 & H5 & Hm) | (e & H5 & ->)].
    2: { left. kept H5 HR4 HP4. exact HR4. }
    kept H5 HR4 HP4. rewrite <- HR4, <- HP4.
    destruct (DEPARTMENT_URIS E dept) as [uri|].
    2: { injection Hm as _ <-. left. reflexivity. }
    apply bind_inv in Hm as [(ts & w5 & H6 & Hm) | (e & H6 & ->)].
    2: { left. exact (preserves_transfer_call ROUTED_CALLS
                        (fun _ _ => eq_refl) _ _ _ _ _ _ H6). }
    rewrite transfer_call_run in H6. injection H6 as <- <-.
    apply bind_inv in Hm as [([] & w6 & H7 & Hm) | (e & H7 & ->)].
    2: { left. kept H7 HR6 HP6. exact HR6. }
    kept H7 HR6 HP6. cbn in HR6, HP6.
    destruct (is_200 (http E _ _)) eqn:Hok.
    - unfold routed_add in Hm. rewrite Hh in Hm.
      injection Hm as _ <-. right. eexists. cbn.
      rewrite HR6, HP6.
      split; [apply set_add_new; rewrite HR4, HR2, HR1; exact Hr |].
      split; [reflexivity |]. split; [reflexivity | exact Hok].
    - injection Hm as _ <-. left. exact HR6. }
  assert (Hend : forall w3, w' = w3 ->
            ROUTED_CALLS w3 = ROUTED_CALLS w2 \/
            (exists p : post_record,
               ROUTED_CALLS w3 = ccid :: ROUTED_CALLS w2 /\
               posted w3 = p :: posted w2 /\
               p_url p = action_url py_repr ccid "transfer" /\
               is_200 (p_status p) = true) ->
            ROUTED_CALLS w' = ROUTED_CALLS w \/
            exists p : post_record,
              ROUTED_CALLS w' = ccid :: ROUTED_CALLS w /\
              posted w' = p :: posted w /\
              p_url p = action_url py_repr ccid "transfer" /\
              is_200 (p_status p) = true).
  { intros w3 -> [Hs | (p & Hs & Hp & Hu & Hok)].
    - left. rewrite Hs, HR2, HR1. reflexivity.
    - right. exists p. rewrite Hs, Hp, HR2, HR1, HP2, HP1. auto. }
  apply bind_inv in H as [([] & w3 & H5 & H) | (e & H5 & ->)].
  - injection H as _ <-. exact (Hend _ eq_refl (Hgoal _ _ H5)).
  - exact (Hend _ eq_refl (Hgoal _ _ H5)).
Qed.

(** The ended set after a [call.hangup] delivery: as before, or with the
    delivered call id on top. *)
Lemma hangup_ended_reason (E : env) (ev : json) (w w' : world)
  (r : outcome response) :
  webhook_try py_repr E (JStr "call.hangup") ev w = (r, w') ->
  ENDED_CALLS w' = ENDED_CALLS w \/
  ENDED_CALLS w' = delivered_call ev :: ENDED_CALLS w.
Proof.
  intros H.
  destruct ev as [|b|n|f|s|items|fields];
    try (left;
         refine (f_equal ENDED_CALLS
                   (webhook_try_no_payload E _ _ _ _ _ _ H));
         intros fields; discriminate).
  unfold webhook_try in H. cbn [is_str String.eqb Ascii.eqb Bool.eqb] in H.
  unfold py_get in H. rewrite bind_ret in H. cbn [delivered_call].
  set (ccid := dict_get fields "call_control_id") in *.
  assert (Hstep : forall w3 r3,
    (if truthy ccid
     then log_event E ccid (JStr "call.hangup") (JDict fields) ;; ended_add ccid
     else ret tt) w = (r3, w3) ->
    ENDED_CALLS w3 = ENDED_CALLS w \/ ENDED_CALLS w3 = ccid :: ENDED_CALLS w).
  { intros w3 r3 Hm. destruct (truthy ccid).
    2: { injection Hm as _ <-. left. reflexivity. }
    apply bind_inv in Hm as [([] & w1 & H1 & Hm) | (e & H1 & ->)].
    2: { left. exact (preserves_log_event ENDED_CALLS (fun _ _ => eq_refl)
                        _ _ _ _ (fun _ _ => eq_refl) _ _ _ H1). }
    pose proof (preserves_log_event ENDED_CALLS (fun _ _ => eq_refl)
                  _ _ _ _ (fun _ _ => eq_refl) _ _ _ H1) as HN1.
    unfold keeps in HN1.
    unfold ended_add, modify, raise, set_add in Hm.
    destruct (hashable ccid); [| injection Hm as _ <-; left; exact HN1].
    injection Hm as _ <-. cbn. rewrite HN1.
    destruct (py_in ccid (ENDED_CALLS w)); auto. }
  apply bind_inv in H as [([] & w3 & H5 & H) | (e & H5 & ->)].
  - injection H as _ <-. exact (Hstep _ _ H5).
  - exact (Hstep _ _ H5).
Qed.

(** A set changes only for its reason.  If a delivery changes the routed
    set, it is a [call.gather.ended] delivery, the set gained the call id
    of its payload, and the one provider request the delivery made is a
    transfer request for that call that came back with status 200.  If a
    delivery changes the ended set, it is a [call.hangup] delivery and the
    set gained the call id of its payload. *)
Theorem sets_change_for_a_reason (E : env) (body : option json) (w : world) :
  (ROUTED_CALLS (snd (webhook py_repr E body w)) <> ROUTED_CALLS w ->
   exists (ev : json) (p : post_record),
     request_event body = Some (JStr "call.gather.ended", ev) /\
     ROUTED_CALLS (snd (webhook py_repr E body w)) =
       delivered_call ev :: ROUTED_CALLS w /\
     issued w (snd (webhook py_repr E body w)) = [p] /\
     p_url p = action_url py_repr (delivered_call ev) "transfer" /\
     is_200 (p_status p) = true) /\
  (ENDED_CALLS (snd (webhook py_repr E body w)) <> ENDED_CALLS w ->
   exists ev : json,
     request_event body = Some (JStr "call.hangup", ev) /\
     ENDED_CALLS (snd (webhook py_repr E body w)) =
       delivered_call ev :: ENDED_CALLS w).
Proof.
  destruct (webhook py_repr E body w) as [r w'] eqn:Hrun. cbn [snd].
  destruct (request_event body) as [[etype ev]|] eqn:Hev.
  2: { rewrite (webhook_off_event _ _ _ Hev) in Hrun.
       injection Hrun as _ <-. split; intros H; contradiction. }
  destruct (webhook_world _ _ _ _ _ _ _ Hev Hrun) as (r0 & Htry & _).
  split; intros Hch.
  - destruct (is_str etype "call.gather.ended") eqn:Hg.
    2: { exfalso. apply Hch.
         exact (routed_kept_unless_gather _ _ _ Hg _ _ _ Htry). }
    apply is_str_true in Hg. subst etype.
    destruct (gather_routed_reason _ _ _ _ _ Htry)
      as [Hs | (p & Hs & Hp & Hu & Hok)]; [contradiction |].
    exists ev, p. split; [reflexivity |]. split; [exact Hs |].
    split; [apply (issued_prefix w w' [p]); exact Hp | auto].
  - destruct (is_str etype "call.hangup") eqn:Hh.
    + apply is_str_true in Hh. subst etype.
      destruct (hangup_ended_reason _ _ _ _ _ Htry) as [Hs | Hs];
        [contradiction |].
      exists ev. split; [reflexivity | exact Hs].
    + exfalso. apply Hch.
      assert (Hk : preserves (keeps ENDED_CALLS)
                     (webhook_try py_repr E etype ev)).
      { unfold webhook_try. rewrite Hh.
        destruct (is_str etype "call.initiated"); [frame |].
        destruct (is_str etype "call.gather.ended"); frame. }
      exact (Hk _ _ _ Htry).
Qed.

End Properties.

(** ** The analytics surface *)

Lemma bad_department_rejected (d : option string) :
  bad_department d = true -> department_rejected d = true.
Proof.
  unfold bad_department, department_rejected, dept_given.
  destruct d as [s|]; [| discriminate].
  destruct (s =? "")%string; cbn; [discriminate | auto].
Qed.

(** C9, as it holds.  A department parameter that is not empty and is not
    one of sales, support, porting is answered 400 on the three metrics
    routes; so is a days parameter that is not a number or lies outside
    [1, 365] on /metrics/trend, and a limit parameter that is not a number
    or lies outside [1, 1000] on /metrics/recent.  In each case the body
    is a JSON object with the error message alone, and no query ran: the
    world is untouched. *)
Theorem invalid_request_rejected (E : env) (req : analytics_request)
  (w : world) :
  invalid_request req = true ->
  exists msg : string, serve E req w = (Return (error_body msg, 400), w).
Proof.
  destruct req as [d | n d | n d]; cbn [invalid_request serve]; intros H.
  - apply bad_department_rejected in H.
    unfold get_kpis, try_except. rewrite H. eexists. reflexivity.
  - unfold get_trend, bad_number in *.
    destruct n as [s|].
    + destruct (py_int s) as [k|]; [| eexists; reflexivity].
      unfold try_except.
      destruct ((k <? 1) || (365 <? k)); [eexists; reflexivity |].
      cbn in H. apply bad_department_rejected in H. rewrite H.
      eexists. reflexivity.
    + cbn in H. apply bad_department_rejected in H.
      unfold try_except. cbn. rewrite H. eexists. reflexivity.
  - unfold get_recent_calls, bad_number in *.
    destruct n as [s|].
    + destruct (py_int s) as [k|]; [| eexists; reflexivity].
      unfold try_except.
      destruct ((k <? 1) || (1000 <? k)); [eexists; reflexivity |].
      cbn in H. apply bad_department_rejected in H. rewrite H.
      eexists. reflexivity.
    + cbn in H. apply bad_department_rejected in H.
      unfold try_except. cbn. rewrite H. eexists. reflexivity.
Qed.

Lemma invalid_request_rejected_witness :
  invalid_request (GetTrend (Some "400") None) = true /\
  exists msg : string,
    serve quiet_env (GetTrend (Some "400") None) two_calls_one_selection =
    (Return (error_body msg, 400), two_calls_one_selection).
Proof.
  split; [reflexivity |].
  apply (invalid_request_rejected quiet_env (GetTrend (Some "400") None)).
  reflexivity.
Defined.

(** C9 as stated fails on the empty department: [?department=] is a
    department parameter outside the three names, and the request is
    served with status 200 as if no department had been given. *)
Lemma empty_department_is_served :
  str_in "" valid_departments = false /\
  exists (kpis : json) (w' : world),
    serve quiet_env (GetKpis (Some "")) two_calls_one_selection =
    (Return (kpis, 200), w').
Proof. split; [reflexivity |]. eexists _, _. reflexivity. Qed.

(** ** The unfiltered KPI query against the counts of the specification *)

Section JoinCounts.

Variable ivrs : list ivr_row.

Lemma left_join_cons (c : call_row) (cs : list call_row) :
  left_join (c :: cs) ivrs =
  (match ivr_matches ivrs c with
   | [] => [(c, None)]
   | ms => map (fun i => (c, Some i)) ms
   end ++ left_join cs ivrs)%list.
Proof. reflexivity. Qed.

Lemma filter_left_join (P : call_row -> bool) (cs : list call_row) :
  filter (fun r => P (fst r)) (left_join cs ivrs) =
  left_join (filter P cs) ivrs.
Proof.
  induction cs as [|c cs IH]; [reflexivity |].
  rewrite left_join_cons, filter_app, IH. cbn [filter].
  destruct (P c) eqn:HP.
  - rewrite left_join_cons. f_equal.
    destruct (ivr_matches ivrs c) as [|i ms]; cbn [filter fst]; rewrite ?HP;
      [reflexivity |].
    cbn [map filter fst]. rewrite HP. f_equal.
    induction ms as [|j ms IHms]; cbn [map filter fst]; [reflexivity |].
    rewrite HP, IHms. reflexivity.
  - replace (filter (fun r => P (fst r)) _) with (@nil (call_row * option ivr_row));
      [reflexivity |].
    destruct (ivr_matches ivrs c) as [|i ms]; cbn [filter fst]; rewrite ?HP;
      [reflexivity |].
    cbn [map filter fst]. rewrite HP.
    induction ms as [|j ms IHms]; cbn [map filter fst]; [reflexivity |].
    rewrite HP. exact IHms.
Qed.

Lemma matches_sound (c : call_row) (i : ivr_row) :
  In i (ivr_matches ivrs c) -> sql_eq (call_control_id c) (ivr_call i) = true.
Proof. intros H. apply filter_In in H. apply H. Qed.

Lemma matches_selected (c : call_row) :
  selected ivrs (call_control_id c) =
  match ivr_matches ivrs c with [] => false | _ :: _ => true end.
Proof.
  unfold selected, ivr_matches.
  induction ivrs as [|i l IH]; cbn; [reflexivity |].
  destruct (sql_eq (call_control_id c) (ivr_call i)); cbn; [reflexivity |].
  exact IH.
Qed.

Lemma selected_respects (a b : json) :
  sql_eq a b = true -> selected ivrs a = selected ivrs b.
Proof.
  intros H. unfold selected.
  induction ivrs as [|i l IH]; cbn; [reflexivity |].
  rewrite IH, (sql_eq_left a b _ H). reflexivity.
Qed.

Lemma exists_filter_selected (x : json) (l : list json) :
  selected ivrs x = true ->
  existsb (sql_eq x) (filter (selected ivrs) l) = existsb (sql_eq x) l.
Proof.
  intros H. induction l as [|y l IH]; cbn; [reflexivity |].
  destruct (sql_eq x y) eqn:Hxy.
  - rewrite <- (selected_respects x y Hxy), H. cbn. rewrite Hxy. reflexivity.
  - destruct (selected ivrs y); cbn; rewrite ?Hxy; exact IH.
Qed.

Lemma distinct_cons_member (x j : json) (l : list json) :
  sql_eq x j = true ->
  distinct (j :: l) =
  if existsb (sql_eq x) (distinct l) then distinct l else j :: distinct l.
Proof.
  intros H. rewrite (sql_eq_exists x j _ H).
  destruct j; try reflexivity. rewrite sql_eq_null_r in H. discriminate.
Qed.

(** Several joined rows of one call count once. *)
Lemma distinct_repeated {A} (x : json) (J : list A) (l : list json) :
  J <> [] -> sql_eq x x = true ->
  distinct (map (fun _ => x) J ++ l) = distinct (x :: l).
Proof.
  intros HJ Hx. induction J as [|j J IH]; [contradiction |].
  destruct J as [|j' J']; [reflexivity |].
  change (map (fun _ => x) (j :: j' :: J') ++ l)%list
    with (x :: (map (fun _ => x) (j' :: J') ++ l))%list.
  rewrite (distinct_cons_member x x _ Hx), IH by discriminate.
  rewrite (distinct_cons_member x x l Hx).
  destruct (existsb (sql_eq x) (distinct l)) eqn:He; [rewrite He; reflexivity |].
  cbn [existsb]. rewrite Hx. reflexivity.
Qed.

(** [COUNT(DISTINCT c.call_control_id)] over the left join counts the
    calls. *)
Lemma distinct_call_ids (cs : list call_row) :
  distinct (map (fun r => call_control_id (fst r)) (left_join cs ivrs)) =
  distinct (map call_control_id cs).
Proof.
  induction cs as [|c cs IH]; [reflexivity |].
  rewrite left_join_cons, map_app.
  destruct (ivr_matches ivrs c) as [|i ms] eqn:Hm.
  - cbn [map app fst distinct]. rewrite IH. reflexivity.
  - rewrite map_map. cbn [fst].
    rewrite (distinct_repeated (call_control_id c) (i :: ms)).
    + cbn [map distinct]. rewrite IH. reflexivity.
    + discriminate.
    + apply (sql_eq_refl_l _ (ivr_call i)). apply matches_sound.
      rewrite Hm. left. reflexivity.
Qed.

(** The joined rows of one call add at most one new id. *)
Lemma distinct_class (x : json) (J l : list json) :
  J <> [] -> (forall j, In j J -> sql_eq x j = true) ->
  exists j0,
    sql_eq x j0 = true /\
    distinct (J ++ l) =
    if existsb (sql_eq x) (distinct l) then distinct l else j0 :: distinct l.
Proof.
  intros HJ Hall. induction J as [|j J IH]; [contradiction |].
  assert (Hj : sql_eq x j = true) by (apply Hall; left; reflexivity).
  destruct J as [|j' J'].
  - exists j. split; [exact Hj |]. apply distinct_cons_member. exact Hj.
  - destruct IH as (j0 & Hj0 & IH);
      [discriminate | intros k Hk; apply Hall; right; exact Hk |].
    exists j0. split; [exact Hj0 |].
    change ((j :: j' :: J') ++ l)%list with (j :: ((j' :: J') ++ l))%list.
    rewrite (distinct_cons_member x j _ Hj), IH.
    destruct (existsb (sql_eq x) (distinct l)) eqn:He; [rewrite He; reflexivity |].
    cbn [existsb]. rewrite Hj0. reflexivity.
Qed.

(** [COUNT(DISTINCT ivr.call_control_id)] over the left join counts the
    calls that have an interaction. *)
Lemma distinct_ivr_ids (cs : list call_row) :
  let joined := distinct (map (fun r => ivr_id (snd r)) (left_join cs ivrs)) in
  let chosen := filter (selected ivrs) (distinct (map call_control_id cs)) in
  List.length joined = List.length chosen /\
  forall x, existsb (sql_eq x) joined = existsb (sql_eq x) chosen.
Proof.
  induction cs as [|c cs (IHlen & IHex)]; [split; reflexivity |].
  cbn zeta in *. rewrite left_join_cons, map_app.
  set (x := call_control_id c).
  set (rest := map (fun r => ivr_id (snd r)) (left_join cs ivrs)) in *.
  set (ids := distinct (map call_control_id cs)) in *.
  pose proof (matches_selected c) as Hsel. fold x in Hsel.
  destruct (ivr_matches ivrs c) as [|i ms] eqn:Hm.
  - (* no interaction: a NULL row on the left, nothing chosen on the right *)
    change (map call_control_id (c :: cs)) with (x :: map call_control_id cs).
    change (distinct (map (fun r => ivr_id (snd r)) [(c, None)] ++ rest)%list)
      with (distinct rest).
    assert (Hright : filter (selected ivrs) (distinct (x :: map call_control_id cs)) =
                     filter (selected ivrs) ids).
    { cbn [distinct]. fold ids.
      destruct x; try reflexivity;
        (destruct (existsb _ ids); [reflexivity |];
         cbn [filter]; rewrite Hsel; reflexivity). }
    rewrite Hright. split; assumption.
  - rewrite map_map. cbn [snd ivr_id].
    match goal with
    | |- context [distinct (?K ++ rest)%list] => set (J := K)
    end.
    assert (Hall : forall j, In j J -> sql_eq x j = true).
    { intros j Hj. apply in_map_iff in Hj as (k & <- & Hk).
      apply matches_sound. rewrite Hm. exact Hk. }
    destruct (distinct_class x J rest) as (j0 & Hj0 & Hd);
      [discriminate | exact Hall |].
    rewrite Hd. clear Hd.
    assert (Hx : sql_eq x x = true) by exact (sql_eq_refl_l _ _ Hj0).
    change (map call_control_id (c :: cs)) with (x :: map call_control_id cs).
    rewrite (distinct_cons_member x x _ Hx). fold ids.
    rewrite IHex, (exists_filter_selected x ids Hsel).
    destruct (existsb (sql_eq x) ids) eqn:He; [split; assumption |].
    cbn [filter]. rewrite Hsel. cbn [List.length existsb]. split.
    + rewrite IHlen. reflexivity.
    + intros y. rewrite IHex, (sql_eq_right x j0 y Hj0). reflexivity.
Qed.

(** The rows of the left join that carry an interaction. *)
Lemma in_left_join_some (cs : list call_row) (c : call_row) (i : ivr_row) :
  In (c, Some i) (left_join cs ivrs) <->
  In c cs /\ In i ivrs /\ sql_eq (call_control_id c) (ivr_call i) = true.
Proof.
  unfold left_join. rewrite in_flat_map. split.
  - intros (c' & Hc' & Hin).
    change (filter _ ivrs) with (ivr_matches ivrs c') in Hin.
    destruct (ivr_matches ivrs c') as [|j ms] eqn:Hm.
    + destruct Hin as [Hin | []]. discriminate Hin.
    + apply in_map_iff in Hin as (k & Hk & Hin). injection Hk as <- <-.
      rewrite <- Hm in Hin. apply filter_In in Hin as (Hi & He). auto.
  - intros (Hc & Hi & He). exists c. split; [exact Hc |].
    change (filter _ ivrs) with (ivr_matches ivrs c).
    assert (Hin : In i (ivr_matches ivrs c)) by (apply filter_In; auto).
    destruct (ivr_matches ivrs c) as [|j ms]; [destruct Hin |].
    apply in_map_iff. exists i. auto.
Qed.

Lemma in_ivr_join_calls (cs : list call_row) (c : call_row) (i : ivr_row) :
  In (i, c) (ivr_join_calls ivrs cs) <->
  In i ivrs /\ In c cs /\ sql_eq (ivr_call i) (call_control_id c) = true.
Proof.
  unfold ivr_join_calls. rewrite in_flat_map. split.
  - intros (i' & Hi' & Hin). apply in_map_iff in Hin as (k & Hk & Hin).
    injection Hk as <- <-. apply filter_In in Hin as (Hc & He). auto.
  - intros (Hi & Hc & He). exists i. split; [exact Hi |].
    apply in_map_iff. exists c. split; [reflexivity |].
    apply filter_In. auto.
Qed.

(** With a department, the numerator and the denominator of the second
    query count the same calls: those of the window that chose the
    department. *)
Lemma filtered_counts_coincide (cutoff d : string) (cs : list call_row) :
  count_distinct
    (map (fun r => ivr_call (fst r))
       (filter (fun r => since cutoff (snd r) &&
                         (ivr_department (fst r) =? d)%string)
               (ivr_join_calls ivrs cs))) =
  count_distinct
    (map (fun r => call_control_id (fst r))
       (filter (fun r => since cutoff (fst r) && ivr_dept_is d (snd r))
               (left_join cs ivrs))).
Proof.
  unfold count_distinct. f_equal.
  set (l1 := map _ (filter _ (ivr_join_calls ivrs cs))).
  set (l2 := map _ (filter _ (left_join cs ivrs))).
  assert (Hin1 : forall y, In y l1 <->
            exists i c, In i ivrs /\ In c cs /\
              sql_eq (ivr_call i) (call_control_id c) = true /\
              since cutoff c = true /\ (ivr_department i =? d)%string = true /\
              y = ivr_call i).
  { intros y. unfold l1. rewrite in_map_iff. split.
    - intros ([i c] & <- & Hin). apply filter_In in Hin as (Hin & Hf).
      apply in_ivr_join_calls in Hin as (Hi & Hc & He).
      apply Bool.andb_true_iff in Hf as (Hs & Hd). cbn in Hs, Hd.
      exists i, c. auto 7.
    - intros (i & c & Hi & Hc & He & Hs & Hd & ->). exists (i, c).
      split; [reflexivity |]. apply filter_In. split.
      + apply in_ivr_join_calls. auto.
      + cbn. rewrite Hs, Hd. reflexivity. }
  assert (Hin2 : forall y, In y l2 <->
            exists i c, In i ivrs /\ In c cs /\
              sql_eq (ivr_call i) (call_control_id c) = true /\
              since cutoff c = true /\ (ivr_department i =? d)%string = true /\
              y = call_control_id c).
  { intros y. unfold l2. rewrite in_map_iff. split.
    - intros ([c oi] & <- & Hin). apply filter_In in Hin as (Hin & Hf).
      apply Bool.andb_true_iff in Hf as (Hs & Hd). cbn in Hs, Hd.
      destruct oi as [i|]; [| discriminate Hd].
      apply in_left_join_some in Hin as (Hc & Hi & He).
      rewrite sql_eq_sym in He. exists i, c. cbn in Hd. auto 7.
    - intros (i & c & Hi & Hc & He & Hs & Hd & ->). exists (c, Some i).
      split; [reflexivity |]. apply filter_In. split.
      + apply in_left_join_some. rewrite sql_eq_sym. auto.
      + cbn. rewrite Hs, Hd. reflexivity. }
  apply irredundant_length; try apply distinct_irredundant.
  - intros y Hy. apply distinct_In, Hin1 in Hy
      as (i & c & _ & _ & He & _ & _ & ->).
    exact (sql_eq_refl_l _ _ He).
  - intros y Hy. apply distinct_In, Hin2 in Hy
      as (i & c & _ & _ & He & _ & _ & ->).
    rewrite sql_eq_sym in He. exact (sql_eq_refl_l _ _ He).
  - intros x. rewrite !exists_distinct.
    apply Bool.eq_true_iff_eq. rewrite !existsb_exists. split.
    + intros (y & Hy & Hxy).
      apply Hin1 in Hy as (i & c & Hi & Hc & He & Hs & Hd & ->).
      exists (call_control_id c). split.
      * apply Hin2. exists i, c. auto 7.
      * exact (sql_eq_trans _ _ _ Hxy He).
    + intros (y & Hy & Hxy).
      apply Hin2 in Hy as (i & c & Hi & Hc & He & Hs & Hd & ->).
      exists (ivr_call i). split.
      * apply Hin1. exists i, c. auto 7.
      * rewrite sql_eq_sym in He. exact (sql_eq_trans _ _ _ Hxy He).
Qed.

End JoinCounts.

Lemma has_selection_any (w : world) (x : json) :
  has_selection None w x = selected (ivr_interactions w) x.
Proof.
  unfold has_selection, selected.
  induction (ivr_interactions w) as [|i l IH]; cbn; [reflexivity |].
  rewrite IH, Bool.andb_true_r. reflexivity.
Qed.

(** Without a department, the second query returns the two counts of the
    specification: the calls of the window with a selection, and the calls
    of the window. *)
Lemma q_selection_unfiltered (cutoff : string) (w : world) :
  q_selection cutoff None w =
  (Z.of_nat (List.length (filter (has_selection None w)
                                 (calls_in_window cutoff w))),
   Z.of_nat (List.length (calls_in_window cutoff w))).
Proof.
  unfold q_selection, count_distinct, calls_in_window.
  rewrite (filter_left_join (ivr_interactions w) (since cutoff)).
  rewrite distinct_call_ids.
  destruct (distinct_ivr_ids (ivr_interactions w) (filter (since cutoff) (calls w)))
    as (Hlen & _).
  cbn zeta in Hlen. rewrite Hlen.
  rewrite (filter_ext _ _ (has_selection_any w)). reflexivity.
Qed.

(** Without a department, and with the store in place, the reported
    selection rate is the one of the specification, and the reported
    volume is the number of calls of the window. *)
Lemma unfiltered_kpis (E : env) (department : option string) (w : world) :
  dept_given department = None ->
  db_file w = true -> disk_ok E OpKpis = true ->
  exists transfer_success : Q,
    kpis_24h E department w =
    (Return (kpis_dict department
               (Z.of_nat (List.length (calls_in_window (cutoff_24h E) w)))
               (spec_selection_rate (cutoff_24h E) None w)
               transfer_success), w).
Proof.
  intros Hd Hf Hdisk.
  unfold kpis_24h, ensure_db, bind, get_world, try_except, sql_guard, ret.
  rewrite Hf, Hdisk, Hd. cbn iota.
  rewrite q_selection_unfiltered. cbn [fst snd].
  eexists. unfold spec_selection_rate, q_inbound_volume.
  rewrite (filter_ext (fun r => since (cutoff_24h E) (fst r) && true)
             (fun r => since (cutoff_24h E) (fst r))
             (fun r => Bool.andb_true_r _)).
  rewrite (filter_left_join (ivr_interactions w) (since (cutoff_24h E))).
  unfold count_distinct. rewrite distinct_call_ids.
  reflexivity.
Qed.

(** A count divided by itself is the float 1.0. *)
Lemma true_div_self (n : Z) : 0 < n -> true_div n n = 1%Q.
Proof.
  intros Hn. unfold true_div.
  destruct n as [|p|p]; try lia. cbn [Z.to_pos].
  unfold binary64.
  assert (Hnz : Qeq_bool (Z.pos p # p) 0 = false).
  { reflexivity. }
  rewrite Hnz. cbn [Qabs Z.abs Qnum Qden].
  rewrite Z.sub_diag.
  assert (Hle : Qle_bool (Qpower 2 0) (Z.pos p # p) = true).
  { unfold Qle_bool. cbn. apply Z.leb_le. lia. }
  rewrite Hle.
  change (Qpower 2 (0 - 52)) with (1 # 4503599627370496).
  unfold round_half_even, Qdiv, Qinv, Qmult. cbn [Qnum Qden].
  rewrite Pos.mul_1_r.
  rewrite (Z.mul_comm (Z.pos p) 4503599627370496), Z.div_mul, Z.mod_mul
    by lia.
  reflexivity.
Qed.

(** With a department, and with the store in place, the reported selection
    rate is 1.0 as soon as one call of the window chose the department,
    and 0.0 otherwise, however many calls the window has. *)
Lemma filtered_rate_is_degenerate (E : env) (department : option string)
  (d : string) (w : world) :
  dept_given department = Some d ->
  db_file w = true -> disk_ok E OpKpis = true ->
  exists (volume : Z) (transfer_success : Q),
    kpis_24h E department w =
    (Return (kpis_dict department volume
               (if 0 <? volume then 1%Q else 0%Q) transfer_success), w).
Proof.
  intros Hd Hf Hdisk.
  unfold kpis_24h, ensure_db, bind, get_world, try_except, sql_guard, ret.
  rewrite Hf, Hdisk, Hd. cbn iota.
  unfold q_selection, q_inbound_volume. cbn [fst snd].
  rewrite (filtered_counts_coincide (ivr_interactions w) (cutoff_24h E) d (calls w)).
  set (n := count_distinct _).
  exists n. eexists. do 3 f_equal.
  destruct (0 <? n) eqn:Hn; [| reflexivity].
  apply Z.ltb_lt in Hn. rewrite (true_div_self n Hn). reflexivity.
Qed.

(** C8 where the code departs from it.  With two calls in the window of
    which one chose sales, the rate for department sales is 1/2 in the
    words of the specification; [kpis_24h] divides the calls that chose
    sales by themselves and reports 1.0 (as it does for every store, by
    [filtered_rate_is_degenerate]). *)
Theorem department_selection_rate_is_one :
  spec_selection_rate (cutoff_24h quiet_env) (Some "sales")
    two_calls_one_selection = 1 # 2 /\
  kpis_24h quiet_env (Some "sales") two_calls_one_selection =
  (Return (kpis_dict (Some "sales") 1 1 0), two_calls_one_selection).
Proof. split; vm_compute; reflexivity. Qed.

(** Without a department the two agree on that data. *)
Example overall_selection_rate_agrees :
  kpis_24h quiet_env None two_calls_one_selection =
  (Return (kpis_dict None 2
             (spec_selection_rate (cutoff_24h quiet_env) None
                two_calls_one_selection) 0),
   two_calls_one_selection).
Proof. vm_compute. reflexivity. Qed.

(** ** The statements at work on concrete deliveries *)


Lemma transfer_outcome_gates_routed_witness :
  py_in (JStr "abc")
    (ROUTED_CALLS
       (snd (webhook plain_repr quiet_env (gather_abc "2") initial_world))) =
  true /\
  py_in (JStr "abc")
    (ROUTED_CALLS
       (snd (webhook plain_repr refusing_env (gather_abc "2") initial_world))) =
  false.
Proof.
  split.
  - refine (proj1 (transfer_outcome_gates_routed plain_repr quiet_env
             (gather_abc "2") (abc_fields "2") "abc" "support" initial_world
             _ _ (abc_transfer (Some 200))
             eq_refl eq_refl _ eq_refl eq_refl eq_refl
             (surjective_pairing _) _ eq_refl) eq_refl).
    + discriminate.
    + left. reflexivity.
  - refine (proj1 (proj2 (transfer_outcome_gates_routed plain_repr refusing_env
             (gather_abc "2") (abc_fields "2") "abc" "support" initial_world
             _ _ (abc_transfer (Some 500))
             eq_refl eq_refl _ eq_refl eq_refl eq_refl
             (surjective_pairing _) _ eq_refl) eq_refl)).
    + discriminate.
    + left. reflexivity.
Defined.

Lemma unmapped_digit_replays_menu_witness :
  DIGIT_TO_DEPARTMENT "9" = None /\
  exists w' : world,
    webhook plain_repr quiet_env (gather_abc "9") initial_world =
      (Return (JDict [("status", JStr "gather_processed");
                      ("digit", JStr "9")], 200), w') /\
    List.length (issued initial_world w') = 1%nat /\
    ivr_interactions w' = [] /\ transfers w' = [] /\
    ROUTED_CALLS w' = [] /\ ENDED_CALLS w' = [].
Proof.
  assert (Hne : "abc" <> "") by discriminate.
  assert (H1 : digit_of plain_repr (abc_fields "9") <> "1") by discriminate.
  assert (H2 : digit_of plain_repr (abc_fields "9") <> "2") by discriminate.
  assert (H3 : digit_of plain_repr (abc_fields "9") <> "3") by discriminate.
  destruct (unmapped_digit_replays_menu plain_repr quiet_env (gather_abc "9")
              (abc_fields "9") "abc" initial_world
              eq_refl eq_refl Hne eq_refl eq_refl H1 H2 H3)
    as ((_ & _ & _ & Hnone) & r & w' & Hrun & Hivr & Htr & HR & HN & Hyes & _).
  destruct (Hyes (or_intror eq_refl)) as (-> & Hiss).
  split; [exact Hnone |].
  exists w'. rewrite Hiss.
  split; [exact Hrun |]. split; [reflexivity |].
  split; [exact Hivr |]. split; [exact Htr |]. split; [exact HR | exact HN].
Defined.

Lemma initiated_once_witness :
  exists (r : outcome response) (w' : world),
    webhook plain_repr quiet_env initiated_abc initial_world = (r, w') /\
    call_records (JStr "abc") w' = 1%nat /\
    List.length (issued initial_world w') = 2%nat /\
    forall (E2 : env) (r2 : outcome response) (w2 : world),
      webhook plain_repr E2 initiated_abc w' = (r2, w2) -> calls w2 = calls w'.
Proof.
  assert (Hne : "abc" <> "") by discriminate.
  destruct (initiated_once plain_repr quiet_env initiated_abc
              initiated_abc_fields "abc" initial_world
              eq_refl eq_refl Hne eq_refl)
    as (r & w' & Hrun & _ & Hagain & Hyes & _).
  destruct (Hyes (or_intror eq_refl)) as (Hiss & Hone).
  specialize (Hone eq_refl eq_refl eq_refl).
  exists r, w'. rewrite Hiss.
  split; [exact Hrun |]. split; [exact Hone |]. split; [reflexivity |].
  intros E2 r2 w2 Hrun2. exact (proj2 (Hagain E2 r2 w2 Hrun2) Hone).
Defined.

Lemma extraction_follows_policy_witness :
  exists t : string,
    _extract_digits plain_repr (JDict padded_dtmf) initial_world =
      (Return t, initial_world) /\
    claimed_extraction plain_repr padded_dtmf t.
Proof.
  destruct (extraction_follows_policy plain_repr padded_dtmf initial_world)
    as (t & Hrun & _ & Hclaimed).
  exists t. split; [exact Hrun | exact (Hclaimed eq_refl)].
Defined.

(** The digit of that payload, read without its padding. *)
Example padded_digit_is_read : digit_of plain_repr padded_dtmf = "1".
Proof. vm_compute. reflexivity. Qed.

Lemma answered_ack_ignores_menu_witness :
  fst (webhook plain_repr answer_only_env initiated_abc initial_world) =
  Return (ack "answered_and_menu_started").
Proof.
  refine (proj1 (answered_ack_ignores_menu plain_repr answer_only_env
            initiated_abc initiated_abc_fields initial_world _ _
            (abc_answer (Some 200))
            eq_refl (surjective_pairing _) _ eq_refl eq_refl)).
  right. left. reflexivity.
Defined.

(** From the start, route call "abc" and then let it hang up: the id is in
    both sets, whatever [repr] is. *)
Lemma overlap_reachable (py_repr : json -> string) :
  exists w : world, reachable py_repr w /\ ~ sets_disjoint w.
Proof.
  set (w1 := snd (webhook py_repr quiet_env (gather_abc "2") initial_world)).
  set (w2 := snd (webhook py_repr quiet_env hangup_abc w1)).
  exists w2. split.
  - apply (reach_delivery py_repr w1 w2 quiet_env hangup_abc
             (fst (webhook py_repr quiet_env hangup_abc w1))).
    + apply (reach_delivery py_repr initial_world w1 quiet_env (gather_abc "2")
               (fst (webhook py_repr quiet_env (gather_abc "2") initial_world))).
      * apply reach_start; reflexivity.
      * apply surjective_pairing.
    + apply surjective_pairing.
  - intros H. apply (H (JStr "abc")). split; reflexivity.
Qed.

(** C6 as stated fails: a routed call that hangs up is in both sets. *)
Lemma routed_and_ended_overlap :
  ~ (forall (py_repr : json -> string) (w : world),
       reachable py_repr w -> sets_disjoint w).
Proof.
  intros H. destruct (overlap_reachable plain_repr) as (w & Hreach & Hnot).
  exact (Hnot (H plain_repr w Hreach)).
Qed.

(** ** Where the statements of the specification end *)

(** C3 as stated fails when the event store cannot be set up: the
    delivery passes the guard with the unmapped digit 9, and it is
    acknowledged with [error] without a menu request. *)
Lemma unmapped_digit_without_store :
  let run := webhook plain_repr no_store_env (gather_abc "9") initial_world in
  digit_of plain_repr (abc_fields "9") = "9" /\
  DIGIT_TO_DEPARTMENT "9" = None /\
  py_in (JStr "abc") (ROUTED_CALLS initial_world) = false /\
  py_in (JStr "abc") (ENDED_CALLS initial_world) = false /\
  fst run = Return (ack "error") /\
  issued initial_world (snd run) = [].
Proof. repeat split. Qed.

(** C5 as stated fails when sqlite3 refuses the write: the failure is
    swallowed, the call is answered and the menu started, and there is no
    Call record for it.  Without a store the delivery is acknowledged with
    [error] and the call is not answered at all. *)
Lemma answered_call_without_record :
  let run := webhook plain_repr failing_disk_env initiated_abc initial_world in
  let lost := webhook plain_repr no_store_env initiated_abc initial_world in
  call_records (JStr "abc") initial_world = 0%nat /\
  fst run = Return (ack "answered_and_menu_started") /\
  List.length (issued initial_world (snd run)) = 2%nat /\
  call_records (JStr "abc") (snd run) = 0%nat /\
  fst lost = Return (ack "error") /\
  issued initial_world (snd lost) = [] /\
  call_records (JStr "abc") (snd lost) = 0%nat.
Proof. repeat split. Qed.

(** C7 as stated fails when both nested objects are present: the digit
    under "dtmf" is a non-empty value at one of the locations, and the
    policy returns it, but [_extract_digits] does not look at "dtmf" once
    "result" is non-empty and returns the empty string. *)
Lemma dtmf_behind_result_is_not_read :
  _extract_digits plain_repr (JDict result_and_dtmf) initial_world =
    (Return "", initial_world) /\
  claimed_extraction plain_repr result_and_dtmf "2" /\
  ~ claimed_extraction plain_repr result_and_dtmf "".
Proof.
  split; [reflexivity |]. split.
  - exists "", "". repeat split.
  - intros (l & r & Hs & Hl & Hr & _). cbn in Hs.
    destruct l as [|a l].
    + cbn in Hs. subst r. discriminate Hr.
    + cbn in Hs. injection Hs as <- Hs.
      destruct l; [discriminate Hl | discriminate Hs].
Qed.

(** A digit padded with a no-break space is the digit: the call goes to
    sales, and it is routed. *)
Example padded_digit_is_transferred :
  let run := webhook plain_repr quiet_env (gather_abc (text [160; 49]))
               initial_world in
  fst run = Return (JDict [("status", JStr "gather_processed");
                           ("digit", JStr "1")], 200) /\
  ROUTED_CALLS (snd run) = [JStr "abc"] /\
  map ivr_department (ivr_interactions (snd run)) = ["sales"].
Proof. repeat split; vm_compute; reflexivity. Qed.

(** [?days=] in Arabic-Indic digits is a number to [int] and is served;
    a digit behind the separator U+001C is not, and is refused. *)
Example unicode_days_are_served :
  (exists (trend : list json) (w' : world),
     get_trend quiet_env (Some (text [1639])) None two_calls_one_selection =
     (Return (JDict [("days", JInt 7); ("department", JStr "all");
                     ("trend", JList trend)], 200), w')) /\
  get_trend quiet_env (Some (text [28; 55])) None two_calls_one_selection =
  (Return (error_body "Invalid 'days' parameter. Must be a number", 400),
   two_calls_one_selection).
Proof. split; [eexists _, _ |]; vm_compute; reflexivity. Qed.

(** * Beyond the call flow *)

(** ** Text: what the program trims *)

(** [_extract_digits] hands out trimmed text: whatever the payload holds,
    the digit it returns for an object payload has no white space at
    either end (stripping it again changes nothing), and the world is not
    touched.  A payload that is not an object has no [get]: the function
    raises [AttributeError]. *)
Theorem extracted_digit_is_trimmed (py_repr : json -> string) (ev : json)
  (w : world) :
  match ev with
  | JDict fields =>
      exists d : string,
        _extract_digits py_repr ev w = (Return d, w) /\ strip d = d
  | _ => _extract_digits py_repr ev w = (Raise AttributeError, w)
  end.
Proof.
  destruct ev as [| | | | | |fields]; try reflexivity.
  exists (digit_of py_repr fields).
  split; [apply extract_digits_run |].
  unfold digit_of, _extract_digits, py_get, bind, ret. cbn [fst].
  destruct (truthy (py_or _ _)); cbn [fst]; [apply strip_idem |].
  destruct (py_or _ _); cbn [fst]; first [apply strip_idem | reflexivity].
Qed.

(** The module starts only with a key it can use: whatever the
    environment variable holds around it, the key the process keeps has
    no white space at either end and begins with "KEY", and every provider
    request is authorised with it as a bearer token. *)
Theorem started_process_has_a_clean_key (E : env) (key : string) :
  checked_api_key E = Some key ->
  strip key = key /\
  exists rest : string,
    key = "KEY" ++ rest /\
    In ("Authorization", "Bearer KEY" ++ rest) (_headers key).
Proof.
  unfold checked_api_key. set (k := TELNYX_API_KEY E).
  destruct ((k =? "")%string) eqn:He; cbn [orb]; [discriminate |].
  destruct (prefix "KEY" k) eqn:Hp; cbn [negb]; [| discriminate].
  intros [= <-]. split; [apply strip_idem |].
  apply prefix_correct in Hp.
  destruct k as [|a [|b [|c rest]]]; cbn in Hp; try discriminate.
  injection Hp as -> -> ->.
  exists rest. split; [reflexivity |]. left. reflexivity.
Qed.

(** ** The store seen from its callers *)

Lemma store_ready_available (E : env) (w : world) :
  store_ready E w = true <-> store_available E w.
Proof.
  unfold store_ready, store_available. split.
  - intros H. apply Bool.orb_true_iff in H as [H | H]; [left; exact H |].
    right. destruct (init_outcome_of E); [reflexivity | discriminate].
  - intros [H | H]; [rewrite H; reflexivity |].
    rewrite H. apply Bool.orb_true_r.
Qed.

(** What a write does to the four tables: nothing, or one more row. *)
Lemma write_rows (E : env) (op : store_write) (w : world) (r : outcome unit)
  (w' : world) :
  write E op w = (r, w') ->
  same_routing w w' /\ store_outcome E w r w' /\
  (stored_rows w' = stored_rows w \/ stored_rows w' = S (stored_rows w)).
Proof.
  destruct op as [c f t | c t p | c d dept | c uri st]; cbn [write]; intros H.
  - destruct (save_call_if_new_spec _ _ _ _ _ _ _ H) as (Hs & Ho & He & Hi & Ht).
    split; [exact Hs |]. split; [exact Ho |]. unfold stored_rows.
    rewrite He, Hi, Ht.
    destruct (save_call_if_new_calls _ _ _ _ _ _ _ H)
      as [-> | (k & fv & tv & _ & _ & ->)]; [left | right]; cbn; lia.
  - destruct (log_event_spec _ _ _ _ _ _ _ H) as (Hs & Ho & Hc & Hi & Ht).
    split; [exact Hs |]. split; [exact Ho |]. unfold stored_rows.
    rewrite Hc, Hi, Ht.
    destruct (log_event_rows _ _ _ _ _ _ _ H)
      as [-> | (k & kt & _ & _ & ->)]; [left | right]; cbn; lia.
  - destruct (log_ivr_selection_spec _ _ _ _ _ _ _ H) as (Hs & Ho & Hc & He & Ht).
    split; [exact Hs |]. split; [exact Ho |]. unfold stored_rows.
    rewrite Hc, He, Ht.
    destruct (log_ivr_selection_rows _ _ _ _ _ _ _ H)
      as [-> | (k & _ & _ & ->)]; [left | right]; cbn; lia.
  - destruct (log_transfer_spec _ _ _ _ _ _ _ H) as (Hs & Ho & Hc & He & Hi).
    split; [exact Hs |]. split; [exact Ho |]. unfold stored_rows.
    rewrite Hc, He, Hi.
    destruct (log_transfer_rows _ _ _ _ _ _ _ H)
      as [-> | (k & _ & _ & ->)]; [left | right]; cbn; lia.
Qed.

(** The four writes of the store never fail on the caller once the
    database can be opened: whatever values they are given and whatever
    sqlite3 does, they return, having added at most one row and left the
    two sets and the provider log alone.  The one failure they let
    through is that of [init_db], when there is no database file and the
    schema cannot be installed; they then raise before writing
    anything. *)
Theorem store_writes_fail_only_on_init (E : env) (op : store_write)
  (w : world) :
  exists w' : world,
    write E op w =
      (if store_ready E w then Return tt else Raise InitError, w') /\
    same_routing w w' /\
    (stored_rows w <= stored_rows w' <= S (stored_rows w))%nat /\
    (store_ready E w = false -> stored_rows w' = stored_rows w).
Proof.
  destruct (write E op w) as [r w'] eqn:Hrun. exists w'.
  destruct (write_rows _ _ _ _ _ Hrun) as (Hs & Ho & Hrows).
  destruct Ho as [(-> & _ & Hav) | (-> & Hnav & Hc & He & Hi & Ht)].
  - apply store_ready_available in Hav. rewrite Hav.
    split; [reflexivity |]. split; [exact Hs |].
    split; [destruct Hrows as [-> | ->]; lia | discriminate].
  - assert (Hr : store_ready E w = false).
    { destruct (store_ready E w) eqn:Hr; [| reflexivity].
      apply store_ready_available in Hr. contradiction. }
    rewrite Hr. split; [reflexivity |]. split; [exact Hs |].
    assert (Hsame : stored_rows w' = stored_rows w)
      by (unfold stored_rows; rewrite Hc, He, Hi, Ht; reflexivity).
    split; [rewrite Hsame; lia | intros _; exact Hsame].
Qed.

(** The menu, the SIP targets, the validation in [log_ivr_selection] and
    the department filter of the analytics surface know the same three
    departments: a department is reached by some digit exactly when it has
    a SIP target, exactly when the store accepts it, and then the
    analytics surface accepts it as a filter. *)
Theorem department_tables_agree (E : env) (dept : string) :
  ((exists d : string, DIGIT_TO_DEPARTMENT d = Some dept) <->
   str_in dept valid_departments = true) /\
  (DEPARTMENT_URIS E dept <> None <-> str_in dept valid_departments = true) /\
  (str_in dept valid_departments = true ->
   department_rejected (Some dept) = false).
Proof.
  assert (Hcases : str_in dept valid_departments = true <->
                   dept = "sales" \/ dept = "support" \/ dept = "porting").
  { unfold str_in, valid_departments. cbn [existsb].
    rewrite Bool.orb_false_r, !Bool.orb_true_iff, !String.eqb_eq. tauto. }
  split; [| split].
  - rewrite Hcases. split.
    + intros (d & Hd). unfold DIGIT_TO_DEPARTMENT in Hd.
      destruct (d =? "1")%string; [injection Hd as <-; auto |].
      destruct (d =? "2")%string; [injection Hd as <-; auto |].
      destruct (d =? "3")%string; [injection Hd as <-; auto | discriminate].
    + intros [-> | [-> | ->]];
        [exists "1" | exists "2" | exists "3"]; reflexivity.
  - rewrite Hcases. unfold DEPARTMENT_URIS. split.
    + destruct (dept =? "sales")%string eqn:H1;
        [apply String.eqb_eq in H1; auto |].
      destruct (dept =? "support")%string eqn:H2;
        [apply String.eqb_eq in H2; auto |].
      destruct (dept =? "porting")%string eqn:H3;
        [apply String.eqb_eq in H3; auto |].
      intros H. contradiction.
    + intros [-> | [-> | ->]]; discriminate.
  - intros H. unfold department_rejected, dept_given.
    destruct (dept =? "")%string; [reflexivity |]. rewrite H. reflexivity.
Qed.

(** ** The analytics surface: what it answers and what it leaves behind *)

Lemma ensure_db_run (E : env) (w : world) :
  exists w1 : world,
    ensure_db E w =
      (if store_ready E w then Return tt else Raise InitError, w1) /\
    (w1 = w \/ w1 = with_db_file true w) /\
    (store_ready E w = true -> db_file w1 = true).
Proof.
  unfold ensure_db, bind, get_world, init_db, store_ready, ret.
  destruct (db_file w) eqn:Hf; cbn [orb].
  - exists w. auto.
  - destruct (init_outcome_of E) as [|[]]; eexists; split; try reflexivity;
      split; auto; discriminate.
Qed.

(** The shape the three read functions share: [ensure_db], then a guarded
    query whose failure is replaced by a default. *)
Lemma read_run {A} (E : env) (op : db_op) (k : world -> M A) (dflt : A)
  (w : world) :
  (forall w0, exists o, forall w1, k w0 w1 = (o, w1)) ->
  exists (a : A) (w1 : world),
    (ensure_db E ;;
     try_except (sql_guard E op ;; w0 <- get_world ;; k w0)
                (fun _ => ret dflt)) w =
      (if store_ready E w then Return a else Raise InitError, w1) /\
    (w1 = w \/ w1 = with_db_file true w).
Proof.
  intros Hk. destruct (ensure_db_run E w) as (w1 & Hrun & Hw1 & _).
  destruct (store_ready E w).
  - rewrite (bind_return _ _ _ _ _ Hrun).
    unfold try_except, sql_guard, bind, get_world, ret, raise.
    destruct (disk_ok E op).
    + destruct (Hk w1) as ([a|e] & Ha); rewrite Ha;
        [exists a, w1 | exists dflt, w1]; auto.
    + exists dflt, w1. auto.
  - rewrite (bind_raise _ _ _ _ _ Hrun). exists dflt, w1. auto.
Qed.

Lemma kpis_24h_run (E : env) (department : option string) (w : world) :
  exists (kpis : json) (w1 : world),
    kpis_24h E department w =
      (if store_ready E w then Return kpis else Raise InitError, w1) /\
    (w1 = w \/ w1 = with_db_file true w).
Proof.
  unfold kpis_24h. apply read_run. intros w0. eexists. intros w1. reflexivity.
Qed.

Lemma volume_trend_days_run (E : env) (days : Z) (department : option string)
  (w : world) :
  exists (trend : list json) (w1 : world),
    volume_trend_days E days department w =
      (if store_ready E w then Return trend else Raise InitError, w1) /\
    (w1 = w \/ w1 = with_db_file true w).
Proof.
  unfold volume_trend_days. apply read_run. intros w0.
  destruct (dept_given department); eexists; intros w1; reflexivity.
Qed.

Lemma recent_calls_run (E : env) (limit : Z) (department : option string)
  (w : world) :
  exists (rows : list json) (w1 : world),
    recent_calls E limit department w =
      (if store_ready E w then Return rows else Raise InitError, w1) /\
    (w1 = w \/ w1 = with_db_file true w).
Proof.
  unfold recent_calls. apply read_run. intros w0.
  destruct ((limit <? - 2 ^ 63) || (2 ^ 63 <=? limit)); eexists; intros w1;
    reflexivity.
Qed.

Lemma department_rejected_bad (d : option string) :
  department_rejected d = bad_department d.
Proof.
  unfold department_rejected, bad_department, dept_given.
  destruct d as [s|]; [| reflexivity].
  destruct (s =? "")%string; reflexivity.
Qed.

(** A read, wrapped by its route: 200 with the data, or 500 when the read
    raised. *)
Lemma route_run {A} (m : M A) (a : A) (w w1 : world) (ready : bool)
  (wrap : A -> json) :
  m w = (if ready then Return a else Raise InitError, w1) ->
  try_except (x <- m ;; ret (wrap x, 200))
             (fun _ => ret (error_body "Internal server error", 500)) w =
  (Return (if ready then (wrap a, 200)
           else (error_body "Internal server error", 500)), w1).
Proof.
  intros H. unfold try_except, bind, ret. rewrite H.
  destruct ready; reflexivity.
Qed.

Lemma serve_run (E : env) (req : analytics_request) (w : world) :
  exists (body : json) (w' : world),
    serve E req w = (Return (body, expected_status E req w), w') /\
    (w' = w \/ w' = with_db_file true w) /\
    (expected_status E req w = 200 \/ exists msg, body = error_body msg).
Proof.
  unfold expected_status.
  destruct req as [d | n d | n d]; cbn [serve invalid_request].
  - unfold get_kpis. rewrite department_rejected_bad.
    destruct (bad_department d).
    + eexists _, w. split; [reflexivity |]. eauto.
    + destruct (kpis_24h_run E d w) as (kpis & w1 & Hrun & Hw1).
      rewrite (route_run _ _ _ _ _ (fun x => x) Hrun).
      destruct (store_ready E w); eexists _, w1; eauto.
  - unfold get_trend, bad_number. rewrite department_rejected_bad.
    destruct (match n with Some s => py_int s | None => Some 7 end)
      as [k|] eqn:Hn.
    2: { destruct n as [s|]; [| discriminate]. rewrite Hn. cbn [orb].
         eexists _, w. split; [reflexivity |]. eauto. }
    assert (Hbad : match n with
                   | Some s => match py_int s with
                               | Some n0 => (n0 <? 1) || (365 <? n0)
                               | None => true
                               end
                   | None => false
                   end = (k <? 1) || (365 <? k)).
    { destruct n as [s|]; [rewrite Hn; reflexivity |].
      injection Hn as <-. reflexivity. }
    rewrite Hbad. destruct ((k <? 1) || (365 <? k)); cbn [orb].
    { eexists _, w. split; [reflexivity |]. eauto. }
    destruct (bad_department d).
    { eexists _, w. split; [reflexivity |]. eauto. }
    destruct (volume_trend_days_run E k d w) as (trend & w1 & Hrun & Hw1).
    rewrite (route_run _ _ _ _ _
               (fun x => JDict [("days", JInt k);
                                ("department", JStr (dept_or_all d));
                                ("trend", JList x)]) Hrun).
    destruct (store_ready E w); eexists _, w1; eauto.
  - unfold get_recent_calls, bad_number. rewrite department_rejected_bad.
    destruct (match n with Some s => py_int s | None => Some 20 end)
      as [k|] eqn:Hn.
    2: { destruct n as [s|]; [| discriminate]. rewrite Hn. cbn [orb].
         eexists _, w. split; [reflexivity |]. eauto. }
    assert (Hbad : match n with
                   | Some s => match py_int s with
                               | Some n0 => (n0 <? 1) || (1000 <? n0)
                               | None => true
                               end
                   | None => false
                   end = (k <? 1) || (1000 <? k)).
    { destruct n as [s|]; [rewrite Hn; reflexivity |].
      injection Hn as <-. reflexivity. }
    rewrite Hbad. destruct ((k <? 1) || (1000 <? k)); cbn [orb].
    { eexists _, w. split; [reflexivity |]. eauto. }
    destruct (bad_department d).
    { eexists _, w. split; [reflexivity |]. eauto. }
    destruct (recent_calls_run E k d w) as (rows & w1 & Hrun & Hw1).
    rewrite (route_run _ _ _ _ _
               (fun x => JDict [("limit", JInt k);
                                ("department", JStr (dept_or_all d));
                                ("calls", JList x)]) Hrun).
    destruct (store_ready E w); eexists _, w1; eauto.
Qed.

(** The three metrics routes always answer, and with one of three
    statuses: 400 for a request that fails validation; otherwise 200 when
    the database can be opened, and 500 when it cannot.  A query that
    sqlite3 refuses is not an error for the client: the answer is still
    200.  Whenever the status is not 200 the body is an object with an
    "error" message and nothing else. *)
Theorem analytics_surface_status (E : env) (req : analytics_request)
  (w : world) :
  exists (body : json) (w' : world),
    serve E req w = (Return (body, expected_status E req w), w') /\
    (expected_status E req w = 200 \/ exists msg, body = error_body msg).
Proof.
  destruct (serve_run E req w) as (body & w' & Hrun & _ & Hbody).
  exists body, w'. split; assumption.
Qed.

(** The analytics surface reads: whatever is asked and however it ends,
    no table, neither set and no provider log entry changes.  The one
    thing a request can leave behind is the database file, created by
    [init_db] when it was missing. *)
Theorem analytics_surface_only_reads (E : env) (req : analytics_request)
  (w : world) :
  snd (serve E req w) = w \/ snd (serve E req w) = with_db_file true w.
Proof.
  destruct (serve_run E req w) as (body & w' & Hrun & Hw & _).
  rewrite Hrun. exact Hw.
Qed.

(** The numbers the routes accept are written with at most four
    digits. *)
Lemma accepted_numbers_are_short (n : Z) :
  0 <= n <= 1000 ->
  Z.of_nat (String.length (str_of_int n)) <= int_max_str_digits.
Proof.
  intros Hn.
  assert (Hall : forallb
            (fun k => Z.of_nat (String.length (str_of_int (Z.of_nat k))) <=? 4)
            (seq 0 1001) = true) by (vm_compute; reflexivity).
  rewrite forallb_forall in Hall.
  specialize (Hall (Z.to_nat n)). rewrite Z2Nat.id in Hall by lia.
  assert (Hin : In (Z.to_nat n) (seq 0 1001)) by (apply in_seq; lia).
  apply Hall, Z.leb_le in Hin. unfold int_max_str_digits. lia.
Qed.

(** A numeric parameter written in decimal comes back as that number:
    for every [n] from 1 to 365, [days=n] is accepted by /metrics/trend
    and echoed in the answer, and for every [n] from 1 to 1000,
    [limit=n] is accepted by /metrics/recent and echoed, provided the
    department filter is acceptable and the database can be opened. *)
Theorem numeric_parameter_round_trip (E : env) (n : Z)
  (department : option string) (w : world) :
  1 <= n -> bad_department department = false -> store_available E w ->
  (n <= 365 ->
   exists (trend : list json) (w' : world),
     get_trend E (Some (str_of_int n)) department w =
     (Return (JDict [("days", JInt n);
                     ("department", JStr (dept_or_all department));
                     ("trend", JList trend)], 200), w')) /\
  (n <= 1000 ->
   exists (rows : list json) (w' : world),
     get_recent_calls E (Some (str_of_int n)) department w =
     (Return (JDict [("limit", JInt n);
                     ("department", JStr (dept_or_all department));
                     ("calls", JList rows)], 200), w')).
Proof.
  intros Hlo Hd Hav. apply store_ready_available in Hav.
  split; intros Hhi.
  - unfold get_trend.
    rewrite (py_int_str_of_int n (accepted_numbers_are_short n ltac:(lia))).
    rewrite department_rejected_bad, Hd.
    replace ((n <? 1) || (365 <? n)) with false
      by (symmetry; apply Bool.orb_false_iff; split; apply Z.ltb_ge; lia).
    destruct (volume_trend_days_run E n department w) as (trend & w1 & Hrun & _).
    rewrite Hav in Hrun.
    rewrite (route_run _ _ _ _ true
               (fun x => JDict [("days", JInt n);
                                ("department", JStr (dept_or_all department));
                                ("trend", JList x)]) Hrun).
    exists trend, w1. reflexivity.
  - unfold get_recent_calls.
    rewrite (py_int_str_of_int n (accepted_numbers_are_short n ltac:(lia))).
    rewrite department_rejected_bad, Hd.
    replace ((n <? 1) || (1000 <? n)) with false
      by (symmetry; apply Bool.orb_false_iff; split; apply Z.ltb_ge; lia).
    destruct (recent_calls_run E n department w) as (rows & w1 & Hrun & _).
    rewrite Hav in Hrun.
    rewrite (route_run _ _ _ _ true
               (fun x => JDict [("limit", JInt n);
                                ("department", JStr (dept_or_all department));
                                ("calls", JList x)]) Hrun).
    exists rows, w1. reflexivity.
Qed.

(** ** Ordering: [ORDER BY ... DESC] *)

Lemma ltb_asym (a b : string) :
  String.ltb a b = true -> String.ltb b a = false.
Proof.
  unfold String.ltb. rewrite (String.compare_antisym a b).
  destruct (String.compare b a); cbn; congruence.
Qed.

Lemma ltb_connex (a b : string) :
  String.ltb a b = false -> a <> b -> String.ltb b a = true.
Proof.
  unfold String.ltb. rewrite (String.compare_antisym a b).
  destruct (String.compare b a) eqn:Hc; cbn; try congruence.
  intros _ Hne. apply String.compare_eq_iff in Hc. congruence.
Qed.

Section Sorting.

Context {A : Type} (key : A -> string).

Lemma in_insert_desc (x y : A) (l : list A) :
  In y (insert_desc key x l) <-> y = x \/ In y l.
Proof.
  induction l as [|z l IH]; cbn [insert_desc].
  - cbn. intuition.
  - destruct (String.ltb (key z) (key x)); cbn [In]; [intuition |].
    rewrite IH. intuition.
Qed.

Lemma in_sort_desc (y : A) (l : list A) : In y (sort_desc key l) <-> In y l.
Proof.
  induction l as [|x l IH]; [reflexivity |].
  unfold sort_desc in *. cbn [fold_right]. rewrite in_insert_desc, IH.
  cbn. intuition.
Qed.

Lemma insert_desc_head (x : A) (l : list A) :
  exists rest, insert_desc key x l = x :: rest \/
               exists z l', l = z :: l' /\ insert_desc key x l = z :: rest /\
                            String.ltb (key z) (key x) = false.
Proof.
  destruct l as [|z l]; cbn [insert_desc]; [exists []; left; reflexivity |].
  destruct (String.ltb (key z) (key x)) eqn:Hz.
  - eexists. left. reflexivity.
  - eexists. right. exists z, l. auto.
Qed.

Lemma newest_first_insert (x : A) (l : list A) :
  newest_first (map key l) -> newest_first (map key (insert_desc key x l)).
Proof.
  induction l as [|y l IH]; intros Hs; [exact I |].
  cbn [insert_desc]. destruct (String.ltb (key y) (key x)) eqn:Hyx.
  - cbn [map newest_first]. split; [exact (ltb_asym _ _ Hyx) | exact Hs].
  - assert (Hl : newest_first (map key l)).
    { destruct l; [exact I | apply Hs]. }
    specialize (IH Hl). cbn [map].
    destruct (insert_desc_head x l) as (rest & [Hh | (z & l' & -> & Hh & _)]);
      rewrite Hh in IH |- *; cbn [map newest_first] in *.
    + split; [exact Hyx | exact IH].
    + split; [apply Hs | exact IH].
Qed.

Lemma newest_first_sort (l : list A) :
  newest_first (map key (sort_desc key l)).
Proof.
  induction l as [|x l IH]; [exact I |].
  exact (newest_first_insert x _ IH).
Qed.

Lemma descending_insert (x : A) (l : list A) :
  ~ In (key x) (map key l) ->
  descending (map key l) -> descending (map key (insert_desc key x l)).
Proof.
  induction l as [|y l IH]; intros Hx Hs; [exact I |].
  cbn [insert_desc]. destruct (String.ltb (key y) (key x)) eqn:Hyx.
  - cbn [map descending]. split; [exact Hyx | exact Hs].
  - assert (Hl : descending (map key l)).
    { destruct l; [exact I | apply Hs]. }
    assert (Hxl : ~ In (key x) (map key l)).
    { intros H. apply Hx. right. exact H. }
    assert (Hne : key y <> key x).
    { intros H. apply Hx. left. exact H. }
    specialize (IH Hxl Hl). cbn [map].
    destruct (insert_desc_head x l) as (rest & [Hh | (z & l' & -> & Hh & _)]);
      rewrite Hh in IH |- *; cbn [map descending] in *.
    + split; [exact (ltb_connex _ _ Hyx Hne) | exact IH].
    + split; [apply Hs | exact IH].
Qed.

End Sorting.

Lemma newest_first_firstn (n : nat) (l : list string) :
  newest_first l -> newest_first (firstn n l).
Proof.
  revert l. induction n as [|n IH]; intros l Hs; [exact I |].
  destruct l as [|a l]; [exact I |]. cbn [firstn].
  destruct l as [|b l]; [destruct n; exact I |].
  specialize (IH (b :: l) (proj2 Hs)).
  destruct n as [|n]; [exact I |].
  cbn [firstn] in *. split; [apply Hs | exact IH].
Qed.

Lemma in_firstn {T} (n : nat) (x : T) (l : list T) :
  In x (firstn n l) -> In x l.
Proof.
  revert l. induction n as [|n IH]; intros l H; [destruct H |].
  destruct l as [|a l]; [destruct H |].
  destruct H as [<- | H]; [left; reflexivity | right; exact (IH _ H)].
Qed.

(** ** recent_calls *)

(** [recent_calls], for a limit the route lets through and a database
    that can be opened, returns rows of the join of calls and selections:
    never more than the limit, none followed by a more recent one, and,
    when a department is asked for, only rows of that department (a call
    without a selection then never shows).  This holds as well when the
    query fails, the answer being empty. *)
Theorem recent_calls_are_newest_first (E : env) (limit : Z)
  (department : option string) (w : world) :
  0 <= limit < 2 ^ 63 -> store_available E w ->
  exists (picked : list (call_row * option ivr_row)) (w' : world),
    recent_calls E limit department w = (Return (map recent_row picked), w') /\
    Z.of_nat (List.length picked) <= limit /\
    newest_first (map (fun r => created_at (fst r)) picked) /\
    forall r, In r picked ->
      In r (left_join (calls w) (ivr_interactions w)) /\
      forall d, dept_given department = Some d -> ivr_dept_is d (snd r) = true.
Proof.
  intros Hlim Hav.
  destruct (ensure_db_run E w) as (w1 & Hdb & Hw1 & _).
  rewrite (proj2 (store_ready_available E w) Hav) in Hdb.
  assert (Hc : calls w1 = calls w) by (destruct Hw1 as [-> | ->]; reflexivity).
  assert (Hi : ivr_interactions w1 = ivr_interactions w)
    by (destruct Hw1 as [-> | ->]; reflexivity).
  unfold recent_calls. rewrite (bind_return _ _ _ _ _ Hdb).
  unfold try_except, sql_guard, bind, get_world, ret, raise.
  destruct (disk_ok E OpRecent).
  2: { exists [], w1. split; [reflexivity |]. split; [cbn; lia |].
       split; [exact I | intros r []]. }
  rewrite Hc, Hi.
  set (joined := left_join (calls w) (ivr_interactions w)).
  set (rows := match dept_given department with
               | Some d => filter (fun r => ivr_dept_is d (snd r)) joined
               | None => joined
               end).
  set (key := fun r : call_row * option ivr_row => created_at (fst r)).
  replace ((limit <? - 2 ^ 63) || (2 ^ 63 <=? limit)) with false
    by (symmetry; apply Bool.orb_false_iff; split;
        [apply Z.ltb_ge | apply Z.leb_gt]; lia).
  unfold sql_limit.
  replace (limit <? 0) with false by (symmetry; apply Z.ltb_ge; lia).
  exists (firstn (Z.to_nat limit) (sort_desc key rows)), w1.
  split; [reflexivity |]. split; [| split].
  - pose proof (firstn_le_length (Z.to_nat limit) (sort_desc key rows)). lia.
  - rewrite <- firstn_map. apply newest_first_firstn.
    apply (newest_first_sort key).
  - intros r Hr. apply in_firstn, in_sort_desc in Hr. unfold rows in Hr.
    destruct (dept_given department) as [d|].
    + apply filter_In in Hr as (Hin & Hd). split; [exact Hin |].
      intros d' [= <-]. exact Hd.
    + split; [exact Hr | discriminate].
Qed.

(** ** volume_trend_days *)

Lemma str_in_In (x : string) (l : list string) :
  str_in x l = true <-> In x l.
Proof.
  unfold str_in. rewrite existsb_exists. split.
  - intros (y & Hy & He). apply String.eqb_eq in He. now subst.
  - intros H. exists x. split; [exact H | apply String.eqb_refl].
Qed.

Lemma in_dedup (x : string) (l : list string) : In x (dedup l) <-> In x l.
Proof.
  induction l as [|y l IH]; [reflexivity |]. cbn [dedup].
  destruct (str_in y l) eqn:Hy.
  - rewrite IH. apply str_in_In in Hy. cbn. intuition (subst; auto).
  - cbn [In]. rewrite IH. reflexivity.
Qed.

Lemma nodup_dedup (l : list string) : NoDup (dedup l).
Proof.
  induction l as [|y l IH]; [constructor |]. cbn [dedup].
  destruct (str_in y l) eqn:Hy; [exact IH |].
  constructor; [| exact IH]. rewrite in_dedup. intros H.
  apply str_in_In in H. congruence.
Qed.

Lemma nodup_insert_desc (x : string) (l : list string) :
  ~ In x l -> NoDup l -> NoDup (insert_desc (fun s => s) x l).
Proof.
  induction l as [|y l IH]; intros Hx Hl; cbn [insert_desc].
  - constructor; [exact Hx | constructor].
  - destruct (String.ltb y x); [constructor; assumption |].
    inversion Hl as [|? ? Hy Hl']; subst.
    constructor.
    + rewrite in_insert_desc. intros [-> | H]; [apply Hx; left; reflexivity |].
      contradiction.
    + apply IH; [intros H; apply Hx; right; exact H | exact Hl'].
Qed.

(** The days of a trend: each day once, the latest first. *)
Lemma sorted_days (l : list string) :
  let days := sort_desc (fun s => s) (dedup l) in
  NoDup days /\ descending days /\ forall d, In d days <-> In d l.
Proof.
  cbn zeta.
  assert (H : forall m, NoDup m ->
            NoDup (sort_desc (fun s => s) m) /\
            descending (sort_desc (fun s : string => s) m)).
  { induction m as [|x m IH]; intros Hm; [split; [constructor | exact I] |].
    inversion Hm as [|? ? Hx Hm']; subst.
    destruct (IH Hm') as (Hn & Hd).
    assert (Hx' : ~ In x (sort_desc (fun s => s) m))
      by (rewrite in_sort_desc; exact Hx).
    split.
    - exact (nodup_insert_desc x _ Hx' Hn).
    - pose proof (descending_insert (fun s : string => s) x
                    (sort_desc (fun s => s) m)) as Hins.
      rewrite !map_id in Hins. exact (Hins Hx' Hd). }
  destruct (H _ (nodup_dedup l)) as (Hn & Hd).
  split; [exact Hn |]. split; [exact Hd |].
  intros d. rewrite in_sort_desc. apply in_dedup.
Qed.

Lemma in_left_join_fst (cs : list call_row) (ivrs : list ivr_row)
  (r : call_row * option ivr_row) :
  In r (left_join cs ivrs) -> In (fst r) cs.
Proof.
  unfold left_join. rewrite in_flat_map. intros (c & Hc & Hr).
  destruct (filter _ ivrs) as [|i ms].
  - destruct Hr as [<- | []]. exact Hc.
  - apply in_map_iff in Hr as (j & <- & _). exact Hc.
Qed.

(** [volume_trend_days], for a number of days the route lets through and
    a database that can be opened, returns one entry per day on which a
    call of the window was made: no day twice, the latest day first, no
    day without a call, no negative count.  This holds with and without a
    department, and when the query fails (the answer is then empty). *)
Theorem trend_days_descend (E : env) (days : Z) (department : option string)
  (w : world) :
  1 <= days <= 365 -> store_available E w ->
  exists (daily : list (string * Z)) (w' : world),
    volume_trend_days E days department w =
      (Return (map (fun p => trend_row (fst p) (snd p)) daily), w') /\
    descending (map fst daily) /\
    forall p, In p daily ->
      0 <= snd p /\
      exists c, In c (calls w) /\ since (cutoff_days E days) c = true /\
                sql_date (created_at c) = fst p.
Proof.
  intros _ Hav.
  destruct (ensure_db_run E w) as (w1 & Hdb & Hw1 & _).
  rewrite (proj2 (store_ready_available E w) Hav) in Hdb.
  assert (Hc : calls w1 = calls w) by (destruct Hw1 as [-> | ->]; reflexivity).
  assert (Hi : ivr_interactions w1 = ivr_interactions w)
    by (destruct Hw1 as [-> | ->]; reflexivity).
  unfold volume_trend_days. rewrite (bind_return _ _ _ _ _ Hdb).
  unfold try_except, sql_guard, bind, get_world, ret, raise.
  destruct (disk_ok E OpTrend).
  2: { exists [], w1. split; [reflexivity |]. split; [exact I | intros p []]. }
  rewrite Hc, Hi. set (cutoff := cutoff_days E days).
  destruct (dept_given department) as [d|].
  - set (rows := filter _ (left_join (calls w) (ivr_interactions w))).
    set (day_of := fun r : call_row * option ivr_row =>
                     sql_date (created_at (fst r))).
    set (count := fun day : string =>
                    count_distinct
                      (map (fun r => call_control_id (fst r))
                         (filter (fun r => (day_of r =? day)%string) rows))).
    destruct (sorted_days (map day_of rows)) as (_ & Hdesc & Hin).
    cbn zeta in Hdesc, Hin.
    exists (map (fun day => (day, count day))
              (sort_desc (fun s => s) (dedup (map day_of rows)))), w1.
    split; [rewrite map_map; reflexivity |].
    split; [rewrite map_map; cbn [fst]; rewrite map_id; exact Hdesc |].
    intros p Hp. apply in_map_iff in Hp as (day & <- & Hday). cbn [fst snd].
    split; [unfold count, count_distinct; lia |].
    apply Hin, in_map_iff in Hday as (r & Hr & Hrow).
    unfold rows in Hrow. apply filter_In in Hrow as (Hj & Hf).
    apply Bool.andb_true_iff in Hf as (Hs & _).
    exists (fst r). split; [exact (in_left_join_fst _ _ _ Hj) |].
    split; [exact Hs | exact Hr].
  - set (rows := filter (since cutoff) (calls w)).
    set (day_of := fun c : call_row => sql_date (created_at c)).
    set (count := fun day : string =>
                    Z.of_nat (List.length
                      (filter (fun c => (day_of c =? day)%string) rows))).
    destruct (sorted_days (map day_of rows)) as (_ & Hdesc & Hin).
    cbn zeta in Hdesc, Hin.
    exists (map (fun day => (day, count day))
              (sort_desc (fun s => s) (dedup (map day_of rows)))), w1.
    split; [rewrite map_map; reflexivity |].
    split; [rewrite map_map; cbn [fst]; rewrite map_id; exact Hdesc |].
    intros p Hp. apply in_map_iff in Hp as (day & <- & Hday). cbn [fst snd].
    split; [unfold count; lia |].
    apply Hin, in_map_iff in Hday as (c & Hr & Hrow).
    unfold rows in Hrow. apply filter_In in Hrow as (Hj & Hs).
    exists c. auto.
Qed.

Lemma total_app_map {T} (f g : T -> Z) (l : list T) :
  total (map (fun x => f x + g x) l) = total (map f l) + total (map g l).
Proof.
  induction l as [|x l IH]; [reflexivity |].
  cbn [map total fold_right] in *. unfold total in IH. rewrite IH. lia.
Qed.

Lemma total_indicator (x : string) (l : list string) :
  NoDup l ->
  total (map (fun d => if (x =? d)%string then 1 else 0) l) =
  if str_in x l then 1 else 0.
Proof.
  induction l as [|y l IH]; intros Hl; [reflexivity |].
  inversion Hl as [|? ? Hy Hl']; subst.
  cbn [map total fold_right]. fold (total (map (fun d => if (x =? d)%string then 1 else 0) l)).
  rewrite (IH Hl'). unfold str_in. cbn [existsb].
  destruct (x =? y)%string eqn:Hxy; cbn [orb]; [| reflexivity].
  apply String.eqb_eq in Hxy. subst y.
  fold (str_in x l). destruct (str_in x l) eqn:Hin; [| reflexivity].
  apply str_in_In in Hin. contradiction.
Qed.

(** Counting the rows of each day counts every row once. *)
Lemma total_per_day {T} (day_of : T -> string) (rows : list T)
  (days : list string) :
  NoDup days -> (forall r, In r rows -> In (day_of r) days) ->
  total (map (fun d => Z.of_nat (List.length
                (filter (fun r => (day_of r =? d)%string) rows))) days) =
  Z.of_nat (List.length rows).
Proof.
  intros Hn. induction rows as [|r rows IH]; intros Hall.
  - cbn [filter List.length]. clear. induction days as [|d days IHd];
      [reflexivity | exact IHd].
  - rewrite (map_ext _
      (fun d => (if (day_of r =? d)%string then 1 else 0) +
                Z.of_nat (List.length
                  (filter (fun r0 => (day_of r0 =? d)%string) rows)))).
    2: { intros d. cbn [filter]. destruct (day_of r =? d)%string;
           cbn [List.length]; lia. }
    rewrite total_app_map, IH, (total_indicator _ _ Hn)
      by (intros r0 Hr0; apply Hall; right; exact Hr0).
    rewrite (proj2 (str_in_In _ _) (Hall r (or_introl eq_refl))).
    cbn [List.length]. lia.
Qed.

(** Without a department, and when the query goes through, the daily
    counts of the trend split the calls of the window: every day listed
    has at least one call, and the counts add up to the number of Call
    records made since the cutoff. *)
Theorem trend_counts_every_call_once (E : env) (days : Z)
  (department : option string) (w : world) :
  1 <= days <= 365 -> dept_given department = None ->
  store_available E w -> disk_ok E OpTrend = true ->
  exists (daily : list (string * Z)) (w' : world),
    volume_trend_days E days department w =
      (Return (map (fun p => trend_row (fst p) (snd p)) daily), w') /\
    (forall p, In p daily -> 1 <= snd p) /\
    total (map snd daily) =
    Z.of_nat (List.length (filter (since (cutoff_days E days)) (calls w))).
Proof.
  intros _ Hd Hav Hdisk.
  destruct (ensure_db_run E w) as (w1 & Hdb & Hw1 & _).
  rewrite (proj2 (store_ready_available E w) Hav) in Hdb.
  assert (Hc : calls w1 = calls w) by (destruct Hw1 as [-> | ->]; reflexivity).
  unfold volume_trend_days. rewrite (bind_return _ _ _ _ _ Hdb).
  unfold try_except, sql_guard, bind, get_world, ret, raise.
  rewrite Hdisk, Hd, Hc. set (cutoff := cutoff_days E days).
  set (rows := filter (since cutoff) (calls w)).
  set (day_of := fun c : call_row => sql_date (created_at c)).
  set (count := fun day : string =>
                  Z.of_nat (List.length
                    (filter (fun c => (day_of c =? day)%string) rows))).
  destruct (sorted_days (map day_of rows)) as (Hnodup & _ & Hin).
  cbn zeta in Hnodup, Hin.
  exists (map (fun day => (day, count day))
            (sort_desc (fun s => s) (dedup (map day_of rows)))), w1.
  split; [rewrite map_map; reflexivity |]. split.
  - intros p Hp. apply in_map_iff in Hp as (day & <- & Hday). cbn [snd].
    apply Hin, in_map_iff in Hday as (c & Hday & Hrow).
    unfold count.
    assert (Hmem : In c (filter (fun c0 => (day_of c0 =? day)%string) rows)).
    { apply filter_In. split; [exact Hrow |]. apply String.eqb_eq. exact Hday. }
    destruct (filter _ rows); [destruct Hmem | cbn [List.length]; lia].
  - rewrite map_map. cbn [snd]. unfold count.
    apply (total_per_day day_of rows _ Hnodup).
    intros r Hr. apply Hin. apply in_map. exact Hr.
Qed.

(** ** kpis_24h: the two rates are fractions *)

Lemma round_half_even_bounds (q : Q) (n : Z) :
  (0 <= q)%Q -> (q <= inject_Z n)%Q -> 0 <= round_half_even q <= n.
Proof.
  destruct q as [a d]. unfold Qle, inject_Z, round_half_even.
  cbn [Qnum Qden]. intros H0 H1.
  pose proof (Z.div_mod a (Z.pos d) ltac:(lia)) as Hdm.
  pose proof (Z.mod_pos_bound a (Z.pos d) ltac:(lia)) as Hm.
  set (f := a / Z.pos d) in *. set (r := a mod Z.pos d) in *.
  assert (Hf0 : 0 <= f) by nia.
  assert (Hfn : f <= n) by nia.
  destruct (Z.compare_spec (2 * r) (Z.pos d)) as [He | Hl | Hg].
  - destruct (Z.even f); [lia |]. assert (f < n) by nia. lia.
  - lia.
  - assert (f < n) by nia. lia.
Qed.

(** A negative power of two is one over an integer. *)
Lemma pow2_positive (p : positive) :
  exists N : positive, Qpower_positive 2 p = Z.pos N # 1.
Proof.
  unfold Qpower_positive.
  induction p as [p (N & IH) | p (N & IH) |]; cbn [pow_pos].
  - rewrite IH. eexists. reflexivity.
  - rewrite IH. eexists. reflexivity.
  - eexists. reflexivity.
Qed.

Lemma pow2_negative (z : Z) :
  z < 0 -> exists N : positive, Qpower 2 z = 1 # N.
Proof.
  destruct z as [|p|p]; try lia. intros _. cbn [Qpower].
  destruct (pow2_positive p) as (N & ->). exists N. reflexivity.
Qed.

(** Rounding to binary64 keeps a fraction a fraction. *)
Lemma binary64_unit (q : Q) :
  (0 <= q)%Q -> (q <= 1)%Q -> (0 <= binary64 q)%Q /\ (binary64 q <= 1)%Q.
Proof.
  intros H0 H1. unfold binary64.
  destruct (Qeq_bool q 0) eqn:Hz; [split; discriminate |].
  destruct q as [a d]. unfold Qle in H0, H1. cbn [Qnum Qden] in H0, H1.
  assert (Ha : 0 < a).
  { destruct (Z.eq_dec a 0) as [-> | Hne]; [discriminate Hz | lia]. }
  cbn [Qabs Qnum Qden]. rewrite (Z.abs_eq a) by lia.
  set (e0 := Z.log2 a - Z.log2 (Z.pos d)).
  assert (He0 : e0 <= 0).
  { pose proof (Z.log2_le_mono a (Z.pos d) ltac:(lia)). unfold e0. lia. }
  set (e := if Qle_bool (Qpower 2 e0) (a # d) then e0 else e0 - 1).
  assert (He : e - 52 < 0) by (unfold e; destruct (Qle_bool _ _); lia).
  destruct (pow2_negative _ He) as (N & ->).
  set (r := round_half_even ((a # d) / (1 # N))).
  assert (Hr : 0 <= r <= Z.pos N).
  { apply round_half_even_bounds;
      unfold Qle, Qdiv, Qmult, Qinv, inject_Z; cbn [Qnum Qden]; nia. }
  rewrite !Qred_correct.
  unfold Qle, Qmult, inject_Z. cbn [Qnum Qden]. split; nia.
Qed.

Lemma true_div_unit (a b : Z) :
  0 <= a <= b -> 0 < b ->
  (0 <= true_div a b)%Q /\ (true_div a b <= 1)%Q.
Proof.
  intros Ha Hb. unfold true_div. apply binary64_unit;
    unfold Qle; cbn [Qnum Qden]; rewrite ?Z2Pos.id by lia; lia.
Qed.

Lemma py_round3_unit (x : Q) :
  (0 <= x)%Q -> (x <= 1)%Q ->
  (0 <= py_round3 x)%Q /\ (py_round3 x <= 1)%Q.
Proof.
  intros H0 H1. unfold py_round3.
  assert (Hr : 0 <= round_half_even (x * 1000) <= 1000).
  { apply round_half_even_bounds; destruct x as [a d];
      unfold Qle, Qmult, inject_Z in *; cbn [Qnum Qden] in *; lia. }
  set (r := round_half_even (x * 1000)) in *.
  apply binary64_unit;
    unfold Qle, Qdiv, Qmult, Qinv, inject_Z; cbn [Qnum Qden]; lia.
Qed.

(** The rate built from a pair of counts. *)
Lemma rate_unit (counts : Z * Z) :
  0 <= fst counts <= snd counts ->
  let rate := if 0 <? snd counts
              then true_div (fst counts) (snd counts) else 0%Q in
  (0 <= py_round3 rate)%Q /\ (py_round3 rate <= 1)%Q.
Proof.
  intros Hc. cbn zeta. apply py_round3_unit;
    destruct (0 <? snd counts) eqn:Hp;
    try (apply Z.ltb_lt in Hp; apply (true_div_unit _ _ Hc Hp));
    discriminate.
Qed.

Lemma q_selection_counts (cutoff : string) (dept : option string) (w : world) :
  0 <= fst (q_selection cutoff dept w) <= snd (q_selection cutoff dept w).
Proof.
  destruct dept as [d|].
  - unfold q_selection. cbn [fst snd].
    rewrite (filtered_counts_coincide (ivr_interactions w) cutoff d (calls w)).
    unfold count_distinct. lia.
  - rewrite q_selection_unfiltered. cbn [fst snd].
    pose proof (filter_length_le (has_selection None w)
                  (calls_in_window cutoff w)). lia.
Qed.

Lemma q_transfers_counts (cutoff : string) (dept : option string) (w : world) :
  0 <= fst (q_transfers cutoff dept w) <= snd (q_transfers cutoff dept w).
Proof.
  unfold q_transfers. cbn [fst snd].
  match goal with
  | |- context [filter ?f ?l] => pose proof (filter_length_le f l)
  end.
  lia.
Qed.

(** Whatever the store holds, the figures [kpis_24h] reports make sense
    as figures: the volume is not negative, and the selection rate and
    the transfer success rate lie between 0 and 1 after the division and
    the rounding to three decimals, with or without a department, and
    also when the query fails (all three are then zero). *)
Theorem kpi_rates_are_fractions (E : env) (department : option string)
  (w : world) :
  store_available E w ->
  exists (volume : Z) (selection_rate transfer_success : Q) (w' : world),
    kpis_24h E department w =
      (Return (kpis_dict department volume selection_rate transfer_success),
       w') /\
    0 <= volume /\
    (0 <= selection_rate)%Q /\ (selection_rate <= 1)%Q /\
    (0 <= transfer_success)%Q /\ (transfer_success <= 1)%Q.
Proof.
  intros Hav.
  destruct (ensure_db_run E w) as (w1 & Hdb & _).
  rewrite (proj2 (store_ready_available E w) Hav) in Hdb.
  unfold kpis_24h. rewrite (bind_return _ _ _ _ _ Hdb).
  unfold try_except, sql_guard, bind, get_world, ret, raise.
  destruct (disk_ok E OpKpis).
  2: { exists 0, 0%Q, 0%Q, w1. split; [reflexivity |].
       repeat split; discriminate. }
  cbn zeta.
  destruct (rate_unit _ (q_selection_counts (cutoff_24h E)
                           (dept_given department) w1)) as (Hs0 & Hs1).
  destruct (rate_unit _ (q_transfers_counts (cutoff_24h E)
                           (dept_given department) w1)) as (Ht0 & Ht1).
  eexists _, _, _, w1. split; [reflexivity |].
  split; [unfold q_inbound_volume, count_distinct; lia |].
  repeat split; assumption.
Qed.

(** ** kpis_24h: the volume reported for a department *)

Lemma irredundant_filter (P : json -> bool) (l : list json) :
  irredundant l -> irredundant (filter P l).
Proof.
  induction l as [|x l IH]; [trivial |]. intros (Hx & Hl). cbn [filter].
  assert (Hnone : existsb (sql_eq x) (filter P l) = false).
  { clear IH Hl. induction l as [|y l IHl]; [reflexivity |].
    cbn [existsb] in Hx. apply Bool.orb_false_iff in Hx as (Hy & Hx).
    cbn [filter]. destruct (P y); cbn [existsb]; rewrite ?Hy; auto. }
  destruct (P x); cbn [irredundant]; auto.
Qed.

(** With a department, the first query counts the calls of the window
    that chose the department. *)
Lemma department_volume (cutoff d : string) (w : world) :
  q_inbound_volume cutoff (Some d) w =
  Z.of_nat (List.length (filter (has_selection (Some d) w)
                                (calls_in_window cutoff w))).
Proof.
  unfold q_inbound_volume, count_distinct, calls_in_window. f_equal.
  set (cs := calls w). set (ivrs := ivr_interactions w).
  set (l1 := map _ (filter _ (left_join cs ivrs))).
  set (ids := map call_control_id (filter (since cutoff) cs)).
  assert (Hin1 : forall y, In y l1 <->
            exists i c, In i ivrs /\ In c cs /\
              sql_eq (call_control_id c) (ivr_call i) = true /\
              since cutoff c = true /\ (ivr_department i =? d)%string = true /\
              y = call_control_id c).
  { intros y. unfold l1. rewrite in_map_iff. split.
    - intros ([c oi] & <- & Hin). apply filter_In in Hin as (Hin & Hf).
      apply Bool.andb_true_iff in Hf as (Hs & Hd). cbn in Hs, Hd.
      destruct oi as [i|]; [| discriminate Hd].
      apply in_left_join_some in Hin as (Hc & Hi & He).
      exists i, c. cbn in Hd. auto 7.
    - intros (i & c & Hi & Hc & He & Hs & Hd & ->). exists (c, Some i).
      split; [reflexivity |]. apply filter_In. split.
      + apply in_left_join_some. auto.
      + cbn. rewrite Hs, Hd. reflexivity. }
  assert (Hsel : forall y, has_selection (Some d) w y = true <->
            exists i, In i ivrs /\ sql_eq y (ivr_call i) = true /\
                      (ivr_department i =? d)%string = true).
  { intros y. unfold has_selection. rewrite existsb_exists. fold ivrs.
    split; intros (i & Hi & H); exists i.
    - apply Bool.andb_true_iff in H. tauto.
    - split; [exact Hi |]. apply Bool.andb_true_iff. tauto. }
  apply irredundant_length.
  - apply distinct_irredundant.
  - apply irredundant_filter, distinct_irredundant.
  - intros y Hy. apply distinct_In, Hin1 in Hy
      as (i & c & _ & _ & He & _ & _ & ->).
    exact (sql_eq_refl_l _ _ He).
  - intros y Hy. apply filter_In in Hy as (_ & Hy).
    apply Hsel in Hy as (i & _ & He & _). exact (sql_eq_refl_l _ _ He).
  - intros x. rewrite exists_distinct.
    apply Bool.eq_true_iff_eq. rewrite !existsb_exists. split.
    + intros (y & Hy & Hxy).
      apply Hin1 in Hy as (i & c & Hi & Hc & He & Hs & Hd & ->).
      assert (Hself : sql_eq (call_control_id c) (call_control_id c) = true)
        by exact (sql_eq_refl_l _ _ He).
      assert (Hmem : existsb (sql_eq (call_control_id c)) (distinct ids) = true).
      { rewrite exists_distinct. apply existsb_exists.
        exists (call_control_id c). split; [| exact Hself].
        unfold ids. apply in_map. apply filter_In. auto. }
      apply existsb_exists in Hmem as (y & Hy & Hcy).
      exists y. split.
      * apply filter_In. split; [exact Hy |]. apply Hsel. exists i.
        split; [exact Hi |]. split; [| exact Hd].
        rewrite sql_eq_sym in Hcy. exact (sql_eq_trans _ _ _ Hcy He).
      * exact (sql_eq_trans _ _ _ Hxy Hcy).
    + intros (y & Hy & Hxy). apply filter_In in Hy as (Hy & Hsy).
      apply distinct_In in Hy. unfold ids in Hy.
      apply in_map_iff in Hy as (c & <- & Hc).
      apply filter_In in Hc as (Hc & Hs).
      apply Hsel in Hsy as (i & Hi & He & Hd).
      exists (call_control_id c). split; [| exact Hxy].
      apply Hin1. exists i, c. auto 7.
Qed.

(** With a department, and when the query goes through, [kpis_24h]
    reports as inbound volume the number of calls of the last 24 hours
    that chose that department: a call that made no selection, or another
    one, is not counted. *)
Theorem department_volume_counts_choosers (E : env)
  (department : option string) (d : string) (w : world) :
  dept_given department = Some d ->
  store_available E w -> disk_ok E OpKpis = true ->
  exists (selection_rate transfer_success : Q) (w' : world),
    kpis_24h E department w =
    (Return (kpis_dict department
               (Z.of_nat (List.length
                  (filter (has_selection (Some d) w)
                          (calls_in_window (cutoff_24h E) w))))
               selection_rate transfer_success), w').
Proof.
  intros Hd Hav Hdisk.
  destruct (ensure_db_run E w) as (w1 & Hdb & Hw1 & _).
  rewrite (proj2 (store_ready_available E w) Hav) in Hdb.
  unfold kpis_24h. rewrite (bind_return _ _ _ _ _ Hdb).
  unfold try_except, sql_guard, bind, get_world, ret, raise.
  rewrite Hdisk, Hd. cbn zeta. rewrite department_volume.
  eexists _, _, w1. do 3 f_equal.
  destruct Hw1 as [-> | ->]; reflexivity.
Qed.

(** ** kpis_24h: the transfers behind the success rate *)

(** With call ids that are pairwise different, a value matches at most
    one Call record. *)
Lemma unique_match (x : json) (cs : list call_row) :
  irredundant (map call_control_id cs) ->
  (List.length (filter (fun c => sql_eq x (call_control_id c)) cs) <= 1)%nat.
Proof.
  induction cs as [|c cs IH]; [cbn; lia |].
  cbn [map irredundant filter]. intros (Hc & Hcs).
  destruct (sql_eq x (call_control_id c)) eqn:Hx; [| exact (IH Hcs)].
  assert (Hnone : filter (fun c0 => sql_eq x (call_control_id c0)) cs = []).
  { clear IH Hcs. induction cs as [|c' cs IHcs]; [reflexivity |].
    cbn [map existsb] in Hc. apply Bool.orb_false_iff in Hc as (Hc' & Hc).
    cbn [filter]. rewrite (sql_eq_left x (call_control_id c) _ Hx), Hc'.
    exact (IHcs Hc). }
  rewrite Hnone. cbn. lia.
Qed.

Lemma existsb_filter {T} (m s : T -> bool) (l : list T) :
  existsb (fun c => m c && s c) l = existsb s (filter m l).
Proof.
  induction l as [|c l IH]; [reflexivity |]. cbn [existsb filter].
  destruct (m c); cbn [andb existsb]; rewrite IH; reflexivity.
Qed.

(** With unique call ids, the join of transfers and calls restricted to
    the window lists each transfer of the window once. *)
Lemma window_transfers (cutoff : string) (w : world) :
  irredundant (stored_call_ids w) ->
  map (fun r : transfer_row * call_row => status (fst r))
    (filter (fun r => since cutoff (snd r))
            (transfers_join_calls (transfers w) (calls w))) =
  map status (filter (transfer_in_window cutoff w) (transfers w)).
Proof.
  intros Hu. unfold transfers_join_calls, transfer_in_window, stored_call_ids in *.
  induction (transfers w) as [|t ts IH]; [reflexivity |].
  cbn [flat_map filter]. rewrite filter_app, map_app, IH. clear IH.
  rewrite existsb_filter.
  pose proof (unique_match (tr_call t) (calls w) Hu) as Hone.
  destruct (filter (fun c => sql_eq (tr_call t) (call_control_id c)) (calls w))
    as [|c [|c' rest]]; cbn in Hone; try lia; [reflexivity |].
  cbn. destruct (since cutoff c); reflexivity.
Qed.

(** Without a department, when the query goes through and no two Call
    records share a call id, the transfer success rate is taken over the
    transfers whose call was made in the last 24 hours, each counted
    once: those with status [success] over all of them, and 0.0 when
    there is none. *)
Theorem transfer_success_counts_window_transfers (E : env)
  (department : option string) (w : world) :
  dept_given department = None ->
  store_available E w -> disk_ok E OpKpis = true ->
  irredundant (stored_call_ids w) ->
  let attempts := filter (transfer_in_window (cutoff_24h E) w) (transfers w) in
  let succeeded := filter (fun t => ("success" =? status t)%string) attempts in
  exists (volume : Z) (selection_rate : Q) (w' : world),
    kpis_24h E department w =
    (Return (kpis_dict department volume selection_rate
               (py_round3
                  (if 0 <? Z.of_nat (List.length attempts)
                   then true_div (Z.of_nat (List.length succeeded))
                                 (Z.of_nat (List.length attempts))
                   else 0%Q))), w').
Proof.
  intros Hd Hav Hdisk Hu. cbn zeta.
  destruct (ensure_db_run E w) as (w1 & Hdb & Hw1 & _).
  rewrite (proj2 (store_ready_available E w) Hav) in Hdb.
  assert (Hu1 : irredundant (stored_call_ids w1))
    by (destruct Hw1 as [-> | ->]; exact Hu).
  unfold kpis_24h. rewrite (bind_return _ _ _ _ _ Hdb).
  unfold try_except, sql_guard, bind, get_world, ret, raise.
  rewrite Hdisk, Hd. cbn zeta.
  unfold q_transfers at 1 2 3. cbn [fst snd].
  rewrite (window_transfers (cutoff_24h E) w1 Hu1).
  assert (Hf : forall l : list transfer_row,
            filter (String.eqb "success") (map status l) =
            map status (filter (fun t => ("success" =? status t)%string) l)).
  { induction l as [|t l IH]; [reflexivity |]. cbn [map filter].
    destruct ("success" =? status t)%string; cbn [map]; rewrite IH;
      reflexivity. }
  rewrite Hf, !length_map.
  eexists _, _, w1. do 3 f_equal.
  destruct Hw1 as [-> | ->]; reflexivity.
Qed.

(** ** A window without calls *)

Lemma filter_none {T} (f : T -> bool) (l : list T) :
  (forall x, In x l -> f x = false) -> filter f l = [].
Proof.
  induction l as [|x l IH]; [reflexivity |]. intros H. cbn [filter].
  rewrite (H x (or_introl eq_refl)). apply IH.
  intros y Hy. apply H. right. exact Hy.
Qed.

Lemma in_transfers_join_calls (ts : list transfer_row) (cs : list call_row)
  (r : transfer_row * call_row) :
  In r (transfers_join_calls ts cs) -> In (snd r) cs.
Proof.
  unfold transfers_join_calls. rewrite in_flat_map.
  intros (t & _ & Hr). apply in_map_iff in Hr as (c & <- & Hc).
  apply filter_In in Hc. apply Hc.
Qed.

Lemma in_then_join_ivr (tcs : list (transfer_row * call_row))
  (ivrs : list ivr_row) (r : transfer_row * call_row * ivr_row) :
  In r (then_join_ivr tcs ivrs) -> In (fst r) tcs.
Proof.
  unfold then_join_ivr. rewrite in_flat_map.
  intros (tc & Htc & Hr). apply in_map_iff in Hr as (i & <- & _). exact Htc.
Qed.

(** Every query of [kpis_24h] is empty when no call is in the window. *)
Lemma quiet_queries (cutoff : string) (dept : option string) (w : world) :
  (forall c, In c (calls w) -> since cutoff c = false) ->
  q_inbound_volume cutoff dept w = 0 /\
  q_selection cutoff dept w = (0, 0) /\
  q_transfers cutoff dept w = (0, 0).
Proof.
  intros Hq.
  assert (Hl : forall (g : call_row * option ivr_row -> bool),
            filter (fun r => since cutoff (fst r) && g r)
                   (left_join (calls w) (ivr_interactions w)) = []).
  { intros g. apply filter_none. intros r Hr.
    rewrite (Hq _ (in_left_join_fst _ _ _ Hr)). reflexivity. }
  assert (Hl' : filter (fun r : call_row * option ivr_row =>
                          since cutoff (fst r))
                       (left_join (calls w) (ivr_interactions w)) = []).
  { apply filter_none. intros r Hr. exact (Hq _ (in_left_join_fst _ _ _ Hr)). }
  assert (Hi : forall (g : ivr_row * call_row -> bool),
            filter (fun r => since cutoff (snd r) && g r)
                   (ivr_join_calls (ivr_interactions w) (calls w)) = []).
  { intros g. apply filter_none. intros [i c] Hr.
    apply in_ivr_join_calls in Hr as (_ & Hc & _). cbn [snd].
    rewrite (Hq _ Hc). reflexivity. }
  assert (Ht : filter (fun r : transfer_row * call_row => since cutoff (snd r))
                 (transfers_join_calls (transfers w) (calls w)) = []).
  { apply filter_none. intros r Hr.
    exact (Hq _ (in_transfers_join_calls _ _ _ Hr)). }
  assert (Ht' : forall (g : transfer_row * call_row * ivr_row -> bool),
            filter (fun r => since cutoff (snd (fst r)) && g r)
                   (then_join_ivr
                      (transfers_join_calls (transfers w) (calls w))
                      (ivr_interactions w)) = []).
  { intros g. apply filter_none. intros r Hr.
    rewrite (Hq _ (in_transfers_join_calls _ _ _ (in_then_join_ivr _ _ _ Hr))).
    reflexivity. }
  unfold q_inbound_volume, q_selection, q_transfers.
  destruct dept as [d|].
  - rewrite (Hl (fun r => ivr_dept_is d (snd r))),
            (Hi (fun r => (ivr_department (fst r) =? d)%string)),
            (Ht' (fun r => (ivr_department (snd r) =? d)%string)).
    repeat split.
  - rewrite (Hl (fun _ => true)), Hl', Ht. repeat split.
Qed.

(** When no Call record was made since the cutoff, [kpis_24h] divides by
    nothing: it reports a volume of 0 and both rates as 0.0, whatever the
    other tables hold; and [volume_trend_days] reports no day at all. *)
Theorem quiet_window_reports_nothing (E : env) (days : Z)
  (department : option string) (w : world) :
  store_available E w ->
  ((forall c, In c (calls w) -> since (cutoff_24h E) c = false) ->
   exists w' : world,
     kpis_24h E department w =
     (Return (kpis_dict department 0 0%Q 0%Q), w')) /\
  (1 <= days <= 365 ->
   (forall c, In c (calls w) -> since (cutoff_days E days) c = false) ->
   exists w' : world,
     volume_trend_days E days department w = (Return [], w')).
Proof.
  intros Hav.
  destruct (ensure_db_run E w) as (w1 & Hdb & Hw1 & _).
  rewrite (proj2 (store_ready_available E w) Hav) in Hdb.
  assert (Hc : calls w1 = calls w) by (destruct Hw1 as [-> | ->]; reflexivity).
  split.
  - intros Hq. rewrite <- Hc in Hq.
    unfold kpis_24h. rewrite (bind_return _ _ _ _ _ Hdb).
    unfold try_except, sql_guard, bind, get_world, ret, raise.
    destruct (disk_ok E OpKpis); [| exists w1; reflexivity].
    destruct (quiet_queries (cutoff_24h E) (dept_given department) w1 Hq)
      as (-> & -> & ->).
    exists w1. reflexivity.
  - intros _ Hq. rewrite <- Hc in Hq.
    unfold volume_trend_days. rewrite (bind_return _ _ _ _ _ Hdb).
    unfold try_except, sql_guard, bind, get_world, ret, raise.
    destruct (disk_ok E OpTrend); [| exists w1; reflexivity].
    destruct (dept_given department) as [d|].
    + rewrite (filter_none _ (left_join (calls w1) (ivr_interactions w1))).
      * exists w1. reflexivity.
      * intros r Hr. rewrite (Hq _ (in_left_join_fst _ _ _ Hr)). reflexivity.
    + rewrite (filter_none _ (calls w1) Hq). exists w1. reflexivity.
Qed.

(** ** The further statements at work on concrete data *)

Lemma settled_call_stays_ignored_witness :
  webhook plain_repr quiet_env (gather_abc "2")
    (deliveries plain_repr
       [(quiet_env, initiated_abc); (refusing_env, gather_abc "1")]
       abc_routed) =
  (Return (ack "gather_ignored"),
   deliveries plain_repr
     [(quiet_env, initiated_abc); (refusing_env, gather_abc "1")] abc_routed).
Proof.
  exact (proj2 (settled_call_stays_ignored plain_repr
                  [(quiet_env, initiated_abc); (refusing_env, gather_abc "1")]
                  quiet_env (gather_abc "2") (abc_fields "2") abc_routed
                  eq_refl (or_introl eq_refl))).
Defined.

Lemma call_ids_stay_unique_witness :
  irredundant
    (stored_call_ids
       (deliveries plain_repr
          [(quiet_env, initiated_abc); (quiet_env, initiated_abc)]
          initial_world)).
Proof.
  exact (call_ids_stay_unique plain_repr
           [(quiet_env, initiated_abc); (quiet_env, initiated_abc)]
           initial_world I).
Defined.

Lemma audit_rows_stay_well_formed_witness :
  Forall ivr_row_ok
    (ivr_interactions
       (deliveries plain_repr [(quiet_env, gather_abc "2")] initial_world)) /\
  Forall transfer_row_ok
    (transfers
       (deliveries plain_repr [(quiet_env, gather_abc "2")] initial_world)).
Proof.
  exact (audit_rows_stay_well_formed plain_repr [(quiet_env, gather_abc "2")]
           initial_world (Forall_nil _) (Forall_nil _)).
Defined.



Lemma answer_failure_stops_menu_witness :
  exists (w' : world) (answered : option Z),
    webhook plain_repr refusing_env initiated_abc initial_world =
      (Return (ack "answer_failed"), w') /\
    issued initial_world w' = [abc_answer answered] /\
    is_200 answered = false.
Proof.
  exact (answer_failure_stops_menu plain_repr refusing_env initiated_abc
           initiated_abc_fields initial_world
           eq_refl eq_refl (or_intror eq_refl) eq_refl).
Defined.


Lemma other_events_only_log_witness :
  posted (snd (webhook plain_repr quiet_env hangup_abc abc_routed)) = [] /\
  ROUTED_CALLS (snd (webhook plain_repr quiet_env hangup_abc abc_routed)) =
    [JStr "abc"] /\
  calls (snd (webhook plain_repr quiet_env hangup_abc abc_routed)) = [] /\
  ivr_interactions (snd (webhook plain_repr quiet_env hangup_abc abc_routed)) =
    [] /\
  transfers (snd (webhook plain_repr quiet_env hangup_abc abc_routed)) = [].
Proof.
  exact (other_events_only_log plain_repr quiet_env hangup_abc
           (JStr "call.hangup") (JDict [("call_control_id", JStr "abc")])
           abc_routed eq_refl eq_refl eq_refl).
Defined.

Lemma requests_are_actions_on_the_call_witness :
  requests_on plain_repr quiet_env (JStr "abc") 2 initial_world
    (snd (webhook plain_repr quiet_env initiated_abc initial_world)).
Proof.
  exact (requests_are_actions_on_the_call plain_repr quiet_env initiated_abc
           (JStr "call.initiated") (JDict initiated_abc_fields) initial_world
           eq_refl).
Defined.

Lemma call_handling_ignores_the_store_witness :
  fst (webhook plain_repr quiet_env (gather_abc "2") initial_world) =
  fst (webhook plain_repr failing_disk_env (gather_abc "2")
         two_calls_one_selection) /\
  same_routing
    (snd (webhook plain_repr quiet_env (gather_abc "2") initial_world))
    (snd (webhook plain_repr failing_disk_env (gather_abc "2")
            two_calls_one_selection)).
Proof.
  apply (call_handling_ignores_the_store plain_repr quiet_env failing_disk_env
           (gather_abc "2") initial_world two_calls_one_selection).
  - split; [| split]; intros; reflexivity.
  - split; [| split]; reflexivity.
  - right. reflexivity.
  - left. reflexivity.
Defined.

Lemma transfer_leaves_audit_trail_witness :
  exists (uri : string) (answered : option Z) (command_id : string),
    DEPARTMENT_URIS quiet_env "support" = Some uri /\
    issued initial_world
      (snd (webhook plain_repr quiet_env (gather_abc "2") initial_world)) =
      [mkPost "https://api.telnyx.com/v2/calls/abc/actions/transfer"
              (JDict [("to", JStr uri); ("command_id", JStr command_id)])
              answered] /\
    call_events
      (snd (webhook plain_repr quiet_env (gather_abc "2") initial_world)) =
      [mkEvent (JStr "abc") (JStr "call.gather.ended") (utcnow quiet_env)
               (Some (JDict (abc_fields "2")))] /\
    ivr_interactions
      (snd (webhook plain_repr quiet_env (gather_abc "2") initial_world)) =
      [mkIvr (JStr "abc") "2" "support" (utcnow quiet_env)] /\
    transfers
      (snd (webhook plain_repr quiet_env (gather_abc "2") initial_world)) =
      [mkTransfer (JStr "abc") uri
         (if is_200 answered then "success" else "error") (utcnow quiet_env)] /\
    calls
      (snd (webhook plain_repr quiet_env (gather_abc "2") initial_world)) = [].
Proof.
  assert (Hne : "abc" <> "") by discriminate.
  exact (transfer_leaves_audit_trail plain_repr quiet_env (gather_abc "2")
           (abc_fields "2") "abc" "support" initial_world
           eq_refl eq_refl Hne eq_refl eq_refl eq_refl (or_intror eq_refl)
           (fun _ => eq_refl)).
Defined.

Lemma started_process_has_a_clean_key_witness :
  strip "KEY123" = "KEY123" /\
  exists rest : string,
    "KEY123" = "KEY" ++ rest /\
    In ("Authorization", "Bearer KEY" ++ rest) (_headers "KEY123").
Proof.
  exact (started_process_has_a_clean_key keyed_env "KEY123" eq_refl).
Defined.

Lemma numeric_parameter_round_trip_witness :
  (exists (trend : list json) (w' : world),
     get_trend quiet_env (Some "30") None two_calls_one_selection =
     (Return (JDict [("days", JInt 30); ("department", JStr "all");
                     ("trend", JList trend)], 200), w')) /\
  (exists (rows : list json) (w' : world),
     get_recent_calls quiet_env (Some "30") None two_calls_one_selection =
     (Return (JDict [("limit", JInt 30); ("department", JStr "all");
                     ("calls", JList rows)], 200), w')).
Proof.
  assert (H1 : 1 <= 30) by discriminate.
  assert (H2 : 30 <= 365) by discriminate.
  assert (H3 : 30 <= 1000) by discriminate.
  destruct (numeric_parameter_round_trip quiet_env 30 None
              two_calls_one_selection H1 eq_refl (or_introl eq_refl))
    as (Ht & Hr).
  split; [exact (Ht H2) | exact (Hr H3)].
Defined.

Lemma recent_calls_are_newest_first_witness :
  exists (picked : list (call_row * option ivr_row)) (w' : world),
    recent_calls quiet_env 1 None two_calls_one_selection =
      (Return (map recent_row picked), w') /\
    Z.of_nat (List.length picked) <= 1 /\
    newest_first (map (fun r => created_at (fst r)) picked) /\
    forall r, In r picked ->
      In r (left_join (calls two_calls_one_selection)
                      (ivr_interactions two_calls_one_selection)) /\
      forall d, dept_given None = Some d -> ivr_dept_is d (snd r) = true.
Proof.
  assert (H : 0 <= 1 < 2 ^ 63) by (split; [discriminate | reflexivity]).
  exact (recent_calls_are_newest_first quiet_env 1 None
           two_calls_one_selection H (or_introl eq_refl)).
Defined.

Lemma trend_days_descend_witness :
  exists (daily : list (string * Z)) (w' : world),
    volume_trend_days quiet_env 7 (Some "sales") two_calls_one_selection =
      (Return (map (fun p => trend_row (fst p) (snd p)) daily), w') /\
    descending (map fst daily) /\
    forall p, In p daily ->
      0 <= snd p /\
      exists c, In c (calls two_calls_one_selection) /\
                since (cutoff_days quiet_env 7) c = true /\
                sql_date (created_at c) = fst p.
Proof.
  assert (H : 1 <= 7 <= 365) by (split; discriminate).
  exact (trend_days_descend quiet_env 7 (Some "sales")
           two_calls_one_selection H (or_introl eq_refl)).
Defined.

Lemma trend_counts_every_call_once_witness :
  exists (daily : list (string * Z)) (w' : world),
    volume_trend_days quiet_env 7 None two_calls_one_selection =
      (Return (map (fun p => trend_row (fst p) (snd p)) daily), w') /\
    (forall p, In p daily -> 1 <= snd p) /\
    total (map snd daily) = 2.
Proof.
  assert (H : 1 <= 7 <= 365) by (split; discriminate).
  exact (trend_counts_every_call_once quiet_env 7 None
           two_calls_one_selection H eq_refl (or_introl eq_refl) eq_refl).
Defined.

Lemma kpi_rates_are_fractions_witness :
  exists (volume : Z) (selection_rate transfer_success : Q) (w' : world),
    kpis_24h quiet_env (Some "sales") two_transfers =
      (Return (kpis_dict (Some "sales") volume selection_rate
                 transfer_success), w') /\
    0 <= volume /\
    (0 <= selection_rate)%Q /\ (selection_rate <= 1)%Q /\
    (0 <= transfer_success)%Q /\ (transfer_success <= 1)%Q.
Proof.
  exact (kpi_rates_are_fractions quiet_env (Some "sales") two_transfers
           (or_introl eq_refl)).
Defined.

Lemma department_volume_counts_choosers_witness :
  exists (selection_rate transfer_success : Q) (w' : world),
    kpis_24h quiet_env (Some "sales") two_transfers =
    (Return (kpis_dict (Some "sales") 1 selection_rate transfer_success), w').
Proof.
  exact (department_volume_counts_choosers quiet_env (Some "sales") "sales"
           two_transfers eq_refl (or_introl eq_refl) eq_refl).
Defined.

Lemma transfer_success_counts_window_transfers_witness :
  exists (volume : Z) (selection_rate : Q) (w' : world),
    kpis_24h quiet_env None two_transfers =
    (Return (kpis_dict None volume selection_rate
               (py_round3 (true_div 1 2))), w').
Proof.
  assert (Hu : irredundant (stored_call_ids two_transfers))
    by (repeat split).
  exact (transfer_success_counts_window_transfers quiet_env None two_transfers
           eq_refl (or_introl eq_refl) eq_refl Hu).
Defined.

Lemma initiated_stores_the_call_witness :
  calls (snd (webhook plain_repr quiet_env initiated_abc_no_to initial_world)) =
  [mkCall (JStr "abc") (JStr "+1555") (JStr "unknown") (utcnow quiet_env)].
Proof.
  assert (Hne : "abc" <> "") by discriminate.
  exact (proj1 (initiated_stores_the_call plain_repr quiet_env
                  initiated_abc_no_to
                  [("call_control_id", JStr "abc"); ("from", JStr "+1555")]
                  "abc" (JStr "+1555") (JStr "unknown") initial_world
                  eq_refl eq_refl Hne eq_refl (or_intror eq_refl) eq_refl
                  eq_refl eq_refl)).
Defined.

Lemma sets_change_for_a_reason_witness :
  exists (ev : json) (p : post_record),
    request_event (gather_abc "2") = Some (JStr "call.gather.ended", ev) /\
    ROUTED_CALLS (snd (webhook plain_repr quiet_env (gather_abc "2")
                         initial_world)) =
      delivered_call ev :: ROUTED_CALLS initial_world /\
    issued initial_world
      (snd (webhook plain_repr quiet_env (gather_abc "2") initial_world)) =
      [p] /\
    p_url p = action_url plain_repr (delivered_call ev) "transfer" /\
    is_200 (p_status p) = true.
Proof.
  apply (proj1 (sets_change_for_a_reason plain_repr quiet_env (gather_abc "2")
                  initial_world)).
  discriminate.
Defined.

Lemma quiet_window_reports_nothing_witness :
  (exists w' : world,
     kpis_24h quiet_env (Some "sales") last_month =
     (Return (kpis_dict (Some "sales") 0 0%Q 0%Q), w')) /\
  (exists w' : world,
     volume_trend_days quiet_env 7 None last_month = (Return [], w')).
Proof.
  assert (H7 : 1 <= 7 <= 365) by (split; discriminate).
  destruct (quiet_window_reports_nothing quiet_env 7 (Some "sales") last_month
              (or_introl eq_refl)) as (Hk & _).
  destruct (quiet_window_reports_nothing quiet_env 7 None last_month
              (or_introl eq_refl)) as (_ & Ht).
  split.
  - apply Hk. intros c [<- | []]. reflexivity.
  - apply (Ht H7). intros c [<- | []]. reflexivity.
Defined.
